(** * The QUIC connection dispatcher (quiche/quic/core/quic_dispatcher.cc)

    A shallow embedding of [QuicDispatcher] and of the helpers of its
    translation unit.  State is passed explicitly: every member function
    takes the dispatcher and returns the dispatcher it leaves behind.
    What the dispatcher hands to the outside world (datagrams given to the
    writer, code counters, QUIC_BUG reports, calls of virtual hooks) is
    appended to a log kept in the state, oldest entry first.

    Classes the translation unit uses but does not define (the packet
    framer, the version manager, the crypto and TLS CHLO extractors, the
    connection-ID generator, the session factory) are fields of
    [Externals]; feature flags are fields of [Flags].  The buffered packet
    store, the time-wait list and the packet creator carry state the
    dispatcher reads back, so they are given definitions, each marked as
    following the written specification.

    Left out: QUICHE_DCHECK and the flag-count macros, which do not change
    what the dispatcher does; logging; and what a session does with a packet
    once [ProcessUdpPacket] has handed it over, which is recorded in the
    session and nothing more.  [new_sessions_allowed_per_event_loop_] is an
    [int16_t]: what is assigned to it is brought into its range by
    [to_int16_t].  The length of a connection ID is not reduced to eight
    bits: the dispatcher never holds a connection ID of more than 255
    octets. *)

From stdpp Require Import gmap strings list pretty.

Open Scope N_scope.

(** ** Plain data *)

(** A connection ID is an opaque string of octets, compared by value. *)
Abbreviation QuicConnectionId := (list N).

Definition EmptyQuicConnectionId : QuicConnectionId := [].

Definition cid_length (c : QuicConnectionId) : N := N.of_nat (length c).

Record QuicSocketAddress := { host : N; port : N }.

#[global] Instance QuicSocketAddress_eq_dec : EqDecision QuicSocketAddress.
Proof. solve_decision. Defined.

#[global] Instance QuicSocketAddress_countable : Countable QuicSocketAddress.
Proof.
  refine (inj_countable' (λ a, (host a, port a))
            (λ p, {| host := p.1; port := p.2 |}) _).
  by intros [].
Defined.

Inductive PacketHeaderFormat :=
| IETF_QUIC_LONG_HEADER_PACKET
| IETF_QUIC_SHORT_HEADER_PACKET
| GOOGLE_QUIC_PACKET.

#[global] Instance PacketHeaderFormat_eq_dec : EqDecision PacketHeaderFormat.
Proof. solve_decision. Defined.

Inductive QuicLongHeaderType :=
| VERSION_NEGOTIATION
| INITIAL
| ZERO_RTT_PROTECTED
| HANDSHAKE
| RETRY
| INVALID_PACKET_TYPE.

#[global] Instance QuicLongHeaderType_eq_dec : EqDecision QuicLongHeaderType.
Proof. solve_decision. Defined.

(** [ParsedQuicVersion]: a handshake protocol and a transport version,
    compared field by field. *)
Record ParsedQuicVersion := {
  handshake_protocol : N;
  transport_version : N
}.

#[global] Instance ParsedQuicVersion_eq_dec : EqDecision ParsedQuicVersion.
Proof. solve_decision. Defined.

(** The error codes the dispatcher names, and a carrier for the others
    (framing errors of the header parser, codes derived from TLS alerts). *)
Inductive QuicErrorCode :=
| QUIC_NO_ERROR
| QUIC_INVALID_PACKET_HEADER
| QUIC_HANDSHAKE_FAILED
| QUIC_PEER_GOING_AWAY
| QUIC_ERROR_CODE (code : N).

#[global] Instance QuicErrorCode_eq_dec : EqDecision QuicErrorCode.
Proof. solve_decision. Defined.

Inductive QuicPacketFate := kFateProcess | kFateTimeWait | kFateDrop.

#[global] Instance QuicPacketFate_eq_dec : EqDecision QuicPacketFate.
Proof. solve_decision. Defined.

(** A received datagram: its octets and its receipt time. *)
Record QuicReceivedPacket := {
  data : list N;
  receipt_time : N
}.

#[global] Instance QuicReceivedPacket_eq_dec : EqDecision QuicReceivedPacket.
Proof. solve_decision. Defined.

Definition packet_length (p : QuicReceivedPacket) : N := N.of_nat (length (data p)).

(** [ReceivedPacketInfo]: the datagram and what the public-header parser
    read from it. *)
Record ReceivedPacketInfo := {
  self_address : QuicSocketAddress;
  peer_address : QuicSocketAddress;
  packet : QuicReceivedPacket;
  form : PacketHeaderFormat;
  long_packet_type : QuicLongHeaderType;
  version_flag : bool;
  use_length_prefix : bool;
  version_label : N;
  version : ParsedQuicVersion;
  destination_connection_id : QuicConnectionId;
  source_connection_id : QuicConnectionId;
  retry_token : option (list N)
}.

Definition set_destination_connection_id (c : QuicConnectionId)
    (pi : ReceivedPacketInfo) : ReceivedPacketInfo :=
  {| self_address := self_address pi; peer_address := peer_address pi;
     packet := packet pi; form := form pi;
     long_packet_type := long_packet_type pi; version_flag := version_flag pi;
     use_length_prefix := use_length_prefix pi;
     version_label := version_label pi; version := version pi;
     destination_connection_id := c;
     source_connection_id := source_connection_id pi;
     retry_token := retry_token pi |}.

(** What [QuicFramer::ParsePublicHeaderDispatcher] writes through its
    out-parameters. *)
Record PublicHeader := {
  ph_form : PacketHeaderFormat;
  ph_long_packet_type : QuicLongHeaderType;
  ph_version_flag : bool;
  ph_use_length_prefix : bool;
  ph_version_label : N;
  ph_version : ParsedQuicVersion;
  ph_destination_connection_id : QuicConnectionId;
  ph_source_connection_id : QuicConnectionId;
  ph_retry_token : option (list N)
}.

Definition make_packet_info (self peer : QuicSocketAddress)
    (p : QuicReceivedPacket) (h : PublicHeader) : ReceivedPacketInfo :=
  {| self_address := self; peer_address := peer; packet := p;
     form := ph_form h; long_packet_type := ph_long_packet_type h;
     version_flag := ph_version_flag h;
     use_length_prefix := ph_use_length_prefix h;
     version_label := ph_version_label h; version := ph_version h;
     destination_connection_id := ph_destination_connection_id h;
     source_connection_id := ph_source_connection_id h;
     retry_token := ph_retry_token h |}.

Record ParsedClientHello := {
  sni : string;
  uaid : string;
  alpns : list string;
  legacy_version_encapsulation_inner_packet : list N;
  chlo_retry_token : list N;
  resumption_attempted : bool;
  early_data_attempted : bool
}.

#[global] Instance ParsedClientHello_eq_dec : EqDecision ParsedClientHello.
Proof. solve_decision. Defined.

(** A legacy-crypto handshake message: tag/value pairs, read with
    [GetStringPiece]. *)
Abbreviation CryptoHandshakeMessage := (list (string * list N)).

Fixpoint GetStringPiece (chlo : CryptoHandshakeMessage) (tag : string)
    : option (list N) :=
  match chlo with
  | [] => None
  | (t, v) :: rest => if String.eqb t tag then Some v else GetStringPiece rest tag
  end.

Definition kALPN : string := "ALPN".
Definition kSNI : string := "SNI".
Definition kUAID : string := "UAID".
Definition kQLVE : string := "QLVE".

(** Octets as text, for the fields the dispatcher keeps as [std::string]. *)
Definition string_of_octets (l : list N) : string :=
  String.string_of_list_ascii (map (λ n, Ascii.ascii_of_N n) l).

(** ** Frames and serialized packets *)

Inductive QuicIetfTransportErrorCodes := NO_IETF_QUIC_ERROR.

#[global] Instance QuicIetfTransportErrorCodes_eq_dec :
  EqDecision QuicIetfTransportErrorCodes.
Proof. solve_decision. Defined.

Inductive QuicFrame :=
| ConnectionCloseFrame (transport : N) (error_code : QuicErrorCode)
    (ietf_error : QuicIetfTransportErrorCodes) (error_details : string)
    (transport_close_frame_type : N).

#[global] Instance QuicFrame_eq_dec : EqDecision QuicFrame.
Proof. solve_decision. Defined.

(** Packets the dispatcher builds or has built, by what they carry:
    - a packet serialized by a packet creator: the frames, the connection ID
      in its header, and the connection ID its initial keys derive from;
    - a version-negotiation packet;
    - a stateless (public) reset answering a datagram of a given length. *)
Inductive QuicEncryptedPacket :=
| InitialEncryptedPacket (ver : ParsedQuicVersion)
    (header_cid : QuicConnectionId) (initial_keys_cid : QuicConnectionId)
    (frames : list QuicFrame)
| VersionNegotiationPacket (server_cid client_cid : QuicConnectionId)
    (ietf_quic with_length_prefix : bool) (versions : list ParsedQuicVersion)
| PublicResetPacket (cid : QuicConnectionId) (ietf_quic : bool)
    (received_packet_length : N).

#[global] Instance QuicEncryptedPacket_eq_dec : EqDecision QuicEncryptedPacket.
Proof. solve_decision. Defined.

(** ** The blocked UDP source ports *)

Definition blocked_ports : list N :=
  [0; 17; 19; 53; 111; 123; 137; 138; 161; 389; 500; 1900; 3702; 5353; 5355;
   11211].

Definition num_blocked_ports : nat := length blocked_ports.

Definition highest_blocked_port : N :=
  nth (num_blocked_ports - 1) blocked_ports 0.

(** The loop [for (i = 0; i < num_blocked_ports; i++)] over the table. *)
Fixpoint blocked_ports_scan (port : N) (table : list N) : bool :=
  match table with
  | [] => false
  | b :: rest => if port =? b then true else blocked_ports_scan port rest
  end.

Definition IsSourceUdpPortBlocked (port : N) : bool :=
  if highest_blocked_port <? port then false
  else blocked_ports_scan port blocked_ports.

(** ** The TLS CHLO extractor *)

Inductive TlsChloExtractorState :=
| kInitial
| kParsedPartialChlo
| kParsedFullChlo
| kAlert.

#[global] Instance TlsChloExtractorState_eq_dec : EqDecision TlsChloExtractorState.
Proof. solve_decision. Defined.

Record TlsChloExtractor := {
  state : TlsChloExtractorState;
  extracted_alpns : list string;
  server_name : string;
  extracted_resumption_attempted : bool;
  extracted_early_data_attempted : bool;
  alert_code : N
}.

Definition new_TlsChloExtractor : TlsChloExtractor :=
  {| state := kInitial; extracted_alpns := []; server_name := "";
     extracted_resumption_attempted := false;
     extracted_early_data_attempted := false; alert_code := 0 |}.

Definition HasParsedFullChlo (x : TlsChloExtractor) : bool :=
  bool_decide (state x = kParsedFullChlo).

(** Modelled from the spec: the extractor's alert accessor, whose class is
    not in this translation unit.  "Output when kAlert: an 8-bit TLS alert
    code"; in every other state there is none. *)
Definition tls_alert (x : TlsChloExtractor) : option N :=
  if bool_decide (state x = kAlert) then Some (alert_code x) else None.

(** ** The buffered-packet store: data *)

Record BufferedPacket := {
  bp_packet : QuicReceivedPacket;
  bp_self_address : QuicSocketAddress;
  bp_peer_address : QuicSocketAddress
}.

Record BufferedPacketList := {
  buffered_packets : list BufferedPacket;
  parsed_chlo : option ParsedClientHello;
  ietf_quic : bool;
  list_version : ParsedQuicVersion;
  tls_chlo_extractor : TlsChloExtractor;
  creation_time : N
}.

Inductive EnqueuePacketResult :=
| SUCCESS
| TOO_MANY_PACKETS
| CONNECTION_POOL_FULL
| CHLO_ALREADY_DELIVERED
| DROP.

#[global] Instance EnqueuePacketResult_eq_dec : EqDecision EnqueuePacketResult.
Proof. solve_decision. Defined.

(** One list per connection ID, oldest connection first, and the
    connection IDs whose CHLO is complete, in order of completion. *)
Record QuicBufferedPacketStore := {
  lists : list (QuicConnectionId * BufferedPacketList);
  chlo_order : list QuicConnectionId
}.

Definition empty_store : QuicBufferedPacketStore :=
  {| lists := []; chlo_order := [] |}.

(** ** The time-wait list: data *)

Inductive TimeWaitAction :=
| SEND_STATELESS_RESET
| SEND_CONNECTION_CLOSE_PACKETS
| SEND_TERMINATION_PACKETS
| DO_NOTHING.

#[global] Instance TimeWaitAction_eq_dec : EqDecision TimeWaitAction.
Proof. solve_decision. Defined.

Record TimeWaitConnectionInfo := {
  tw_ietf_quic : bool;
  termination_packets : list QuicEncryptedPacket;
  active_connection_ids : list QuicConnectionId;
  srtt : N
}.

#[global] Instance TimeWaitConnectionInfo_eq_dec : EqDecision TimeWaitConnectionInfo.
Proof. solve_decision. Defined.

(** The constructor [TimeWaitConnectionInfo(ietf_quic, termination_packets,
    active_connection_ids, srtt)]; a null packet pointer leaves the saved
    packets empty, and the three-argument form has a zero RTT. *)
Definition make_TimeWaitConnectionInfo (ietf : bool)
    (packets : option (list QuicEncryptedPacket))
    (cids : list QuicConnectionId) (rtt : N) : TimeWaitConnectionInfo :=
  {| tw_ietf_quic := ietf; termination_packets := default [] packets;
     active_connection_ids := cids; srtt := rtt |}.

Record TimeWaitEntry := {
  action : TimeWaitAction;
  info : TimeWaitConnectionInfo
}.

#[global] Instance TimeWaitEntry_eq_dec : EqDecision TimeWaitEntry.
Proof. solve_decision. Defined.

(** ** Sessions *)

(** What the dispatcher sees of a session: the connection ID and version of
    its connection, the original destination connection ID once set, and
    the datagrams handed to [ProcessUdpPacket], oldest first. *)
Record QuicSession := {
  connection_id : QuicConnectionId;
  session_version : ParsedQuicVersion;
  original_destination_connection_id : option QuicConnectionId;
  received : list (QuicSocketAddress * QuicSocketAddress * QuicReceivedPacket)
}.

Definition session_ProcessUdpPacket (self peer : QuicSocketAddress)
    (p : QuicReceivedPacket) (s : QuicSession) : QuicSession :=
  {| connection_id := connection_id s; session_version := session_version s;
     original_destination_connection_id := original_destination_connection_id s;
     received := received s ++ [(self, peer, p)] |}.

Definition SetOriginalDestinationConnectionId (c : QuicConnectionId)
    (s : QuicSession) : QuicSession :=
  {| connection_id := connection_id s; session_version := session_version s;
     original_destination_connection_id := Some c;
     received := received s |}.

(** ** What leaves the dispatcher *)

Inductive Event :=
| CodeCount (name : string)
| QuicBug (name : string)
| WritePacket (self peer : QuicSocketAddress) (p : QuicEncryptedPacket)
| CreateQuicSessionCall (cid : QuicConnectionId)
    (self peer : QuicSocketAddress) (alpn : string)
    (ver : ParsedQuicVersion) (chlo : ParsedClientHello)
| BufferPacketFailure (rs : EnqueuePacketResult) (cid : QuicConnectionId)
| NewConnectionRejected
| ConnectionCloseAtServer (error_code : QuicErrorCode).

Definition is_write (e : Event) : bool :=
  match e with WritePacket _ _ _ => true | _ => false end.

Definition is_session_creation (e : Event) : bool :=
  match e with CreateQuicSessionCall _ _ _ _ _ _ => true | _ => false end.

(** ** Collaborators and flags *)

(** The interfaces the dispatcher consumes and whose code lives in other
    translation units: the version predicates, the framer's header parser,
    the two CHLO extractors, the connection-ID utilities and generator, the
    session factory and the overridable validity check on a full CHLO, the
    version manager, the crypto configuration, and the constants of other
    headers. *)
Record Externals := {
  IsKnown : ParsedQuicVersion → bool;
  AllowsVariableLengthConnectionIds : ParsedQuicVersion → bool;
  SupportsClientConnectionIds : ParsedQuicVersion → bool;
  HasLengthPrefixedConnectionIds : ParsedQuicVersion → bool;
  HasIetfInvariantHeader : ParsedQuicVersion → bool;
  UsesTls : ParsedQuicVersion → bool;
  LegacyVersionForEncapsulation : ParsedQuicVersion;
  IsConnectionIdValidForVersion : QuicConnectionId → N → bool;
  IsConnectionIdLengthValidForVersion : N → N → bool;
  ParsePublicHeaderDispatcher : list N → N → QuicErrorCode * PublicHeader;
  ChloExtractor_Extract :
    QuicReceivedPacket → ParsedQuicVersion → list string → N →
    option CryptoHandshakeMessage;
  TlsChloExtractor_ingest :
    TlsChloExtractor → ParsedQuicVersion → QuicReceivedPacket →
    TlsChloExtractor;
  CreateReplacementConnectionId : QuicConnectionId → N → QuicConnectionId;
  MaybeReplaceConnectionId :
    QuicConnectionId → ParsedQuicVersion → option QuicConnectionId;
  CreateQuicSession :
    QuicConnectionId → QuicSocketAddress → QuicSocketAddress → string →
    ParsedQuicVersion → ParsedClientHello →
    option (QuicConnectionId * ParsedQuicVersion);
  ValidityChecksOnFullChlo :
    ReceivedPacketInfo → ParsedClientHello → QuicPacketFate;
  TlsAlertToQuicErrorCode : N → QuicErrorCode;
  SSL_alert_desc_string_long : N → string;
  EncryptionLevelToString_INITIAL : string;
  GetSupportedVersions : list ParsedQuicVersion;
  GetSupportedAlpns : list string;
  validate_chlo_size : bool;
  create_session_tag_indicators : list string;
  kQuicDefaultConnectionIdLength : N;
  kMinPacketSizeForVersionNegotiation : N;
  kPacketHeaderTypeSize : N;
  GetMinStatelessResetPacketLength : N;
  kMaxPacketsPerConnection : N;
  kMaxConnections : N
}.

(** Restart flags and command-line flags read by the dispatcher. *)
Record Flags := {
  quic_abstract_connection_id_generator : bool;
  quic_map_original_connection_ids2 : bool;
  quic_disable_legacy_version_encapsulation : bool;
  FLAGS_quic_allow_chlo_buffering : bool;
  FLAGS_quic_max_recent_stateless_reset_addresses : N;
  FLAGS_quic_recent_stateless_reset_addresses_lifetime_ms : N
}.

Definition kMinClientInitialPacketLength : N := 1200.
Definition kQuicMinimumInitialConnectionIdLength : N := 8.
Definition PACKET_1BYTE_PACKET_NUMBER : N := 1.

(** ** The dispatcher's state *)

(** The conversion of an integer to [int16_t]: the value of the same
    residue modulo 2^16 between -2^15 and 2^15 - 1. *)
Definition to_int16_t (z : Z) : Z := ((z + 2 ^ 15) mod 2 ^ 16 - 2 ^ 15)%Z.

(** The members of [QuicDispatcher] that its member functions read or
    write.  Sessions are shared objects: the map sends a connection ID to a
    handle, an index into [sessions], so several IDs can name one session.
    [new_sessions_allowed_per_event_loop_] is a signed counter of 16 bits,
    kept as the integer it holds.  [now] is the reading of the helper's
    clock. *)
Record Dispatcher := {
  last_error_ : QuicErrorCode;
  new_sessions_allowed_per_event_loop_ : Z;
  accept_new_connections_ : bool;
  allow_short_initial_server_connection_ids_ : bool;
  expected_server_connection_id_length_ : N;
  should_update_expected_server_connection_id_length_ : bool;
  send_connection_close_for_tls_alerts_ : bool;
  reference_counted_session_map_ : gmap QuicConnectionId nat;
  sessions : list QuicSession;
  num_sessions_in_session_map_ : N;
  buffered_packets_ : QuicBufferedPacketStore;
  time_wait_list_manager_ : gmap QuicConnectionId TimeWaitEntry;
  recent_stateless_reset_addresses_ : gset QuicSocketAddress;
  clear_stateless_reset_addresses_alarm_ : option N;
  now : N;
  log : list Event
}.

Definition set_last_error (v : QuicErrorCode) (d : Dispatcher) : Dispatcher :=
  {| last_error_ := v;
     new_sessions_allowed_per_event_loop_ := new_sessions_allowed_per_event_loop_ d;
     accept_new_connections_ := accept_new_connections_ d;
     allow_short_initial_server_connection_ids_ := allow_short_initial_server_connection_ids_ d;
     expected_server_connection_id_length_ := expected_server_connection_id_length_ d;
     should_update_expected_server_connection_id_length_ := should_update_expected_server_connection_id_length_ d;
     send_connection_close_for_tls_alerts_ := send_connection_close_for_tls_alerts_ d;
     reference_counted_session_map_ := reference_counted_session_map_ d;
     sessions := sessions d;
     num_sessions_in_session_map_ := num_sessions_in_session_map_ d;
     buffered_packets_ := buffered_packets_ d;
     time_wait_list_manager_ := time_wait_list_manager_ d;
     recent_stateless_reset_addresses_ := recent_stateless_reset_addresses_ d;
     clear_stateless_reset_addresses_alarm_ := clear_stateless_reset_addresses_alarm_ d;
     now := now d; log := log d |}.

Definition set_new_sessions_allowed_per_event_loop (v : Z) (d : Dispatcher) : Dispatcher :=
  {| last_error_ := last_error_ d; new_sessions_allowed_per_event_loop_ := v;
     accept_new_connections_ := accept_new_connections_ d;
     allow_short_initial_server_connection_ids_ := allow_short_initial_server_connection_ids_ d;
     expected_server_connection_id_length_ := expected_server_connection_id_length_ d;
     should_update_expected_server_connection_id_length_ := should_update_expected_server_connection_id_length_ d;
     send_connection_close_for_tls_alerts_ := send_connection_close_for_tls_alerts_ d;
     reference_counted_session_map_ := reference_counted_session_map_ d;
     sessions := sessions d;
     num_sessions_in_session_map_ := num_sessions_in_session_map_ d;
     buffered_packets_ := buffered_packets_ d;
     time_wait_list_manager_ := time_wait_list_manager_ d;
     recent_stateless_reset_addresses_ := recent_stateless_reset_addresses_ d;
     clear_stateless_reset_addresses_alarm_ := clear_stateless_reset_addresses_alarm_ d;
     now := now d; log := log d |}.

Definition set_accept_new_connections (v : bool) (d : Dispatcher) : Dispatcher :=
  {| last_error_ := last_error_ d;
     new_sessions_allowed_per_event_loop_ := new_sessions_allowed_per_event_loop_ d;
     accept_new_connections_ := v;
     allow_short_initial_server_connection_ids_ := allow_short_initial_server_connection_ids_ d;
     expected_server_connection_id_length_ := expected_server_connection_id_length_ d;
     should_update_expected_server_connection_id_length_ := should_update_expected_server_connection_id_length_ d;
     send_connection_close_for_tls_alerts_ := send_connection_close_for_tls_alerts_ d;
     reference_counted_session_map_ := reference_counted_session_map_ d;
     sessions := sessions d;
     num_sessions_in_session_map_ := num_sessions_in_session_map_ d;
     buffered_packets_ := buffered_packets_ d;
     time_wait_list_manager_ := time_wait_list_manager_ d;
     recent_stateless_reset_addresses_ := recent_stateless_reset_addresses_ d;
     clear_stateless_reset_addresses_alarm_ := clear_stateless_reset_addresses_alarm_ d;
     now := now d; log := log d |}.

Definition set_expected_server_connection_id_length (v : N) (d : Dispatcher) : Dispatcher :=
  {| last_error_ := last_error_ d;
     new_sessions_allowed_per_event_loop_ := new_sessions_allowed_per_event_loop_ d;
     accept_new_connections_ := accept_new_connections_ d;
     allow_short_initial_server_connection_ids_ := allow_short_initial_server_connection_ids_ d;
     expected_server_connection_id_length_ := v;
     should_update_expected_server_connection_id_length_ := should_update_expected_server_connection_id_length_ d;
     send_connection_close_for_tls_alerts_ := send_connection_close_for_tls_alerts_ d;
     reference_counted_session_map_ := reference_counted_session_map_ d;
     sessions := sessions d;
     num_sessions_in_session_map_ := num_sessions_in_session_map_ d;
     buffered_packets_ := buffered_packets_ d;
     time_wait_list_manager_ := time_wait_list_manager_ d;
     recent_stateless_reset_addresses_ := recent_stateless_reset_addresses_ d;
     clear_stateless_reset_addresses_alarm_ := clear_stateless_reset_addresses_alarm_ d;
     now := now d; log := log d |}.

Definition set_reference_counted_session_map (v : gmap QuicConnectionId nat) (d : Dispatcher) : Dispatcher :=
  {| last_error_ := last_error_ d;
     new_sessions_allowed_per_event_loop_ := new_sessions_allowed_per_event_loop_ d;
     accept_new_connections_ := accept_new_connections_ d;
     allow_short_initial_server_connection_ids_ := allow_short_initial_server_connection_ids_ d;
     expected_server_connection_id_length_ := expected_server_connection_id_length_ d;
     should_update_expected_server_connection_id_length_ := should_update_expected_server_connection_id_length_ d;
     send_connection_close_for_tls_alerts_ := send_connection_close_for_tls_alerts_ d;
     reference_counted_session_map_ := v; sessions := sessions d;
     num_sessions_in_session_map_ := num_sessions_in_session_map_ d;
     buffered_packets_ := buffered_packets_ d;
     time_wait_list_manager_ := time_wait_list_manager_ d;
     recent_stateless_reset_addresses_ := recent_stateless_reset_addresses_ d;
     clear_stateless_reset_addresses_alarm_ := clear_stateless_reset_addresses_alarm_ d;
     now := now d; log := log d |}.

Definition set_sessions (v : list QuicSession) (d : Dispatcher) : Dispatcher :=
  {| last_error_ := last_error_ d;
     new_sessions_allowed_per_event_loop_ := new_sessions_allowed_per_event_loop_ d;
     accept_new_connections_ := accept_new_connections_ d;
     allow_short_initial_server_connection_ids_ := allow_short_initial_server_connection_ids_ d;
     expected_server_connection_id_length_ := expected_server_connection_id_length_ d;
     should_update_expected_server_connection_id_length_ := should_update_expected_server_connection_id_length_ d;
     send_connection_close_for_tls_alerts_ := send_connection_close_for_tls_alerts_ d;
     reference_counted_session_map_ := reference_counted_session_map_ d;
     sessions := v;
     num_sessions_in_session_map_ := num_sessions_in_session_map_ d;
     buffered_packets_ := buffered_packets_ d;
     time_wait_list_manager_ := time_wait_list_manager_ d;
     recent_stateless_reset_addresses_ := recent_stateless_reset_addresses_ d;
     clear_stateless_reset_addresses_alarm_ := clear_stateless_reset_addresses_alarm_ d;
     now := now d; log := log d |}.

Definition set_num_sessions_in_session_map (v : N) (d : Dispatcher) : Dispatcher :=
  {| last_error_ := last_error_ d;
     new_sessions_allowed_per_event_loop_ := new_sessions_allowed_per_event_loop_ d;
     accept_new_connections_ := accept_new_connections_ d;
     allow_short_initial_server_connection_ids_ := allow_short_initial_server_connection_ids_ d;
     expected_server_connection_id_length_ := expected_server_connection_id_length_ d;
     should_update_expected_server_connection_id_length_ := should_update_expected_server_connection_id_length_ d;
     send_connection_close_for_tls_alerts_ := send_connection_close_for_tls_alerts_ d;
     reference_counted_session_map_ := reference_counted_session_map_ d;
     sessions := sessions d; num_sessions_in_session_map_ := v;
     buffered_packets_ := buffered_packets_ d;
     time_wait_list_manager_ := time_wait_list_manager_ d;
     recent_stateless_reset_addresses_ := recent_stateless_reset_addresses_ d;
     clear_stateless_reset_addresses_alarm_ := clear_stateless_reset_addresses_alarm_ d;
     now := now d; log := log d |}.

Definition set_buffered_packets (v : QuicBufferedPacketStore) (d : Dispatcher) : Dispatcher :=
  {| last_error_ := last_error_ d;
     new_sessions_allowed_per_event_loop_ := new_sessions_allowed_per_event_loop_ d;
     accept_new_connections_ := accept_new_connections_ d;
     allow_short_initial_server_connection_ids_ := allow_short_initial_server_connection_ids_ d;
     expected_server_connection_id_length_ := expected_server_connection_id_length_ d;
     should_update_expected_server_connection_id_length_ := should_update_expected_server_connection_id_length_ d;
     send_connection_close_for_tls_alerts_ := send_connection_close_for_tls_alerts_ d;
     reference_counted_session_map_ := reference_counted_session_map_ d;
     sessions := sessions d;
     num_sessions_in_session_map_ := num_sessions_in_session_map_ d;
     buffered_packets_ := v;
     time_wait_list_manager_ := time_wait_list_manager_ d;
     recent_stateless_reset_addresses_ := recent_stateless_reset_addresses_ d;
     clear_stateless_reset_addresses_alarm_ := clear_stateless_reset_addresses_alarm_ d;
     now := now d; log := log d |}.

Definition set_time_wait_list_manager (v : gmap QuicConnectionId TimeWaitEntry) (d : Dispatcher) : Dispatcher :=
  {| last_error_ := last_error_ d;
     new_sessions_allowed_per_event_loop_ := new_sessions_allowed_per_event_loop_ d;
     accept_new_connections_ := accept_new_connections_ d;
     allow_short_initial_server_connection_ids_ := allow_short_initial_server_connection_ids_ d;
     expected_server_connection_id_length_ := expected_server_connection_id_length_ d;
     should_update_expected_server_connection_id_length_ := should_update_expected_server_connection_id_length_ d;
     send_connection_close_for_tls_alerts_ := send_connection_close_for_tls_alerts_ d;
     reference_counted_session_map_ := reference_counted_session_map_ d;
     sessions := sessions d;
     num_sessions_in_session_map_ := num_sessions_in_session_map_ d;
     buffered_packets_ := buffered_packets_ d; time_wait_list_manager_ := v;
     recent_stateless_reset_addresses_ := recent_stateless_reset_addresses_ d;
     clear_stateless_reset_addresses_alarm_ := clear_stateless_reset_addresses_alarm_ d;
     now := now d; log := log d |}.

Definition set_recent_stateless_reset_addresses (v : gset QuicSocketAddress) (d : Dispatcher) : Dispatcher :=
  {| last_error_ := last_error_ d;
     new_sessions_allowed_per_event_loop_ := new_sessions_allowed_per_event_loop_ d;
     accept_new_connections_ := accept_new_connections_ d;
     allow_short_initial_server_connection_ids_ := allow_short_initial_server_connection_ids_ d;
     expected_server_connection_id_length_ := expected_server_connection_id_length_ d;
     should_update_expected_server_connection_id_length_ := should_update_expected_server_connection_id_length_ d;
     send_connection_close_for_tls_alerts_ := send_connection_close_for_tls_alerts_ d;
     reference_counted_session_map_ := reference_counted_session_map_ d;
     sessions := sessions d;
     num_sessions_in_session_map_ := num_sessions_in_session_map_ d;
     buffered_packets_ := buffered_packets_ d;
     time_wait_list_manager_ := time_wait_list_manager_ d;
     recent_stateless_reset_addresses_ := v;
     clear_stateless_reset_addresses_alarm_ := clear_stateless_reset_addresses_alarm_ d;
     now := now d; log := log d |}.

Definition set_clear_stateless_reset_addresses_alarm (v : option N) (d : Dispatcher) : Dispatcher :=
  {| last_error_ := last_error_ d;
     new_sessions_allowed_per_event_loop_ := new_sessions_allowed_per_event_loop_ d;
     accept_new_connections_ := accept_new_connections_ d;
     allow_short_initial_server_connection_ids_ := allow_short_initial_server_connection_ids_ d;
     expected_server_connection_id_length_ := expected_server_connection_id_length_ d;
     should_update_expected_server_connection_id_length_ := should_update_expected_server_connection_id_length_ d;
     send_connection_close_for_tls_alerts_ := send_connection_close_for_tls_alerts_ d;
     reference_counted_session_map_ := reference_counted_session_map_ d;
     sessions := sessions d;
     num_sessions_in_session_map_ := num_sessions_in_session_map_ d;
     buffered_packets_ := buffered_packets_ d;
     time_wait_list_manager_ := time_wait_list_manager_ d;
     recent_stateless_reset_addresses_ := recent_stateless_reset_addresses_ d;
     clear_stateless_reset_addresses_alarm_ := v; now := now d;
     log := log d |}.

Definition set_log (v : list Event) (d : Dispatcher) : Dispatcher :=
  {| last_error_ := last_error_ d;
     new_sessions_allowed_per_event_loop_ := new_sessions_allowed_per_event_loop_ d;
     accept_new_connections_ := accept_new_connections_ d;
     allow_short_initial_server_connection_ids_ := allow_short_initial_server_connection_ids_ d;
     expected_server_connection_id_length_ := expected_server_connection_id_length_ d;
     should_update_expected_server_connection_id_length_ := should_update_expected_server_connection_id_length_ d;
     send_connection_close_for_tls_alerts_ := send_connection_close_for_tls_alerts_ d;
     reference_counted_session_map_ := reference_counted_session_map_ d;
     sessions := sessions d;
     num_sessions_in_session_map_ := num_sessions_in_session_map_ d;
     buffered_packets_ := buffered_packets_ d;
     time_wait_list_manager_ := time_wait_list_manager_ d;
     recent_stateless_reset_addresses_ := recent_stateless_reset_addresses_ d;
     clear_stateless_reset_addresses_alarm_ := clear_stateless_reset_addresses_alarm_ d;
     now := now d; log := v |}.

Definition SetShouldUpdateExpectedServerConnectionIdLength (v : bool) (d : Dispatcher) : Dispatcher :=
  {| last_error_ := last_error_ d;
     new_sessions_allowed_per_event_loop_ := new_sessions_allowed_per_event_loop_ d;
     accept_new_connections_ := accept_new_connections_ d;
     allow_short_initial_server_connection_ids_ := allow_short_initial_server_connection_ids_ d;
     expected_server_connection_id_length_ := expected_server_connection_id_length_ d;
     should_update_expected_server_connection_id_length_ := v;
     send_connection_close_for_tls_alerts_ := send_connection_close_for_tls_alerts_ d;
     reference_counted_session_map_ := reference_counted_session_map_ d;
     sessions := sessions d;
     num_sessions_in_session_map_ := num_sessions_in_session_map_ d;
     buffered_packets_ := buffered_packets_ d;
     time_wait_list_manager_ := time_wait_list_manager_ d;
     recent_stateless_reset_addresses_ := recent_stateless_reset_addresses_ d;
     clear_stateless_reset_addresses_alarm_ := clear_stateless_reset_addresses_alarm_ d;
     now := now d; log := log d |}.

Definition SetAllowShortInitialServerConnectionIds (v : bool) (d : Dispatcher) : Dispatcher :=
  {| last_error_ := last_error_ d;
     new_sessions_allowed_per_event_loop_ := new_sessions_allowed_per_event_loop_ d;
     accept_new_connections_ := accept_new_connections_ d;
     allow_short_initial_server_connection_ids_ := v;
     expected_server_connection_id_length_ := expected_server_connection_id_length_ d;
     should_update_expected_server_connection_id_length_ := should_update_expected_server_connection_id_length_ d;
     send_connection_close_for_tls_alerts_ := send_connection_close_for_tls_alerts_ d;
     reference_counted_session_map_ := reference_counted_session_map_ d;
     sessions := sessions d;
     num_sessions_in_session_map_ := num_sessions_in_session_map_ d;
     buffered_packets_ := buffered_packets_ d;
     time_wait_list_manager_ := time_wait_list_manager_ d;
     recent_stateless_reset_addresses_ := recent_stateless_reset_addresses_ d;
     clear_stateless_reset_addresses_alarm_ := clear_stateless_reset_addresses_alarm_ d;
     now := now d; log := log d |}.

Definition code_count (name : string) (d : Dispatcher) : Dispatcher :=
  set_log (log d ++ [CodeCount name]) d.

Definition quic_bug (name : string) (d : Dispatcher) : Dispatcher :=
  set_log (log d ++ [QuicBug name]) d.

Definition write_packet (self peer : QuicSocketAddress)
    (p : QuicEncryptedPacket) (d : Dispatcher) : Dispatcher :=
  set_log (log d ++ [WritePacket self peer p]) d.

(** The datagrams handed to the writer, oldest first. *)
Definition written (d : Dispatcher) : list Event := filter is_write (log d).

(** The calls of the session factory, oldest first. *)
Definition factory_calls (d : Dispatcher) : list Event :=
  filter is_session_creation (log d).

Section QuicDispatcher.

Variable X : Externals.
Variable F : Flags.

(** ** The buffered-packet store: operations *)

(** Modelled from the spec: ingestion by the TLS extractor, whose class is
    not in this translation unit.  The transition itself is the
    collaborator's; "once terminal, further ingestion is a no-op". *)
Definition IngestPacket (x : TlsChloExtractor) (v : ParsedQuicVersion)
    (p : QuicReceivedPacket) : TlsChloExtractor :=
  match state x with
  | kParsedFullChlo | kAlert => x
  | kInitial | kParsedPartialChlo => TlsChloExtractor_ingest X x v p
  end.

Fixpoint find_list (cid : QuicConnectionId)
    (ls : list (QuicConnectionId * BufferedPacketList))
    : option BufferedPacketList :=
  match ls with
  | [] => None
  | (c, l) :: rest =>
      if bool_decide (c = cid) then Some l else find_list cid rest
  end.

Fixpoint replace_list (cid : QuicConnectionId) (new : BufferedPacketList)
    (ls : list (QuicConnectionId * BufferedPacketList))
    : list (QuicConnectionId * BufferedPacketList) :=
  match ls with
  | [] => []
  | (c, l) :: rest =>
      if bool_decide (c = cid) then (c, new) :: rest
      else (c, l) :: replace_list cid new rest
  end.

Definition remove_list (cid : QuicConnectionId)
    (ls : list (QuicConnectionId * BufferedPacketList))
    : list (QuicConnectionId * BufferedPacketList) :=
  filter (λ e, e.1 ≠ cid) ls.

Fixpoint evict_oldest_without_chlo
    (ls : list (QuicConnectionId * BufferedPacketList))
    : option (list (QuicConnectionId * BufferedPacketList)) :=
  match ls with
  | [] => None
  | (c, l) :: rest =>
      match parsed_chlo l with
      | None => Some rest
      | Some _ => cons (c, l) <$> evict_oldest_without_chlo rest
      end
  end.

(** Modelled from the spec: QuicBufferedPacketStore::HasBufferedPackets,
    which is not in this translation unit: "true iff a list exists". *)
Definition HasBufferedPackets (s : QuicBufferedPacketStore)
    (cid : QuicConnectionId) : bool :=
  bool_decide (is_Some (find_list cid (lists s))).

(** Modelled from the spec: QuicBufferedPacketStore::HasChloForConnection:
    "true iff that list has a stored ParsedChlo". *)
Definition HasChloForConnection (s : QuicBufferedPacketStore)
    (cid : QuicConnectionId) : bool :=
  match find_list cid (lists s) with
  | Some l => bool_decide (is_Some (parsed_chlo l))
  | None => false
  end.

(** Modelled from the spec: QuicBufferedPacketStore::HasChlosBuffered:
    "true iff any list has a CHLO". *)
Definition store_HasChlosBuffered (s : QuicBufferedPacketStore) : bool :=
  existsb (λ e, bool_decide (is_Some (parsed_chlo e.2))) (lists s).

Definition with_packets (ps : list BufferedPacket) (l : BufferedPacketList)
    : BufferedPacketList :=
  {| buffered_packets := ps; parsed_chlo := parsed_chlo l;
     ietf_quic := ietf_quic l; list_version := list_version l;
     tls_chlo_extractor := tls_chlo_extractor l;
     creation_time := creation_time l |}.

Definition with_chlo (c : ParsedClientHello) (v : ParsedQuicVersion)
    (l : BufferedPacketList) : BufferedPacketList :=
  {| buffered_packets := buffered_packets l; parsed_chlo := Some c;
     ietf_quic := ietf_quic l; list_version := v;
     tls_chlo_extractor := tls_chlo_extractor l;
     creation_time := creation_time l |}.

Definition with_extractor (x : TlsChloExtractor) (l : BufferedPacketList)
    : BufferedPacketList :=
  {| buffered_packets := buffered_packets l; parsed_chlo := parsed_chlo l;
     ietf_quic := ietf_quic l; list_version := list_version l;
     tls_chlo_extractor := x; creation_time := creation_time l |}.

(** Modelled from the spec: QuicBufferedPacketStore::EnqueuePacket, which
    is not in this translation unit.
    - Each connection ID has at most one list, its packets in insertion
      order; a packet that comes with a parsed CHLO marks the list as having
      a CHLO, queues the connection for delivery, and is put in front, so
      that "the CHLO is the very first packet delivered even if it arrived
      late within the same list".
    - The per-connection cap [kMaxPacketsPerConnection] and the global cap
      [kMaxConnections] answer with a failure code; when the packet bears a
      CHLO and the store is full, the oldest list without a CHLO is evicted
      to make room.
    - A second CHLO for a list that has one is refused.
    - The first packet of a list that is not a CHLO is fed to the list's
      extractor, "so multi-packet CHLOs accumulate across arrivals". *)
Definition EnqueuePacket (s : QuicBufferedPacketStore) (time : N)
    (cid : QuicConnectionId) (ietf : bool) (p : QuicReceivedPacket)
    (self peer : QuicSocketAddress) (v : ParsedQuicVersion)
    (chlo : option ParsedClientHello)
    : QuicBufferedPacketStore * EnqueuePacketResult :=
  let entry :=
    {| bp_packet := p; bp_self_address := self; bp_peer_address := peer |} in
  match find_list cid (lists s) with
  | Some l =>
      if kMaxPacketsPerConnection X <=? N.of_nat (length (buffered_packets l))
      then (s, TOO_MANY_PACKETS)
      else
        match chlo with
        | Some c =>
            if bool_decide (is_Some (parsed_chlo l))
            then (s, CHLO_ALREADY_DELIVERED)
            else
              ({| lists :=
                    replace_list cid
                      (with_chlo c v
                         (with_packets (entry :: buffered_packets l) l))
                      (lists s);
                  chlo_order := chlo_order s ++ [cid] |}, SUCCESS)
        | None =>
            ({| lists :=
                  replace_list cid
                    (with_packets (buffered_packets l ++ [entry]) l)
                    (lists s);
                chlo_order := chlo_order s |}, SUCCESS)
        end
  | None =>
      let created :=
        {| buffered_packets := [entry]; parsed_chlo := chlo;
           ietf_quic := ietf; list_version := v;
           tls_chlo_extractor :=
             match chlo with
             | None => IngestPacket new_TlsChloExtractor v p
             | Some _ => new_TlsChloExtractor
             end;
           creation_time := time |} in
      let order :=
        match chlo with
        | Some _ => chlo_order s ++ [cid]
        | None => chlo_order s
        end in
      if N.of_nat (length (lists s)) <? kMaxConnections X
      then ({| lists := lists s ++ [(cid, created)]; chlo_order := order |},
            SUCCESS)
      else
        match chlo, evict_oldest_without_chlo (lists s) with
        | Some _, Some kept =>
            ({| lists := kept ++ [(cid, created)]; chlo_order := order |},
             SUCCESS)
        | _, _ => (s, CONNECTION_POOL_FULL)
        end
  end.

Definition empty_BufferedPacketList : BufferedPacketList :=
  {| buffered_packets := []; parsed_chlo := None; ietf_quic := false;
     list_version := {| handshake_protocol := 0; transport_version := 0 |};
     tls_chlo_extractor := new_TlsChloExtractor; creation_time := 0 |}.

(** Modelled from the spec: QuicBufferedPacketStore::DeliverPackets: "the
    full BufferedPacketList removed from the store"; an empty list when the
    connection ID has none. *)
Definition DeliverPackets (s : QuicBufferedPacketStore)
    (cid : QuicConnectionId) : QuicBufferedPacketStore * BufferedPacketList :=
  match find_list cid (lists s) with
  | Some l =>
      ({| lists := remove_list cid (lists s);
          chlo_order := filter (λ c, c ≠ cid) (chlo_order s) |}, l)
  | None => (s, empty_BufferedPacketList)
  end.

(** Modelled from the spec:
    QuicBufferedPacketStore::DeliverPacketsForNextConnection: "the next list
    whose CHLO is ready, FIFO across connections"; an empty list when no
    CHLO is buffered. *)
Definition DeliverPacketsForNextConnection (s : QuicBufferedPacketStore)
    : QuicBufferedPacketStore * QuicConnectionId * BufferedPacketList :=
  match chlo_order s with
  | [] => (s, EmptyQuicConnectionId, empty_BufferedPacketList)
  | cid :: _ =>
      let '(s', l) := DeliverPackets s cid in (s', cid, l)
  end.

(** Modelled from the spec: QuicBufferedPacketStore::DiscardPackets. *)
Definition DiscardPackets (s : QuicBufferedPacketStore)
    (cid : QuicConnectionId) : QuicBufferedPacketStore :=
  (DeliverPackets s cid).1.


(** The out-parameters of [IngestPacketForTlsChloExtraction]. *)
Record TlsIngestResult := {
  has_full_tls_chlo : bool;
  out_alpns : list string;
  out_sni : string;
  out_resumption_attempted : bool;
  out_early_data_attempted : bool;
  out_tls_alert : option N
}.

Definition result_of_extractor (x : TlsChloExtractor) : TlsIngestResult :=
  if HasParsedFullChlo x then
    {| has_full_tls_chlo := true; out_alpns := extracted_alpns x;
       out_sni := server_name x;
       out_resumption_attempted := extracted_resumption_attempted x;
       out_early_data_attempted := extracted_early_data_attempted x;
       out_tls_alert := None |}
  else
    {| has_full_tls_chlo := false; out_alpns := []; out_sni := "";
       out_resumption_attempted := false; out_early_data_attempted := false;
       out_tls_alert := tls_alert x |}.

(** Modelled from the spec:
    QuicBufferedPacketStore::IngestPacketForTlsChloExtraction: the packet is
    fed to the extractor of the connection's list; the answer is whether the
    full CHLO is ready, with its fields, or else the alert if there is
    one. *)
Definition IngestPacketForTlsChloExtraction (s : QuicBufferedPacketStore)
    (cid : QuicConnectionId) (v : ParsedQuicVersion) (p : QuicReceivedPacket)
    : QuicBufferedPacketStore * TlsIngestResult :=
  match find_list cid (lists s) with
  | Some l =>
      let x := IngestPacket (tls_chlo_extractor l) v p in
      ({| lists := replace_list cid (with_extractor x l) (lists s);
          chlo_order := chlo_order s |}, result_of_extractor x)
  | None => (s, result_of_extractor new_TlsChloExtractor)
  end.

(** ** The time-wait list: operations *)

(** Modelled from the spec:
    QuicTimeWaitListManager::AddConnectionIdToTimeWait, which is not in this
    translation unit: the list maps a connection ID to its action and
    [TimeWaitConnectionInfo]; every ID of [info] gets the entry. *)
Definition AddConnectionIdToTimeWait (a : TimeWaitAction)
    (i : TimeWaitConnectionInfo) (d : Dispatcher) : Dispatcher :=
  set_time_wait_list_manager
    (foldr (λ c m, <[c := {| action := a; info := i |}]> m)
       (time_wait_list_manager_ d) (active_connection_ids i)) d.

(** Modelled from the spec:
    QuicTimeWaitListManager::IsConnectionIdInTimeWait. *)
Definition IsConnectionIdInTimeWait (d : Dispatcher) (cid : QuicConnectionId)
    : bool :=
  bool_decide (is_Some (time_wait_list_manager_ d !! cid)).

(** Modelled from the spec: QuicTimeWaitListManager::SendPublicReset: one
    stateless reset goes to the peer. *)
Definition SendPublicReset (self peer : QuicSocketAddress)
    (cid : QuicConnectionId) (ietf : bool) (received_packet_length : N)
    (d : Dispatcher) : Dispatcher :=
  write_packet self peer (PublicResetPacket cid ietf received_packet_length) d.

(** Modelled from the spec:
    QuicTimeWaitListManager::SendVersionNegotiationPacket. *)
Definition SendVersionNegotiationPacket
    (server_connection_id client_connection_id : QuicConnectionId)
    (ietf with_length_prefix : bool) (supported : list ParsedQuicVersion)
    (self peer : QuicSocketAddress) (d : Dispatcher) : Dispatcher :=
  write_packet self peer
    (VersionNegotiationPacket server_connection_id client_connection_id ietf
       with_length_prefix supported) d.

(** Modelled from the spec: QuicTimeWaitListManager::ProcessPacket: "emits
    the recorded action (re-send saved CLOSE packets, send a stateless
    reset, or drop)". *)
Definition TimeWaitList_ProcessPacket (self peer : QuicSocketAddress)
    (cid : QuicConnectionId) (format : PacketHeaderFormat)
    (received_packet_length : N) (d : Dispatcher) : Dispatcher :=
  match time_wait_list_manager_ d !! cid with
  | None => d
  | Some e =>
      match action e with
      | SEND_TERMINATION_PACKETS | SEND_CONNECTION_CLOSE_PACKETS =>
          foldl (λ d' p, write_packet self peer p d') d
            (termination_packets (info e))
      | SEND_STATELESS_RESET =>
          SendPublicReset self peer cid (tw_ietf_quic (info e))
            received_packet_length d
      | DO_NOTHING => d
      end
  end.

(** Modelled from the spec: QuicFramer::BuildVersionNegotiationPacket. *)
Definition BuildVersionNegotiationPacket
    (server_connection_id client_connection_id : QuicConnectionId)
    (ietf with_length_prefix : bool) (versions : list ParsedQuicVersion)
    : QuicEncryptedPacket :=
  VersionNegotiationPacket server_connection_id client_connection_id ietf
    with_length_prefix versions.

(** ** PacketCollector and StatelessConnectionTerminator *)

Record PacketCollector := { packets_ : list QuicEncryptedPacket }.

Definition OnSerializedPacket (serialized_packet : QuicEncryptedPacket)
    (c : PacketCollector) : PacketCollector :=
  {| packets_ := packets_ c ++ [serialized_packet] |}.

(** What the terminator sets up in its framer: the one version it was
    built for and the connection ID of its initial obfuscators. *)
Record QuicFramer := {
  framer_version : ParsedQuicVersion;
  initial_obfuscators : QuicConnectionId
}.

Record QuicPacketCreator := {
  creator_server_connection_id : QuicConnectionId;
  queued_frames : list QuicFrame
}.

Record StatelessConnectionTerminator := {
  server_connection_id_ : QuicConnectionId;
  framer_ : QuicFramer;
  collector_ : PacketCollector;
  creator_ : QuicPacketCreator
}.

Definition new_StatelessConnectionTerminator
    (server_connection_id original_server_connection_id : QuicConnectionId)
    (ver : ParsedQuicVersion) : StatelessConnectionTerminator :=
  {| server_connection_id_ := server_connection_id;
     framer_ := {| framer_version := ver;
                   initial_obfuscators := original_server_connection_id |};
     collector_ := {| packets_ := [] |};
     creator_ := {| creator_server_connection_id := server_connection_id;
                    queued_frames := [] |} |}.

(** Modelled from the spec: QuicPacketCreator::AddFrame, which is not in
    this translation unit.  The terminator "builds exactly one
    CONNECTION_CLOSE frame": the creator takes the frame into the packet it
    is building. *)
Definition AddFrame (f : QuicFrame) (c : QuicPacketCreator)
    : bool * QuicPacketCreator :=
  (true, {| creator_server_connection_id := creator_server_connection_id c;
            queued_frames := queued_frames c ++ [f] |}).

(** Modelled from the spec: QuicPacketCreator::FlushCurrentPacket: the
    frames taken so far leave as one packet for the creator's connection ID,
    encrypted by the framer "under the initial keys derived from"
    the connection ID of its obfuscators, and handed to the delegate. *)
Definition FlushCurrentPacket (t : StatelessConnectionTerminator)
    : StatelessConnectionTerminator :=
  match queued_frames (creator_ t) with
  | [] => t
  | frames =>
      {| server_connection_id_ := server_connection_id_ t;
         framer_ := framer_ t;
         collector_ :=
           OnSerializedPacket
             (InitialEncryptedPacket (framer_version (framer_ t))
                (creator_server_connection_id (creator_ t))
                (initial_obfuscators (framer_ t)) frames)
             (collector_ t);
         creator_ :=
           {| creator_server_connection_id :=
                creator_server_connection_id (creator_ t);
              queued_frames := [] |} |}
  end.

(** [SerializeConnectionClosePacket]; the boolean tells whether
    quic_bug_10287_1 was reported. *)
Definition SerializeConnectionClosePacket (t : StatelessConnectionTerminator)
    (error_code : QuicErrorCode) (error_details : string)
    : StatelessConnectionTerminator * bool :=
  let frame :=
    ConnectionCloseFrame (transport_version (framer_version (framer_ t)))
      error_code NO_IETF_QUIC_ERROR error_details 0 in
  let '(added, creator) := AddFrame frame (creator_ t) in
  if negb added then (t, true)
  else
    (FlushCurrentPacket
       {| server_connection_id_ := server_connection_id_ t;
          framer_ := framer_ t; collector_ := collector_ t;
          creator_ := creator |}, false).

Definition CloseConnection (t : StatelessConnectionTerminator)
    (error_code : QuicErrorCode) (error_details : string) (ietf : bool)
    (active_ids : list QuicConnectionId) (d : Dispatcher) : Dispatcher :=
  let '(t', bug) := SerializeConnectionClosePacket t error_code error_details in
  let d' := if bug then quic_bug "quic_bug_10287_1" d else d in
  AddConnectionIdToTimeWait SEND_TERMINATION_PACKETS
    (make_TimeWaitConnectionInfo ietf (Some (packets_ (collector_ t')))
       active_ids 0) d'.

(** ** Versions, ALPN, connection-ID replacement *)

Definition IsSupportedVersion (v : ParsedQuicVersion) : bool :=
  existsb (λ supported_version, bool_decide (v = supported_version))
    (GetSupportedVersions X).

(** The loop of [SelectAlpn]: the first ALPN found in the supported ones. *)
Fixpoint first_supported_alpn (supported_alpns candidates : list string)
    : option string :=
  match candidates with
  | [] => None
  | alpn :: rest =>
      if existsb (String.eqb alpn) supported_alpns then Some alpn
      else first_supported_alpn supported_alpns rest
  end.

Definition SelectAlpn (alpns : list string) : string :=
  match alpns with
  | [] => ""
  | first :: _ =>
      if (1 <? length alpns)%nat then
        match first_supported_alpn (GetSupportedAlpns X) alpns with
        | Some alpn => alpn
        | None => first
        end
      else first
  end.

Definition ReplaceShortServerConnectionId (v : ParsedQuicVersion)
    (server_connection_id : QuicConnectionId)
    (expected_server_connection_id_length : N) : QuicConnectionId :=
  CreateReplacementConnectionId X server_connection_id
    expected_server_connection_id_length.

Definition ReplaceLongServerConnectionId (v : ParsedQuicVersion)
    (server_connection_id : QuicConnectionId)
    (expected_server_connection_id_length : N) : QuicConnectionId :=
  CreateReplacementConnectionId X server_connection_id
    expected_server_connection_id_length.

Definition MaybeReplaceServerConnectionId (d : Dispatcher)
    (server_connection_id : QuicConnectionId) (v : ParsedQuicVersion)
    : option QuicConnectionId :=
  if quic_abstract_connection_id_generator F then
    MaybeReplaceConnectionId X server_connection_id v
  else
    let server_connection_id_length := cid_length server_connection_id in
    if server_connection_id_length =? expected_server_connection_id_length_ d
    then None
    else if server_connection_id_length <? expected_server_connection_id_length_ d
    then Some (ReplaceShortServerConnectionId v server_connection_id
                 (expected_server_connection_id_length_ d))
    else Some (ReplaceLongServerConnectionId v server_connection_id
                 (expected_server_connection_id_length_ d)).

(** ** Stateless termination *)

Definition StatelesslyTerminateConnection (d : Dispatcher)
    (server_connection_id : QuicConnectionId) (format : PacketHeaderFormat)
    (with_version_flag with_length_prefix : bool) (v : ParsedQuicVersion)
    (error_code : QuicErrorCode) (error_details : string)
    (a : TimeWaitAction) : Dispatcher :=
  if bool_decide (format ≠ IETF_QUIC_LONG_HEADER_PACKET)
     && negb with_version_flag
  then
    AddConnectionIdToTimeWait a
      (make_TimeWaitConnectionInfo (bool_decide (format ≠ GOOGLE_QUIC_PACKET))
         None [server_connection_id] 0) d
  else if IsSupportedVersion v then
    let terminator :=
      new_StatelessConnectionTerminator server_connection_id
        server_connection_id v in
    let d1 :=
      CloseConnection terminator error_code error_details
        (bool_decide (format ≠ GOOGLE_QUIC_PACKET)) [server_connection_id] d in
    let d2 := code_count "quic_dispatcher_generated_connection_close" d1 in
    set_log (log d2 ++ [ConnectionCloseAtServer error_code]) d2
  else
    let termination_packets :=
      [BuildVersionNegotiationPacket server_connection_id
         EmptyQuicConnectionId (bool_decide (format ≠ GOOGLE_QUIC_PACKET))
         with_length_prefix []] in
    AddConnectionIdToTimeWait SEND_TERMINATION_PACKETS
      (make_TimeWaitConnectionInfo (bool_decide (format ≠ GOOGLE_QUIC_PACKET))
         (Some termination_packets) [server_connection_id] 0) d.

(** ** Sessions and their creation *)

(** [session->ProcessUdpPacket(self, peer, packet)] through a handle: the
    session behind it records the datagram. *)
Definition ProcessUdpPacket (h : nat) (self peer : QuicSocketAddress)
    (p : QuicReceivedPacket) (d : Dispatcher) : Dispatcher :=
  set_sessions (alter (session_ProcessUdpPacket self peer p) h (sessions d)) d.

Definition session_connection_id (d : Dispatcher) (h : nat)
    : QuicConnectionId :=
  match sessions d !! h with
  | Some s => connection_id s
  | None => EmptyQuicConnectionId
  end.

Definition SetLastError (error : QuicErrorCode) (d : Dispatcher) : Dispatcher :=
  set_last_error error d.

Definition OnFailedToDispatchPacket (packet_info : ReceivedPacketInfo) : bool :=
  false.

Definition ShouldCreateSessionForUnknownVersion (label : N) : bool := false.

Definition OnBufferPacketFailure (rs : EnqueuePacketResult)
    (server_connection_id : QuicConnectionId) (d : Dispatcher) : Dispatcher :=
  set_log (log d ++ [BufferPacketFailure rs server_connection_id]) d.

Definition OnNewConnectionRejected (d : Dispatcher) : Dispatcher :=
  set_log (log d ++ [NewConnectionRejected]) d.

Definition StartAcceptingNewConnections (d : Dispatcher) : Dispatcher :=
  set_accept_new_connections true d.



Definition DeliverPacketsToSession (packets : list BufferedPacket) (h : nat)
    (d : Dispatcher) : Dispatcher :=
  foldl (λ d' p,
           ProcessUdpPacket h (bp_self_address p) (bp_peer_address p)
             (bp_packet p) d')
    d packets.

(** [CreateSessionFromChlo]: the dispatcher left behind and the handle of
    the session returned ([None] for a null pointer). *)
Definition CreateSessionFromChlo (d : Dispatcher)
    (original_connection_id : QuicConnectionId)
    (chlo : ParsedClientHello) (v : ParsedQuicVersion)
    (self peer : QuicSocketAddress) : Dispatcher * option nat :=
  let replacement :=
    MaybeReplaceServerConnectionId d original_connection_id v in
  let replaced_connection_id := bool_decide (is_Some replacement) in
  let server_connection_id := default original_connection_id replacement in
  if bool_decide
       (is_Some (reference_counted_session_map_ d !! server_connection_id))
     && quic_map_original_connection_ids2 F
  then
    ((if replaced_connection_id then
        StatelesslyTerminateConnection d original_connection_id
          IETF_QUIC_LONG_HEADER_PACKET true
          (HasLengthPrefixedConnectionIds X v) v QUIC_HANDSHAKE_FAILED
          "Connection ID collision, please retry"
          SEND_CONNECTION_CLOSE_PACKETS
      else d), None)
  else
    let alpn := SelectAlpn (alpns chlo) in
    let d1 :=
      set_log
        (log d ++ [CreateQuicSessionCall server_connection_id self peer alpn
                     v chlo]) d in
    match CreateQuicSession X server_connection_id self peer alpn v chlo with
    | None => (quic_bug "quic_bug_10287_8" d1, None)
    | Some (session_cid, session_ver) =>
        let created :=
          {| connection_id := session_cid; session_version := session_ver;
             original_destination_connection_id := None; received := [] |} in
        let session :=
          if replaced_connection_id
          then SetOriginalDestinationConnectionId original_connection_id created
          else created in
        match reference_counted_session_map_ d1 !! server_connection_id with
        | Some existing => (quic_bug "quic_bug_10287_9" d1, Some existing)
        | None =>
            let h := length (sessions d1) in
            let d2 := set_sessions (sessions d1 ++ [session]) d1 in
            let d3 :=
              set_reference_counted_session_map
                (<[server_connection_id := h]>
                   (reference_counted_session_map_ d2)) d2 in
            let d4 :=
              set_num_sessions_in_session_map
                (num_sessions_in_session_map_ d3 + 1) d3 in
            let d5 :=
              if quic_map_original_connection_ids2 F && replaced_connection_id
              then
                match reference_counted_session_map_ d4
                        !! original_connection_id with
                | Some _ => quic_bug "quic_460317833_02" d4
                | None =>
                    set_reference_counted_session_map
                      (<[original_connection_id := h]>
                         (reference_counted_session_map_ d4)) d4
                end
              else d4 in
            (d5, Some h)
        end
    end.

(** ** Buffering and CHLO processing *)

Definition BufferEarlyPacket (packet_info : ReceivedPacketInfo)
    (d : Dispatcher) : Dispatcher :=
  let '(store, rs) :=
    EnqueuePacket (buffered_packets_ d) (now d)
      (destination_connection_id packet_info)
      (bool_decide (form packet_info ≠ GOOGLE_QUIC_PACKET))
      (packet packet_info) (self_address packet_info)
      (peer_address packet_info) (version packet_info) None in
  let d1 := set_buffered_packets store d in
  if bool_decide (rs ≠ SUCCESS)
  then OnBufferPacketFailure rs (destination_connection_id packet_info) d1
  else d1.

(** [ProcessChlo]; [packet_info] is passed by pointer and its destination
    connection ID may be rewritten, so it is returned as well. *)
Definition ProcessChlo (chlo : ParsedClientHello)
    (packet_info : ReceivedPacketInfo) (d : Dispatcher)
    : Dispatcher * ReceivedPacketInfo :=
  if FLAGS_quic_allow_chlo_buffering F
     && (new_sessions_allowed_per_event_loop_ d <=? 0)%Z
  then
    let d0 :=
      if HasChloForConnection (buffered_packets_ d)
           (destination_connection_id packet_info)
      then quic_bug "quic_bug_12724_7" d else d in
    let '(store, rs) :=
      EnqueuePacket (buffered_packets_ d0) (now d0)
        (destination_connection_id packet_info)
        (bool_decide (form packet_info ≠ GOOGLE_QUIC_PACKET))
        (packet packet_info) (self_address packet_info)
        (peer_address packet_info) (version packet_info) (Some chlo) in
    let d1 := set_buffered_packets store d0 in
    (if bool_decide (rs ≠ SUCCESS)
     then OnBufferPacketFailure rs (destination_connection_id packet_info) d1
     else d1, packet_info)
  else
    match
      CreateSessionFromChlo d (destination_connection_id packet_info) chlo
        (version packet_info) (self_address packet_info)
        (peer_address packet_info)
    with
    | (d1, None) => (d1, packet_info)
    | (d1, Some session_ptr) =>
        let '(store, delivered) :=
          DeliverPackets (buffered_packets_ d1)
            (destination_connection_id packet_info) in
        let packets := buffered_packets delivered in
        let d2 := set_buffered_packets store d1 in
        let '(d3, packet_info') :=
          if bool_decide (destination_connection_id packet_info
                          ≠ session_connection_id d2 session_ptr)
          then
            ((match packets with
              | [] => d2
              | _ :: _ =>
                  code_count
                    "quic_delivered_buffered_packets_to_connection_with_replaced_id"
                    d2
              end),
             set_destination_connection_id
               (session_connection_id d2 session_ptr) packet_info)
          else (d2, packet_info) in
        let d4 :=
          ProcessUdpPacket session_ptr (self_address packet_info')
            (peer_address packet_info') (packet packet_info') d3 in
        let d5 := DeliverPacketsToSession packets session_ptr d4 in
        (set_new_sessions_allowed_per_event_loop
           (to_int16_t (new_sessions_allowed_per_event_loop_ d5 - 1)) d5,
         packet_info')
    end.

(** One pass of the body of the loop of [ProcessBufferedChlos]: whether the
    loop goes on ([continue] and the normal end of the body) or the function
    returns. *)
Definition ProcessBufferedChlos_body (d : Dispatcher) : Dispatcher * bool :=
  let '(store, server_connection_id, packet_list) :=
    DeliverPacketsForNextConnection (buffered_packets_ d) in
  let d1 := set_buffered_packets store d in
  match buffered_packets packet_list with
  | [] => (d1, false)
  | front :: _ =>
      match parsed_chlo packet_list with
      | None =>
          (quic_bug "quic_dispatcher_no_parsed_chlo_in_buffered_packets" d1,
           true)
      | Some chlo =>
          match
            CreateSessionFromChlo d1 server_connection_id chlo
              (list_version packet_list) (bp_self_address front)
              (bp_peer_address front)
          with
          | (d2, Some session_ptr) =>
              (DeliverPacketsToSession (buffered_packets packet_list)
                 session_ptr d2, true)
          | (d2, None) => (d2, true)
          end
      end
  end.

(** [for (; new_sessions_allowed_per_event_loop_ > 0;
          --new_sessions_allowed_per_event_loop_)]: the counter is positive
    on entry at most [fuel] more times, since only the loop changes it; it
    is positive when it is decremented, so the decrement stays in the range
    of [int16_t]. *)
Fixpoint ProcessBufferedChlos_loop (fuel : nat) (d : Dispatcher) : Dispatcher :=
  match fuel with
  | O => d
  | S fuel' =>
      if (0 <? new_sessions_allowed_per_event_loop_ d)%Z then
        let '(d1, go_on) := ProcessBufferedChlos_body d in
        if go_on then
          ProcessBufferedChlos_loop fuel'
            (set_new_sessions_allowed_per_event_loop
               (new_sessions_allowed_per_event_loop_ d1 - 1)%Z d1)
        else d1
      else d
  end.

(** [ProcessBufferedChlos]: the [size_t] argument is assigned to the
    [int16_t] member, so a budget of 32768 leaves a quota of -32768 and the
    loop does not run. *)
Definition ProcessBufferedChlos (max_connections_to_create : N)
    (d : Dispatcher) : Dispatcher :=
  ProcessBufferedChlos_loop (N.to_nat max_connections_to_create)
    (set_new_sessions_allowed_per_event_loop
       (to_int16_t (Z.of_N max_connections_to_create)) d).

Definition HasChlosBuffered (d : Dispatcher) : bool :=
  store_HasChlosBuffered (buffered_packets_ d).

(** ** Stateless resets for packets without a version *)

Definition MaybeResetPacketsWithNoVersion (packet_info : ReceivedPacketInfo)
    (d : Dispatcher) : Dispatcher :=
  if bool_decide
       (peer_address packet_info ∈ recent_stateless_reset_addresses_ d)
  then code_count "quic_donot_send_reset_repeatedly" d
  else if bool_decide (form packet_info ≠ GOOGLE_QUIC_PACKET)
          && (packet_length (packet packet_info)
              <=? GetMinStatelessResetPacketLength X)
  then code_count "quic_drop_too_small_short_header_packets" d
  else if bool_decide (form packet_info = GOOGLE_QUIC_PACKET)
          && (packet_length (packet packet_info)
              <? kPacketHeaderTypeSize X
                 + expected_server_connection_id_length_ d
                 + PACKET_1BYTE_PACKET_NUMBER + 1 + 12)
  then code_count "drop_too_small_packets" d
  else if FLAGS_quic_max_recent_stateless_reset_addresses F
          <=? N.of_nat (size (recent_stateless_reset_addresses_ d))
  then code_count "quic_too_many_recent_reset_addresses" d
  else
    let d1 :=
      if bool_decide (recent_stateless_reset_addresses_ d = ∅)
      then
        set_clear_stateless_reset_addresses_alarm
          (Some (now d
                 + FLAGS_quic_recent_stateless_reset_addresses_lifetime_ms F))
          d
      else d in
    let d2 :=
      set_recent_stateless_reset_addresses
        ({[peer_address packet_info]} ∪ recent_stateless_reset_addresses_ d1)
        d1 in
    SendPublicReset (self_address packet_info) (peer_address packet_info)
      (destination_connection_id packet_info)
      (bool_decide (form packet_info ≠ GOOGLE_QUIC_PACKET))
      (packet_length (packet packet_info)) d2.

Definition ValidityChecks (packet_info : ReceivedPacketInfo) (d : Dispatcher)
    : Dispatcher * QuicPacketFate :=
  if negb (version_flag packet_info)
  then (MaybeResetPacketsWithNoVersion packet_info d, kFateDrop)
  else (d, kFateProcess).

(** ** CHLO extraction *)

Record ChloAlpnSniExtractor := {
  alpn_ : string;
  sni_ : string;
  uaid_ : string;
  legacy_version_encapsulation_inner_packet_ : list N
}.

Definition new_ChloAlpnSniExtractor : ChloAlpnSniExtractor :=
  {| alpn_ := ""; sni_ := ""; uaid_ := "";
     legacy_version_encapsulation_inner_packet_ := [] |}.

Definition OnChlo (transport : N) (chlo : CryptoHandshakeMessage)
    (e : ChloAlpnSniExtractor) : ChloAlpnSniExtractor :=
  {| alpn_ :=
       match GetStringPiece chlo kALPN with
       | Some alpn_value => string_of_octets alpn_value
       | None => alpn_ e
       end;
     sni_ :=
       match GetStringPiece chlo kSNI with
       | Some sni_value => string_of_octets sni_value
       | None => sni_ e
       end;
     uaid_ :=
       match GetStringPiece chlo kUAID with
       | Some uaid_value => string_of_octets uaid_value
       | None => uaid_ e
       end;
     legacy_version_encapsulation_inner_packet_ :=
       if transport =? transport_version (LegacyVersionForEncapsulation X)
       then
         match GetStringPiece chlo kQLVE with
         | Some qlve_value => qlve_value
         | None => legacy_version_encapsulation_inner_packet_ e
         end
       else legacy_version_encapsulation_inner_packet_ e |}.

(** [ChloExtractor::Extract] with a [ChloAlpnSniExtractor] as delegate: on
    success the delegate has seen the handshake message. *)
Definition Extract (p : QuicReceivedPacket) (v : ParsedQuicVersion)
    (server_connection_id_length : N) (delegate : ChloAlpnSniExtractor)
    : bool * ChloAlpnSniExtractor :=
  match
    ChloExtractor_Extract X p v (create_session_tag_indicators X)
      server_connection_id_length
  with
  | Some chlo => (true, OnChlo (transport_version v) chlo delegate)
  | None => (false, delegate)
  end.

Record ExtractChloResult := {
  result_parsed_chlo : option ParsedClientHello;
  result_tls_alert : option N
}.

Definition TryExtractChloOrBufferEarlyPacket
    (packet_info : ReceivedPacketInfo) (d : Dispatcher)
    : Dispatcher * ExtractChloResult :=
  if UsesTls X (version packet_info) then
    let '(d1, r) :=
      if HasBufferedPackets (buffered_packets_ d)
           (destination_connection_id packet_info)
      then
        let '(store, r) :=
          IngestPacketForTlsChloExtraction (buffered_packets_ d)
            (destination_connection_id packet_info) (version packet_info)
            (packet packet_info) in
        (set_buffered_packets store d, r)
      else
        (d, result_of_extractor
              (IngestPacket new_TlsChloExtractor (version packet_info)
                 (packet packet_info))) in
    if send_connection_close_for_tls_alerts_ d1
       && bool_decide (is_Some (out_tls_alert r))
    then
      ((if has_full_tls_chlo r
        then quic_bug "quic_dispatcher_parsed_chlo_and_tls_alert_coexist_2" d1
        else d1),
       {| result_parsed_chlo := None; result_tls_alert := out_tls_alert r |})
    else if negb (has_full_tls_chlo r) then
      (BufferEarlyPacket packet_info d1,
       {| result_parsed_chlo := None; result_tls_alert := out_tls_alert r |})
    else
      (d1,
       {| result_parsed_chlo :=
            Some {| sni := out_sni r; uaid := ""; alpns := out_alpns r;
                    legacy_version_encapsulation_inner_packet := [];
                    chlo_retry_token := default [] (retry_token packet_info);
                    resumption_attempted := out_resumption_attempted r;
                    early_data_attempted := out_early_data_attempted r |};
          result_tls_alert := out_tls_alert r |})
  else
    let '(not_a_chlo, alpn_extractor) :=
      if FLAGS_quic_allow_chlo_buffering F then
        let '(extracted, e) :=
          Extract (packet packet_info) (version packet_info)
            (cid_length (destination_connection_id packet_info))
            new_ChloAlpnSniExtractor in
        (negb extracted, e)
      else (false, new_ChloAlpnSniExtractor) in
    if not_a_chlo then
      (BufferEarlyPacket packet_info d,
       {| result_parsed_chlo := None; result_tls_alert := None |})
    else if version_flag packet_info
            && negb (HasIetfInvariantHeader X (version packet_info))
            && validate_chlo_size X
            && (packet_length (packet packet_info)
                <? kMinClientInitialPacketLength)
    then
      (code_count "quic_drop_small_chlo_packets" d,
       {| result_parsed_chlo := None; result_tls_alert := None |})
    else
      (d,
       {| result_parsed_chlo :=
            Some {| sni := sni_ alpn_extractor; uaid := uaid_ alpn_extractor;
                    alpns := [alpn_ alpn_extractor];
                    legacy_version_encapsulation_inner_packet :=
                      legacy_version_encapsulation_inner_packet_
                        alpn_extractor;
                    chlo_retry_token := [];
                    resumption_attempted := false;
                    early_data_attempted := false |};
          result_tls_alert := None |}).

(** ** Legacy version encapsulation *)

(** [MaybeHandleLegacyVersionEncapsulation] calls back into
    [dispatcher->ProcessPacket]; that call is the parameter [reenter], which
    answers [None] when the nesting of encapsulated packets is deeper than
    the depth [ProcessPacket] was given. *)
Definition MaybeHandleLegacyVersionEncapsulation
    (reenter : QuicSocketAddress → QuicSocketAddress → QuicReceivedPacket →
               Dispatcher → option Dispatcher)
    (inner_packet : list N) (packet_info : ReceivedPacketInfo)
    (d : Dispatcher) : option (Dispatcher * bool) :=
  match inner_packet with
  | [] => Some (d, false)
  | _ :: _ =>
      let '(error, header) :=
        ParsePublicHeaderDispatcher X inner_packet
          (kQuicDefaultConnectionIdLength X) in
      if bool_decide (error ≠ QUIC_NO_ERROR) then Some (d, false)
      else if bool_decide (ph_destination_connection_id header
                           ≠ destination_connection_id packet_info)
      then Some (d, false)
      else if packet_length (packet packet_info)
              <=? N.of_nat (length inner_packet)
      then Some (quic_bug "quic_bug_10287_2" d, false)
      else
        let padded :=
          inner_packet
          ++ replicate (length (data (packet packet_info))
                        - length inner_packet)%nat 0 in
        match
          reenter (self_address packet_info) (peer_address packet_info)
            {| data := padded;
               receipt_time := receipt_time (packet packet_info) |} d
        with
        | Some d' =>
            Some (code_count "quic_legacy_version_encapsulation_decapsulated"
                    d', true)
        | None => None
        end
  end.

(** ** Header processing *)

Definition tls_alert_detail (alert : N) : string :=
  "TLS handshake failure (" +:+ EncryptionLevelToString_INITIAL X +:+ ") "
  +:+ pretty alert +:+ ": " +:+ SSL_alert_desc_string_long X alert.

(** The [switch (fate)] that ends [ProcessHeader]. *)
Definition ProcessHeader_switch (fate : QuicPacketFate)
    (packet_info : ReceivedPacketInfo)
    (server_connection_id : QuicConnectionId)
    (connection_close_error_code : QuicErrorCode)
    (tls_alert_error_detail : string) (d : Dispatcher) : Dispatcher :=
  match fate with
  | kFateProcess => quic_bug "quic_dispatcher_bad_packet_fate" d
  | kFateTimeWait =>
      let d1 := code_count "quic_reject_fate_time_wait" d in
      let connection_close_error_detail :=
        if bool_decide (tls_alert_error_detail = "")
        then "Reject connection" else tls_alert_error_detail in
      let d2 :=
        StatelesslyTerminateConnection d1 server_connection_id
          (form packet_info) (version_flag packet_info)
          (use_length_prefix packet_info) (version packet_info)
          connection_close_error_code connection_close_error_detail
          SEND_STATELESS_RESET in
      let d3 :=
        TimeWaitList_ProcessPacket (self_address packet_info)
          (peer_address packet_info) server_connection_id (form packet_info)
          (packet_length (packet packet_info)) d2 in
      set_buffered_packets
        (DiscardPackets (buffered_packets_ d3) server_connection_id) d3
  | kFateDrop => d
  end.

(** What [ProcessHeader] has reached when control gets to its final
    [switch (fate)], or the state it returned with before that. *)
Inductive HeaderVerdict :=
| Returned (d : Dispatcher)
| Switch (d : Dispatcher) (fate : QuicPacketFate)
    (connection_close_error_code : QuicErrorCode)
    (tls_alert_error_detail : string).

(** [ProcessHeader] up to its final [switch (fate)]. *)
Definition ProcessHeader_fate
    (reenter : QuicSocketAddress → QuicSocketAddress → QuicReceivedPacket →
               Dispatcher → option Dispatcher)
    (packet_info : ReceivedPacketInfo) (d : Dispatcher)
    : option HeaderVerdict :=
  let '(d1, fate) := ValidityChecks packet_info d in
  match fate with
  | kFateProcess =>
      let '(d2, extract_chlo_result) :=
        TryExtractChloOrBufferEarlyPacket packet_info d1 in
      match
        (if send_connection_close_for_tls_alerts_ d2
         then result_tls_alert extract_chlo_result else None)
      with
      | Some alert =>
          let d3 :=
            if bool_decide (is_Some (result_parsed_chlo extract_chlo_result))
            then
              quic_bug "quic_dispatcher_parsed_chlo_and_tls_alert_coexist_1" d2
            else d2 in
          Some (Switch d3 kFateTimeWait (TlsAlertToQuicErrorCode X alert)
                  (tls_alert_detail alert))
      | None =>
          match result_parsed_chlo extract_chlo_result with
          | None => Some (Returned d2)
          | Some chlo =>
              let fate' := ValidityChecksOnFullChlo X packet_info chlo in
              if bool_decide (fate' = kFateProcess) then
                if quic_disable_legacy_version_encapsulation F then
                  let d3 :=
                    match legacy_version_encapsulation_inner_packet chlo with
                    | [] => d2
                    | _ :: _ =>
                        code_count
                          "quic_disable_legacy_version_encapsulation_process_header"
                          d2
                    end in
                  Some (Returned (ProcessChlo chlo packet_info d3).1)
                else
                  match
                    MaybeHandleLegacyVersionEncapsulation reenter
                      (legacy_version_encapsulation_inner_packet chlo)
                      packet_info d2
                  with
                  | None => None
                  | Some (d3, true) => Some (Returned d3)
                  | Some (d3, false) =>
                      Some (Returned (ProcessChlo chlo packet_info d3).1)
                  end
              else Some (Switch d2 fate' QUIC_HANDSHAKE_FAILED "")
          end
      end
  | _ => Some (Switch d1 fate QUIC_HANDSHAKE_FAILED "")
  end.

Definition ProcessHeader
    (reenter : QuicSocketAddress → QuicSocketAddress → QuicReceivedPacket →
               Dispatcher → option Dispatcher)
    (packet_info : ReceivedPacketInfo) (d : Dispatcher) : option Dispatcher :=
  let server_connection_id := destination_connection_id packet_info in
  match ProcessHeader_fate reenter packet_info d with
  | None => None
  | Some (Returned d') => Some d'
  | Some (Switch d' fate connection_close_error_code tls_alert_error_detail) =>
      Some (ProcessHeader_switch fate packet_info server_connection_id
              connection_close_error_code tls_alert_error_detail d')
  end.

(** ** Dispatch *)

Definition session_version_differs (d : Dispatcher) (h : nat)
    (v : ParsedQuicVersion) : bool :=
  match sessions d !! h with
  | Some s => bool_decide (v ≠ session_version s)
  | None => false
  end.

(** The part of [MaybeDispatchPacket] that runs once the connection ID was
    found neither in the session map nor, replaced, in it. *)
Definition MaybeDispatchPacket_unknown_connection
    (packet_info : ReceivedPacketInfo) (d : Dispatcher) : Dispatcher * bool :=
  let server_connection_id := destination_connection_id packet_info in
  if HasChloForConnection (buffered_packets_ d) server_connection_id
  then (BufferEarlyPacket packet_info d, true)
  else if OnFailedToDispatchPacket packet_info then (d, true)
  else if IsConnectionIdInTimeWait d server_connection_id then
    (TimeWaitList_ProcessPacket (self_address packet_info)
       (peer_address packet_info) (destination_connection_id packet_info)
       (form packet_info) (packet_length (packet packet_info)) d, true)
  else if negb (accept_new_connections_ d) && version_flag packet_info then
    let d1 :=
      StatelesslyTerminateConnection d
        (destination_connection_id packet_info) (form packet_info)
        (version_flag packet_info) (use_length_prefix packet_info)
        (version packet_info) QUIC_HANDSHAKE_FAILED
        "Stop accepting new connections" SEND_STATELESS_RESET in
    let d2 :=
      TimeWaitList_ProcessPacket (self_address packet_info)
        (peer_address packet_info) (destination_connection_id packet_info)
        (form packet_info) (packet_length (packet packet_info)) d1 in
    (OnNewConnectionRejected d2, true)
  else if version_flag packet_info then
    if negb (IsSupportedVersion (version packet_info)) then
      if ShouldCreateSessionForUnknownVersion (version_label packet_info)
      then (d, false)
      else if negb (validate_chlo_size X)
              || (kMinPacketSizeForVersionNegotiation X
                  <=? packet_length (packet packet_info))
      then
        (SendVersionNegotiationPacket server_connection_id
           (source_connection_id packet_info)
           (bool_decide (form packet_info ≠ GOOGLE_QUIC_PACKET))
           (use_length_prefix packet_info) (GetSupportedVersions X)
           (self_address packet_info) (peer_address packet_info) d, true)
      else (d, true)
    else if validate_chlo_size X
            && bool_decide (form packet_info = IETF_QUIC_LONG_HEADER_PACKET)
            && bool_decide (long_packet_type packet_info = INITIAL)
            && (packet_length (packet packet_info)
                <? kMinClientInitialPacketLength)
    then (code_count "quic_drop_small_initial_packets" d, true)
    else (d, false)
  else (d, false).

(** The session, if any, found under the replacement of an unknown
    connection ID. *)
Definition find_replaced_session (packet_info : ReceivedPacketInfo)
    (d : Dispatcher) : option nat :=
  if IsKnown X (version packet_info)
     && negb (quic_map_original_connection_ids2 F)
  then
    match
      MaybeReplaceServerConnectionId d
        (destination_connection_id packet_info) (version packet_info)
    with
    | Some replaced_connection_id =>
        reference_counted_session_map_ d !! replaced_connection_id
    | None => None
    end
  else None.

Definition MaybeDispatchPacket
    (reenter : QuicSocketAddress → QuicSocketAddress → QuicReceivedPacket →
               Dispatcher → option Dispatcher)
    (packet_info : ReceivedPacketInfo) (d : Dispatcher)
    : option (Dispatcher * bool) :=
  if IsSourceUdpPortBlocked (port (peer_address packet_info))
  then Some (code_count "quic_dropped_blocked_port" d, true)
  else
    let server_connection_id := destination_connection_id packet_info in
    if version_flag packet_info && IsKnown X (version packet_info)
       && (cid_length server_connection_id
           <? kQuicMinimumInitialConnectionIdLength)
       && (cid_length server_connection_id
           <? expected_server_connection_id_length_ d)
       && negb (allow_short_initial_server_connection_ids_ d)
    then
      Some (code_count "quic_dropped_invalid_small_initial_connection_id" d,
            true)
    else if version_flag packet_info && IsKnown X (version packet_info)
            && negb (IsConnectionIdLengthValidForVersion X
                       (cid_length server_connection_id)
                       (transport_version (version packet_info)))
    then Some (code_count "quic_dropped_invalid_initial_connection_id" d, true)
    else
      match reference_counted_session_map_ d !! server_connection_id with
      | Some it =>
          let deliver d' :=
            Some (ProcessUdpPacket it (self_address packet_info)
                    (peer_address packet_info) (packet packet_info) d',
                  true) in
          if version_flag packet_info
             && session_version_differs d it (version packet_info)
             && bool_decide (version packet_info
                             = LegacyVersionForEncapsulation X)
          then
            if quic_disable_legacy_version_encapsulation F then
              deliver
                (code_count
                   "quic_disable_legacy_version_encapsulation_dispatch_packet"
                   d)
            else
              let '(extracted, alpn_extractor) :=
                Extract (packet packet_info) (version packet_info)
                  (cid_length server_connection_id)
                  new_ChloAlpnSniExtractor in
              if extracted then
                match
                  MaybeHandleLegacyVersionEncapsulation reenter
                    (legacy_version_encapsulation_inner_packet_
                       alpn_extractor) packet_info d
                with
                | None => None
                | Some (d', true) => Some (d', true)
                | Some (d', false) => deliver d'
                end
              else deliver d
          else deliver d
      | None =>
          match find_replaced_session packet_info d with
          | Some it2 =>
              Some (ProcessUdpPacket it2 (self_address packet_info)
                      (peer_address packet_info) (packet packet_info) d,
                    true)
          | None => Some (MaybeDispatchPacket_unknown_connection packet_info d)
          end
      end.

(** [ProcessPacket].  [depth] bounds how many times the function may be
    entered again for an encapsulated packet; [None] means the bound was
    too small for the datagram. *)
Fixpoint ProcessPacket (depth : nat) (self peer : QuicSocketAddress)
    (p : QuicReceivedPacket) (d : Dispatcher) : option Dispatcher :=
  match depth with
  | O => None
  | S depth' =>
      let '(error, header) :=
        ParsePublicHeaderDispatcher X (data p)
          (expected_server_connection_id_length_ d) in
      let packet_info := make_packet_info self peer p header in
      if bool_decide (error ≠ QUIC_NO_ERROR) then Some (SetLastError error d)
      else if bool_decide
                (cid_length (destination_connection_id packet_info)
                 ≠ expected_server_connection_id_length_ d)
              && negb (should_update_expected_server_connection_id_length_ d)
              && IsKnown X (version packet_info)
              && negb (AllowsVariableLengthConnectionIds X
                         (version packet_info))
      then Some (SetLastError QUIC_INVALID_PACKET_HEADER d)
      else if version_flag packet_info
              && IsSupportedVersion (version packet_info)
              && negb (IsConnectionIdValidForVersion X
                         (destination_connection_id packet_info)
                         (transport_version (version packet_info)))
      then Some (SetLastError QUIC_INVALID_PACKET_HEADER d)
      else if version_flag packet_info
              && IsSupportedVersion (version packet_info)
              && SupportsClientConnectionIds X (version packet_info)
              && negb (IsConnectionIdValidForVersion X
                         (source_connection_id packet_info)
                         (transport_version (version packet_info)))
      then Some (SetLastError QUIC_INVALID_PACKET_HEADER d)
      else
        let d1 :=
          if should_update_expected_server_connection_id_length_ d
          then
            set_expected_server_connection_id_length
              (cid_length (destination_connection_id packet_info)) d
          else d in
        match MaybeDispatchPacket (ProcessPacket depth') packet_info d1 with
        | None => None
        | Some (d2, true) => Some d2
        | Some (d2, false) => ProcessHeader (ProcessPacket depth') packet_info d2
        end
  end.

End QuicDispatcher.

(** The state the constructor leaves: no error, no session quota, accepting
    connections, short initial connection IDs refused, empty maps, stores
    and sets, no alarm set. *)
Definition new_QuicDispatcher (expected_server_connection_id_length : N)
    (send_connection_close_for_tls_alerts : bool) (time : N) : Dispatcher :=
  {| last_error_ := QUIC_NO_ERROR;
     new_sessions_allowed_per_event_loop_ := 0%Z;
     accept_new_connections_ := true;
     allow_short_initial_server_connection_ids_ := false;
     expected_server_connection_id_length_ :=
       expected_server_connection_id_length;
     should_update_expected_server_connection_id_length_ := false;
     send_connection_close_for_tls_alerts_ :=
       send_connection_close_for_tls_alerts;
     reference_counted_session_map_ := ∅;
     sessions := [];
     num_sessions_in_session_map_ := 0;
     buffered_packets_ := empty_store;
     time_wait_list_manager_ := ∅;
     recent_stateless_reset_addresses_ := ∅;
     clear_stateless_reset_addresses_alarm_ := None;
     now := time;
     log := [] |}.

(** ** Connection IDs issued and retired, expired packets, snapshots *)

Section SessionMap.

Variable X : Externals.

(** [TryAddNewConnectionId]: [insert] leaves an entry that is there as it
    is and says so. *)
Definition TryAddNewConnectionId
    (server_connection_id new_connection_id : QuicConnectionId)
    (d : Dispatcher) : Dispatcher * bool :=
  match reference_counted_session_map_ d !! server_connection_id with
  | None => (quic_bug "quic_bug_10287_7" d, false)
  | Some it =>
      match reference_counted_session_map_ d !! new_connection_id with
      | None =>
          (set_reference_counted_session_map
             (<[new_connection_id := it]> (reference_counted_session_map_ d))
             d, true)
      | Some _ => (code_count "quic_cid_already_in_session_map" d, false)
      end
  end.

Definition OnConnectionIdRetired (server_connection_id : QuicConnectionId)
    (d : Dispatcher) : Dispatcher :=
  set_reference_counted_session_map
    (delete server_connection_id (reference_counted_session_map_ d)) d.

Definition NumSessions (d : Dispatcher) : N := num_sessions_in_session_map_ d.

Definition OnExpiredPackets (server_connection_id : QuicConnectionId)
    (early_arrived_packets : BufferedPacketList) (d : Dispatcher)
    : Dispatcher :=
  StatelesslyTerminateConnection X
    (code_count "quic_reject_buffered_packets_expired" d)
    server_connection_id
    (if ietf_quic early_arrived_packets then IETF_QUIC_LONG_HEADER_PACKET
     else GOOGLE_QUIC_PACKET)
    true
    (HasLengthPrefixedConnectionIds X (list_version early_arrived_packets))
    (list_version early_arrived_packets) QUIC_HANDSHAKE_FAILED
    "Packets buffered for too long" SEND_STATELESS_RESET.

(** The loop shared by [PerformActionOnActiveSessions] and
    [GetSessionsSnapshot]: the entries of the map are visited in the order
    the map gives them, and a session is taken the first time it is seen. *)
Definition visit_sessions (entries : list (QuicConnectionId * nat))
    : gset nat * list nat :=
  foldl
    (λ '(visited_session, snapshot) kv,
       if bool_decide (kv.2 ∈ visited_session)
       then (visited_session, snapshot)
       else ({[kv.2]} ∪ visited_session, snapshot ++ [kv.2]))
    (∅, []) entries.

Definition GetSessionsSnapshot (d : Dispatcher) : list nat :=
  (visit_sessions (map_to_list (reference_counted_session_map_ d))).2.

(** [PerformActionOnActiveSessions]: the operation is taken to act on the
    session it is given and on nothing else of the dispatcher. *)
Definition PerformActionOnActiveSessions
    (operation : QuicSession → QuicSession) (d : Dispatcher) : Dispatcher :=
  foldl (λ d' session, set_sessions (alter operation session (sessions d')) d')
    d (GetSessionsSnapshot d).

End SessionMap.

(** ** Blocked writers and closed sessions *)

(** A blocked writer is known by its address: the connection of a session,
    or another writer, such as the time-wait list manager. *)
Inductive QuicBlockedWriter :=
| ConnectionWriter (session : nat)
| OtherWriter (address : N).

#[global] Instance QuicBlockedWriter_eq_dec : EqDecision QuicBlockedWriter.
Proof. solve_decision. Defined.

(** What [CleanUpSession] and [OnConnectionClosed] read from the connection
    of the session that closes. *)
Record QuicConnection := {
  connection_termination_packets : option (list QuicEncryptedPacket);
  IsHandshakeComplete : bool;
  connection_version : ParsedQuicVersion;
  GetOriginalDestinationConnectionId : QuicConnectionId;
  GetActiveServerConnectionIds : list QuicConnectionId;
  smoothed_rtt : N
}.

(** The dispatcher with the members that only the paths for blocked writers
    and closed sessions use: the writers that wait for the socket, in the
    order they were added; the sessions closed and not yet destroyed; the
    deadline of the alarm that destroys them.  As in [Dispatcher], every
    entry of the session map holds a session: no pointer in it is null. *)
Record DispatcherWithLists := {
  dispatcher : Dispatcher;
  write_blocked_list_ : list QuicBlockedWriter;
  closed_session_list_ : list nat;
  delete_sessions_alarm_ : option N
}.

Definition with_dispatcher (d : Dispatcher) (s : DispatcherWithLists)
    : DispatcherWithLists :=
  {| dispatcher := d; write_blocked_list_ := write_blocked_list_ s;
     closed_session_list_ := closed_session_list_ s;
     delete_sessions_alarm_ := delete_sessions_alarm_ s |}.

Definition with_write_blocked_list (l : list QuicBlockedWriter)
    (s : DispatcherWithLists) : DispatcherWithLists :=
  {| dispatcher := dispatcher s; write_blocked_list_ := l;
     closed_session_list_ := closed_session_list_ s;
     delete_sessions_alarm_ := delete_sessions_alarm_ s |}.

Definition with_closed_session_list (l : list nat) (s : DispatcherWithLists)
    : DispatcherWithLists :=
  {| dispatcher := dispatcher s; write_blocked_list_ := write_blocked_list_ s;
     closed_session_list_ := l;
     delete_sessions_alarm_ := delete_sessions_alarm_ s |}.

Definition with_delete_sessions_alarm (deadline : option N)
    (s : DispatcherWithLists) : DispatcherWithLists :=
  {| dispatcher := dispatcher s; write_blocked_list_ := write_blocked_list_ s;
     closed_session_list_ := closed_session_list_ s;
     delete_sessions_alarm_ := deadline |}.

(** [write_blocked_list_.erase(writer)]: the list without the writer, and
    how many entries went. *)
Definition erase_writer (writer : QuicBlockedWriter)
    (l : list QuicBlockedWriter) : list QuicBlockedWriter * nat :=
  (filter (λ w, w ≠ writer) l, length (filter (λ w, w = writer) l)).

Section ClosingSessions.

Variable X : Externals.

(** The connection behind each session, as it is when the dispatcher is
    called. *)
Variable connection : nat → QuicConnection.

Definition CleanUpSession (server_connection_id : QuicConnectionId)
    (session : nat) (s : DispatcherWithLists) : DispatcherWithLists :=
  let c := connection session in
  let s1 :=
    with_write_blocked_list
      (erase_writer (ConnectionWriter session) (write_blocked_list_ s)).1 s in
  let d := dispatcher s1 in
  let has_termination_packets :=
    match connection_termination_packets c with
    | Some (_ :: _) => true
    | _ => false
    end in
  let ietf := HasIetfInvariantHeader X (connection_version c) in
  if negb has_termination_packets && negb (IsHandshakeComplete c) then
    let d1 :=
      code_count
        (if negb ietf
         then "gquic_add_to_time_wait_list_with_handshake_failed"
         else "quic_v44_add_to_time_wait_list_with_handshake_failed") d in
    let terminator :=
      new_StatelessConnectionTerminator server_connection_id
        (GetOriginalDestinationConnectionId c) (connection_version c) in
    with_dispatcher
      (CloseConnection terminator QUIC_HANDSHAKE_FAILED
         "Connection is closed by server before handshake confirmed" ietf
         (GetActiveServerConnectionIds c) d1) s1
  else
    let d1 :=
      if has_termination_packets then d
      else
        code_count "quic_v44_add_to_time_wait_list_with_stateless_reset" d in
    with_dispatcher
      (AddConnectionIdToTimeWait
         (if has_termination_packets then SEND_CONNECTION_CLOSE_PACKETS
          else SEND_STATELESS_RESET)
         (make_TimeWaitConnectionInfo ietf (connection_termination_packets c)
            (GetActiveServerConnectionIds c) (smoothed_rtt c)) d1) s1.

(** [OnConnectionClosed].  [std::move] takes the pointer out of the entry
    under [server_connection_id] into the closed list and leaves a null
    pointer in the entry.  The entry goes when the active connection IDs of
    the connection are erased, if [server_connection_id] is one of them.  If
    it is not, the function returns all the same and the entry stays in the
    map with the null pointer: the map of handles then still shows the
    handle that was moved, and the second part of the answer is [true], to
    say that the pointer under [server_connection_id] is null.  The count
    of sessions is a [size_t] of 64 bits and wraps. *)
Definition OnConnectionClosed (server_connection_id : QuicConnectionId)
    (s : DispatcherWithLists) : DispatcherWithLists * bool :=
  let d := dispatcher s in
  match reference_counted_session_map_ d !! server_connection_id with
  | None =>
      (with_dispatcher
         (quic_bug "quic_bug_10287_4" (quic_bug "quic_bug_10287_3" d)) s,
       false)
  | Some it =>
      let s1 :=
        match closed_session_list_ s with
        | [] => with_delete_sessions_alarm (Some (now d)) s
        | _ :: _ => s
        end in
      let s2 := with_closed_session_list (closed_session_list_ s1 ++ [it]) s1 in
      let s3 := CleanUpSession server_connection_id it s2 in
      let d3 := dispatcher s3 in
      let d4 :=
        set_reference_counted_session_map
          (foldl (λ m cid, delete cid m) (reference_counted_session_map_ d3)
             (GetActiveServerConnectionIds (connection it))) d3 in
      let d5 :=
        set_num_sessions_in_session_map
          ((num_sessions_in_session_map_ d4 + (2 ^ 64 - 1)) mod 2 ^ 64) d4 in
      (with_dispatcher d5 s3,
       bool_decide
         (server_connection_id
          ∉ GetActiveServerConnectionIds (connection it)))
  end.

(** [OnWriteBlocked]; [is_writer_blocked] is the answer of
    [blocked_writer->IsWriterBlocked()]. *)
Definition OnWriteBlocked (blocked_writer : QuicBlockedWriter)
    (is_writer_blocked : bool) (s : DispatcherWithLists) : DispatcherWithLists :=
  if negb is_writer_blocked
  then with_dispatcher (quic_bug "quic_bug_12724_4" (dispatcher s)) s
  else if bool_decide (blocked_writer ∈ write_blocked_list_ s) then s
  else with_write_blocked_list (write_blocked_list_ s ++ [blocked_writer]) s.

Definition HasPendingWrites (s : DispatcherWithLists) : bool :=
  negb (bool_decide (write_blocked_list_ s = [])).

(** The body of the loop of [DeleteSessions]. *)
Definition erase_closed_session (s : DispatcherWithLists) (session : nat)
    : DispatcherWithLists :=
  let '(l, erased) :=
    erase_writer (ConnectionWriter session) (write_blocked_list_ s) in
  let s' := with_write_blocked_list l s in
  if bool_decide (erased ≠ 0%nat)
  then with_dispatcher (quic_bug "quic_bug_12724_2" (dispatcher s')) s'
  else s'.

Definition DeleteSessions (s : DispatcherWithLists) : DispatcherWithLists :=
  let s1 :=
    if negb (bool_decide (write_blocked_list_ s = []))
    then foldl erase_closed_session s (closed_session_list_ s)
    else s in
  with_closed_session_list [] s1.

(** What a blocked writer does when it is told that the socket can be
    written again; it may call [OnWriteBlocked] to be added back. *)
Variable OnBlockedWriterCanWrite :
  QuicBlockedWriter → DispatcherWithLists → DispatcherWithLists.

(** [OnCanWrite]: the blocked writers are moved to a list of their own,
    which nothing else can reach, and called from its front.  The call of
    [SetWritable] changes the packet writer, which is not part of the
    dispatcher's state, and is left out. *)
Definition OnCanWrite (s : DispatcherWithLists) : DispatcherWithLists :=
  let num_blocked_writers_before := length (write_blocked_list_ s) in
  let temp_list := write_blocked_list_ s in
  let s1 := with_write_blocked_list [] s in
  let s2 :=
    foldl (λ s' blocked_writer, OnBlockedWriterCanWrite blocked_writer s')
      s1 temp_list in
  let num_blocked_writers_after := length (write_blocked_list_ s2) in
  if bool_decide (num_blocked_writers_after ≠ 0%nat) then
    with_dispatcher
      (code_count
         (if bool_decide
               (num_blocked_writers_before = num_blocked_writers_after)
          then "quic_zero_progress_on_can_write"
          else "quic_blocked_again_on_can_write") (dispatcher s2)) s2
  else s2.

End ClosingSessions.

(** ** A concrete environment

    A small instance of the collaborators, used to run the dispatcher on
    concrete datagrams.  Its wire format is a toy one: the first octet is the
    kind of header, the second the version, the third the length of the
    destination connection ID, which follows; a short header has no version
    and a connection ID of the expected length.  The last octet of a
    datagram tells what the CHLO extractors find in it. *)

Definition demo_tls_version : ParsedQuicVersion :=
  {| handshake_protocol := 2; transport_version := 80 |}.

Definition demo_crypto_version : ParsedQuicVersion :=
  {| handshake_protocol := 1; transport_version := 50 |}.

Definition demo_legacy_version : ParsedQuicVersion :=
  {| handshake_protocol := 1; transport_version := 43 |}.

Definition demo_unknown_version : ParsedQuicVersion :=
  {| handshake_protocol := 0; transport_version := 0 |}.

Definition demo_version_of_octet (b : N) : ParsedQuicVersion :=
  match b with
  | 1 => demo_tls_version
  | 2 => demo_crypto_version
  | 3 => demo_legacy_version
  | _ => demo_unknown_version
  end.

Definition demo_header (f : PacketHeaderFormat) (t : QuicLongHeaderType)
    (flag : bool) (label : N) (dcid : QuicConnectionId) : PublicHeader :=
  {| ph_form := f; ph_long_packet_type := t; ph_version_flag := flag;
     ph_use_length_prefix := true; ph_version_label := label;
     ph_version := if flag then demo_version_of_octet label
                   else demo_unknown_version;
     ph_destination_connection_id := dcid;
     ph_source_connection_id := []; ph_retry_token := None |}.

Definition demo_parse (octets : list N) (expected_length : N)
    : QuicErrorCode * PublicHeader :=
  match octets with
  | 0 :: ver :: len :: rest =>
      (QUIC_NO_ERROR,
       demo_header IETF_QUIC_LONG_HEADER_PACKET INITIAL true ver
         (take (N.to_nat len) rest))
  | 1 :: ver :: len :: rest =>
      (QUIC_NO_ERROR,
       demo_header IETF_QUIC_LONG_HEADER_PACKET HANDSHAKE true ver
         (take (N.to_nat len) rest))
  | 2 :: rest =>
      (QUIC_NO_ERROR,
       demo_header IETF_QUIC_SHORT_HEADER_PACKET INVALID_PACKET_TYPE false 0
         (take (N.to_nat expected_length) rest))
  | 3 :: ver :: rest =>
      (QUIC_NO_ERROR,
       demo_header GOOGLE_QUIC_PACKET INVALID_PACKET_TYPE true ver
         (take (N.to_nat expected_length) rest))
  | _ =>
      (QUIC_INVALID_PACKET_HEADER,
       demo_header GOOGLE_QUIC_PACKET INVALID_PACKET_TYPE false 0 [])
  end.

Definition demo_full_chlo (x : TlsChloExtractor) : TlsChloExtractor :=
  {| state := kParsedFullChlo; extracted_alpns := ["h3"];
     server_name := "example.org";
     extracted_resumption_attempted := false;
     extracted_early_data_attempted := false; alert_code := alert_code x |}.

Definition demo_with_state (st : TlsChloExtractorState) (alert : N)
    (x : TlsChloExtractor) : TlsChloExtractor :=
  {| state := st; extracted_alpns := extracted_alpns x;
     server_name := server_name x;
     extracted_resumption_attempted := extracted_resumption_attempted x;
     extracted_early_data_attempted := extracted_early_data_attempted x;
     alert_code := alert |}.

(** Last octet 241: the datagram holds a whole CHLO; 240: its first half;
    242: its second half; 160: a fatal alert (40, handshake_failure). *)
Definition demo_tls_ingest (x : TlsChloExtractor) (v : ParsedQuicVersion)
    (p : QuicReceivedPacket) : TlsChloExtractor :=
  match last (data p) with
  | Some 241 => demo_full_chlo x
  | Some 240 => demo_with_state kParsedPartialChlo 0 x
  | Some 242 =>
      if bool_decide (state x = kParsedPartialChlo) then demo_full_chlo x
      else x
  | Some 160 => demo_with_state kAlert 40 x
  | _ => x
  end.

(** Last octet 193: a legacy-crypto CHLO with ALPN h3. *)
Definition demo_chlo_extract (p : QuicReceivedPacket) (v : ParsedQuicVersion)
    (tags : list string) (len : N) : option CryptoHandshakeMessage :=
  match last (data p) with
  | Some 193 => Some [(kALPN, [104; 51])]
  | _ => None
  end.

(** A stand-in for the replacement hash: the connection ID cut or padded
    with zero octets to the wanted length. *)
Definition demo_replacement (c : QuicConnectionId) (len : N)
    : QuicConnectionId :=
  take (N.to_nat len) (c ++ replicate (N.to_nat len) 0).

Definition demo_externals : Externals :=
  {| IsKnown := λ v, negb (transport_version v =? 0);
     AllowsVariableLengthConnectionIds := λ v, true;
     SupportsClientConnectionIds := λ v, true;
     HasLengthPrefixedConnectionIds := λ v, true;
     HasIetfInvariantHeader := λ v, true;
     UsesTls := λ v, handshake_protocol v =? 2;
     LegacyVersionForEncapsulation := demo_legacy_version;
     IsConnectionIdValidForVersion := λ c t, cid_length c <=? 20;
     IsConnectionIdLengthValidForVersion := λ len t, len <=? 20;
     ParsePublicHeaderDispatcher := demo_parse;
     ChloExtractor_Extract := demo_chlo_extract;
     TlsChloExtractor_ingest := demo_tls_ingest;
     CreateReplacementConnectionId := demo_replacement;
     MaybeReplaceConnectionId := λ c v, None;
     CreateQuicSession := λ c self peer alpn v chlo, Some (c, v);
     ValidityChecksOnFullChlo := λ pi chlo, kFateProcess;
     TlsAlertToQuicErrorCode := λ alert, QUIC_ERROR_CODE (256 + alert);
     SSL_alert_desc_string_long := λ alert, "handshake failure";
     EncryptionLevelToString_INITIAL := "ENCRYPTION_INITIAL";
     GetSupportedVersions := [demo_tls_version; demo_crypto_version];
     GetSupportedAlpns := ["h3"; "h3-29"];
     validate_chlo_size := true;
     create_session_tag_indicators := [];
     kQuicDefaultConnectionIdLength := 8;
     kMinPacketSizeForVersionNegotiation := 1200;
     kPacketHeaderTypeSize := 1;
     GetMinStatelessResetPacketLength := 21;
     kMaxPacketsPerConnection := 10;
     kMaxConnections := 100 |}.

Definition demo_flags : Flags :=
  {| quic_abstract_connection_id_generator := false;
     quic_map_original_connection_ids2 := true;
     quic_disable_legacy_version_encapsulation := true;
     FLAGS_quic_allow_chlo_buffering := true;
     FLAGS_quic_max_recent_stateless_reset_addresses := 1024;
     FLAGS_quic_recent_stateless_reset_addresses_lifetime_ms := 1000 |}.

Definition demo_self : QuicSocketAddress := {| host := 167772161; port := 443 |}.

Definition demo_peer : QuicSocketAddress := {| host := 16909060; port := 55000 |}.

Definition demo_cid : QuicConnectionId := [202; 254; 186; 190; 0; 0; 0; 0].

(** A datagram of [size] octets: a header of the given kind and version
    for connection ID [cid], zero padding, and a last octet [mark]. *)
Definition demo_datagram (kind ver : N) (cid : QuicConnectionId)
    (size : nat) (mark : N) : QuicReceivedPacket :=
  let header :=
    match kind with
    | 2 => 2 :: cid
    | 3 => 3 :: ver :: cid
    | _ => kind :: ver :: cid_length cid :: cid
    end in
  {| data := header ++ replicate (size - length header - 1) 0 ++ [mark];
     receipt_time := 0 |}.

(** * Observations *)

(** What the properties below read off a dispatcher and its store. *)



(** The members a step leaves as they were, the log apart. *)
Definition same_sessions (d d' : Dispatcher) : Prop :=
  sessions d' = sessions d
  ∧ reference_counted_session_map_ d' = reference_counted_session_map_ d
  ∧ num_sessions_in_session_map_ d' = num_sessions_in_session_map_ d
  ∧ new_sessions_allowed_per_event_loop_ d'
    = new_sessions_allowed_per_event_loop_ d
  ∧ factory_calls d' = factory_calls d.

(** The packets buffered for a connection ID, in the order of their list. *)
Definition packets_for (s : QuicBufferedPacketStore) (cid : QuicConnectionId)
    : list BufferedPacket :=
  match find_list cid (lists s) with
  | Some l => buffered_packets l
  | None => []
  end.

(** The CHLO stored with the packets buffered for a connection ID. *)
Definition chlo_for (s : QuicBufferedPacketStore) (cid : QuicConnectionId)
    : option ParsedClientHello :=
  match find_list cid (lists s) with
  | Some l => parsed_chlo l
  | None => None
  end.

(** A buffered packet as [ProcessUdpPacket] receives it. *)
Definition entry_of (b : BufferedPacket)
    : QuicSocketAddress * QuicSocketAddress * QuicReceivedPacket :=
  (bp_self_address b, bp_peer_address b, bp_packet b).

(** Every session of [ss] is still there in [ss'], and has received what
    it had received and possibly more after it. *)
Definition grows (ss ss' : list QuicSession) : Prop :=
  ∀ h s, ss !! h = Some s →
         ∃ s', ss' !! h = Some s' ∧ received s `prefix_of` received s'.

(** What a step that creates no session leaves as it was. *)
Definition quiet (d d' : Dispatcher) : Prop :=
  length (sessions d') = length (sessions d)
  ∧ reference_counted_session_map_ d' = reference_counted_session_map_ d
  ∧ num_sessions_in_session_map_ d' = num_sessions_in_session_map_ d
  ∧ new_sessions_allowed_per_event_loop_ d'
    = new_sessions_allowed_per_event_loop_ d
  ∧ accept_new_connections_ d' = accept_new_connections_ d
  ∧ factory_calls d' = factory_calls d.

(** What a step that neither creates a session nor touches the store of
    buffered packets leaves as it was. *)
Definition calm (d d' : Dispatcher) : Prop :=
  quiet d d' ∧ buffered_packets_ d' = buffered_packets_ d.

(** What a step with CHLO buffering on does to the sessions and to a quota
    that is in the range of [int16_t]: every session made is paid for, and
    no session is made without quota. *)
Definition within_budget (d d' : Dispatcher) : Prop :=
  (length (sessions d) ≤ length (sessions d'))%nat
  ∧ ((new_sessions_allowed_per_event_loop_ d < 2 ^ 15)%Z →
     (new_sessions_allowed_per_event_loop_ d'
      ≤ new_sessions_allowed_per_event_loop_ d)%Z
     ∧ (Z.of_nat (length (sessions d'))
        + new_sessions_allowed_per_event_loop_ d'
        ≤ Z.of_nat (length (sessions d))
          + new_sessions_allowed_per_event_loop_ d)%Z
     ∧ ((0 ≤ new_sessions_allowed_per_event_loop_ d)%Z →
        (0 ≤ new_sessions_allowed_per_event_loop_ d')%Z))
  ∧ ((new_sessions_allowed_per_event_loop_ d ≤ 0)%Z →
     new_sessions_allowed_per_event_loop_ d'
     = new_sessions_allowed_per_event_loop_ d
     ∧ factory_calls d' = factory_calls d).

(** Datagrams handed to [ProcessPacket] one after the other. *)
Fixpoint ProcessPackets (X : Externals) (F : Flags) (depth : nat)
    (arrivals : list (QuicSocketAddress * QuicSocketAddress
                      * QuicReceivedPacket))
    (d : Dispatcher) : option Dispatcher :=
  match arrivals with
  | [] => Some d
  | (self, peer, p) :: rest =>
      match ProcessPacket X F depth self peer p d with
      | Some d' => ProcessPackets X F depth rest d'
      | None => None
      end
  end.

(** The entry that [CleanUpSession] leaves in the time-wait list for the
    active connection IDs of a connection: its termination packets if it
    has some; else a stateless reset once the handshake is complete, and
    before that one CONNECTION_CLOSE for the failed handshake. *)
Definition time_wait_entry_of (X : Externals)
    (server_connection_id : QuicConnectionId) (c : QuicConnection)
    : TimeWaitEntry :=
  let ietf := HasIetfInvariantHeader X (connection_version c) in
  match connection_termination_packets c with
  | Some (p :: ps) =>
      {| action := SEND_CONNECTION_CLOSE_PACKETS;
         info := {| tw_ietf_quic := ietf; termination_packets := p :: ps;
                    active_connection_ids := GetActiveServerConnectionIds c;
                    srtt := smoothed_rtt c |} |}
  | _ =>
      if IsHandshakeComplete c then
        {| action := SEND_STATELESS_RESET;
           info := {| tw_ietf_quic := ietf; termination_packets := [];
                      active_connection_ids := GetActiveServerConnectionIds c;
                      srtt := smoothed_rtt c |} |}
      else
        {| action := SEND_TERMINATION_PACKETS;
           info :=
             {| tw_ietf_quic := ietf;
                termination_packets :=
                  [InitialEncryptedPacket (connection_version c)
                     server_connection_id
                     (GetOriginalDestinationConnectionId c)
                     [ConnectionCloseFrame
                        (transport_version (connection_version c))
                        QUIC_HANDSHAKE_FAILED NO_IETF_QUIC_ERROR
                        "Connection is closed by server before handshake confirmed"
                        0]];
                active_connection_ids := GetActiveServerConnectionIds c;
                srtt := 0 |} |}
  end.



(** What the time-wait list writes for an entry when a packet comes for
    its connection ID. *)
Definition answer_of (self peer : QuicSocketAddress) (cid : QuicConnectionId)
    (received_packet_length : N) (e : TimeWaitEntry) : list Event :=
  match action e with
  | SEND_TERMINATION_PACKETS | SEND_CONNECTION_CLOSE_PACKETS =>
      map (WritePacket self peer) (termination_packets (info e))
  | SEND_STATELESS_RESET =>
      [WritePacket self peer
         (PublicResetPacket cid (tw_ietf_quic (info e))
            received_packet_length)]
  | DO_NOTHING => []
  end.

(** * Scenarios *)

(** Dispatchers and datagrams of the demonstration environment. *)

(** The CHLO that [demo_tls_ingest] reads from a datagram marked 241. *)
Definition demo_chlo : ParsedClientHello :=
  {| sni := "example.org"; uaid := ""; alpns := ["h3"];
     legacy_version_encapsulation_inner_packet := [];
     chlo_retry_token := []; resumption_attempted := false;
     early_data_attempted := false |}.

(** An INITIAL datagram of 1200 octets for [demo_cid] with a full CHLO. *)
Definition demo_chlo_datagram : QuicReceivedPacket :=
  demo_datagram 0 1 demo_cid 1200 241.

(** The same datagram with its header parsed, as [ProcessPacket] hands it
    on. *)
Definition demo_chlo_packet_info : ReceivedPacketInfo :=
  make_packet_info demo_self demo_peer demo_chlo_datagram
    (demo_parse (data demo_chlo_datagram) 8).2.

(** A dispatcher with one session, created for [demo_cid] by a CHLO that
    arrived while one new session was allowed. *)
Definition demo_established : Dispatcher :=
  default (new_QuicDispatcher 8 true 0)
    (ProcessPacket demo_externals demo_flags 1 demo_self demo_peer
       demo_chlo_datagram
       (set_new_sessions_allowed_per_event_loop 1
          (new_QuicDispatcher 8 true 0))).

(** [demo_flags] with the restart flag quic_map_original_connection_ids2
    off. *)
Definition demo_flags_unmapped : Flags :=
  {| quic_abstract_connection_id_generator := false;
     quic_map_original_connection_ids2 := false;
     quic_disable_legacy_version_encapsulation := true;
     FLAGS_quic_allow_chlo_buffering := true;
     FLAGS_quic_max_recent_stateless_reset_addresses := 1024;
     FLAGS_quic_recent_stateless_reset_addresses_lifetime_ms := 1000 |}.

(** [demo_flags] with FLAGS_quic_allow_chlo_buffering off. *)
Definition demo_flags_unbuffered : Flags :=
  {| quic_abstract_connection_id_generator := false;
     quic_map_original_connection_ids2 := true;
     quic_disable_legacy_version_encapsulation := true;
     FLAGS_quic_allow_chlo_buffering := false;
     FLAGS_quic_max_recent_stateless_reset_addresses := 1024;
     FLAGS_quic_recent_stateless_reset_addresses_lifetime_ms := 1000 |}.

(** An INITIAL datagram on which the TLS extractor raises alert 40. *)
Definition demo_alert_datagram : QuicReceivedPacket :=
  demo_datagram 0 1 demo_cid 1200 160.

Definition demo_alert_packet_info : ReceivedPacketInfo :=
  make_packet_info demo_self demo_peer demo_alert_datagram
    (demo_parse (data demo_alert_datagram) 8).2.

(** The error detail [ProcessHeader] composes for that alert. *)
Definition demo_alert_detail : string :=
  "TLS handshake failure (ENCRYPTION_INITIAL) 40: handshake failure".

(** An INITIAL datagram of [size] octets for [demo_cid], with no CHLO. *)
Definition demo_initial_packet_info (size : nat) : ReceivedPacketInfo :=
  make_packet_info demo_self demo_peer (demo_datagram 0 1 demo_cid size 0)
    (demo_parse (data (demo_datagram 0 1 demo_cid size 0)) 8).2.

(** Three datagrams for one connection: the first half of a CHLO, its second
    half, and a later packet, arriving while no new session is allowed. *)
Definition demo_first_half : QuicReceivedPacket :=
  demo_datagram 0 1 demo_cid 1200 240.

Definition demo_second_half : QuicReceivedPacket :=
  demo_datagram 0 1 demo_cid 1200 242.

Definition demo_later : QuicReceivedPacket :=
  demo_datagram 0 1 demo_cid 1200 7.

(** The datagrams [ps] given to [ProcessPacket] one after the other. *)
Definition demo_run (ps : list QuicReceivedPacket) (d : Dispatcher)
    : Dispatcher :=
  foldl
    (λ d' p,
       default d'
         (ProcessPacket demo_externals demo_flags 1 demo_self demo_peer p d'))
    d ps.

(** All three buffered: no new session is allowed. *)
Definition demo_buffered : Dispatcher :=
  demo_run [demo_first_half; demo_second_half; demo_later]
    (new_QuicDispatcher 8 true 0).

(** The later packet alone, buffered before any CHLO has been seen. *)
Definition demo_early : Dispatcher :=
  demo_run [demo_later]
    (set_new_sessions_allowed_per_event_loop 1 (new_QuicDispatcher 8 true 0)).

Definition demo_other_cid : QuicConnectionId := [1; 2; 3; 4; 5; 6; 7; 8].


(** A datagram as it arrives from [demo_peer]. *)
Definition demo_arrival (p : QuicReceivedPacket)
    : QuicSocketAddress * QuicSocketAddress * QuicReceivedPacket :=
  (demo_self, demo_peer, p).

(** A full CHLO for a second connection. *)
Definition demo_other_chlo_datagram : QuicReceivedPacket :=
  demo_datagram 0 1 demo_other_cid 1200 241.


Definition demo_short_header_datagram : QuicReceivedPacket :=
  demo_datagram 2 0 demo_other_cid 1200 0.

(** [demo_buffered] after [ProcessBufferedChlos] was allowed one session
    and a CHLO for a second connection came in. *)
Definition demo_drained : Dispatcher :=
  default demo_buffered
    (ProcessPackets demo_externals demo_flags 1
       [demo_arrival demo_other_chlo_datagram]
       (ProcessBufferedChlos demo_externals demo_flags 1 demo_buffered)).

(** A dispatcher fresh from its constructor after a CHLO and a later packet
    of the same connection. *)
Definition demo_waiting : Dispatcher :=
  default (new_QuicDispatcher 8 true 0)
    (ProcessPackets demo_externals demo_flags 1
       [demo_arrival demo_chlo_datagram; demo_arrival demo_later]
       (new_QuicDispatcher 8 true 0)).




(** A packet of 100 octets for [demo_cid], carried inside a CHLO. *)
Definition demo_inner_packet : list N :=
  data (demo_datagram 0 1 demo_cid 100 7).

Definition demo_decapsulated : Dispatcher :=
  (default (new_QuicDispatcher 8 true 0, false)
     (MaybeHandleLegacyVersionEncapsulation demo_externals
        (ProcessPacket demo_externals demo_flags 1) demo_inner_packet
        demo_chlo_packet_info (new_QuicDispatcher 8 true 0))).1.

(** The connection of every session of the scenarios: closed before its
    handshake was complete, with [demo_cid] as its one connection ID. *)
Definition demo_connection (session : nat) : QuicConnection :=
  {| connection_termination_packets := None; IsHandshakeComplete := false;
     connection_version := demo_tls_version;
     GetOriginalDestinationConnectionId := demo_cid;
     GetActiveServerConnectionIds := [demo_cid]; smoothed_rtt := 0 |}.

(** [demo_established] with the connection of its session and another
    writer waiting for the socket. *)
Definition demo_blocked : DispatcherWithLists :=
  {| dispatcher := demo_established;
     write_blocked_list_ := [ConnectionWriter 0; OtherWriter 1];
     closed_session_list_ := []; delete_sessions_alarm_ := None |}.

Definition demo_closed : DispatcherWithLists :=
  (OnConnectionClosed demo_externals demo_connection demo_cid demo_blocked).1.

(** A connection that has moved to [demo_other_cid] and no longer counts
    [demo_cid] among its active connection IDs, and [demo_blocked] after it
    was closed under [demo_cid]. *)
Definition demo_moved_connection (session : nat) : QuicConnection :=
  {| connection_termination_packets := None; IsHandshakeComplete := true;
     connection_version := demo_tls_version;
     GetOriginalDestinationConnectionId := demo_cid;
     GetActiveServerConnectionIds := [demo_other_cid]; smoothed_rtt := 0 |}.



Definition demo_closed_moved : DispatcherWithLists :=
  (OnConnectionClosed demo_externals demo_moved_connection demo_cid
     demo_blocked).1.

(** The connection of session 0 is blocked again when it is told that it
    can write; every other writer is done. *)
Definition demo_OnBlockedWriterCanWrite (w : QuicBlockedWriter)
    (s : DispatcherWithLists) : DispatcherWithLists :=
  match w with
  | ConnectionWriter 0 => OnWriteBlocked w true s
  | _ => s
  end.

Definition demo_short_header_packet_info : ReceivedPacketInfo :=
  make_packet_info demo_self demo_peer demo_short_header_datagram
    (demo_parse (data demo_short_header_datagram) 8).2.

(** A datagram with a short header for [demo_cid]. *)
Definition demo_short_datagram : QuicReceivedPacket :=
  demo_datagram 2 0 demo_cid 1200 0.

Definition demo_short_packet_info : ReceivedPacketInfo :=
  make_packet_info demo_self demo_peer demo_short_datagram
    (demo_parse (data demo_short_datagram) 8).2.

(** [demo_flags] with quic_abstract_connection_id_generator on. *)
Definition demo_flags_generator : Flags :=
  {| quic_abstract_connection_id_generator := true;
     quic_map_original_connection_ids2 := true;
     quic_disable_legacy_version_encapsulation := true;
     FLAGS_quic_allow_chlo_buffering := true;
     FLAGS_quic_max_recent_stateless_reset_addresses := 1024;
     FLAGS_quic_recent_stateless_reset_addresses_lifetime_ms := 1000 |}.

(** A connection-ID generator for connection IDs of eight octets: it leaves
    a connection ID of eight octets as it is and replaces every other one by
    one of eight octets. *)
Definition demo_generator (c : QuicConnectionId) (v : ParsedQuicVersion)
    : option QuicConnectionId :=
  if cid_length c =? 8 then None else Some (demo_replacement c 8).

(** [demo_externals] with that generator. *)
Definition demo_generator_externals : Externals :=
  {| IsKnown := IsKnown demo_externals;
     AllowsVariableLengthConnectionIds := AllowsVariableLengthConnectionIds demo_externals;
     SupportsClientConnectionIds := SupportsClientConnectionIds demo_externals;
     HasLengthPrefixedConnectionIds := HasLengthPrefixedConnectionIds demo_externals;
     HasIetfInvariantHeader := HasIetfInvariantHeader demo_externals;
     UsesTls := UsesTls demo_externals;
     LegacyVersionForEncapsulation := LegacyVersionForEncapsulation demo_externals;
     IsConnectionIdValidForVersion := IsConnectionIdValidForVersion demo_externals;
     IsConnectionIdLengthValidForVersion := IsConnectionIdLengthValidForVersion demo_externals;
     ParsePublicHeaderDispatcher := ParsePublicHeaderDispatcher demo_externals;
     ChloExtractor_Extract := ChloExtractor_Extract demo_externals;
     TlsChloExtractor_ingest := TlsChloExtractor_ingest demo_externals;
     CreateReplacementConnectionId := CreateReplacementConnectionId demo_externals;
     MaybeReplaceConnectionId := demo_generator;
     CreateQuicSession := CreateQuicSession demo_externals;
     ValidityChecksOnFullChlo := ValidityChecksOnFullChlo demo_externals;
     TlsAlertToQuicErrorCode := TlsAlertToQuicErrorCode demo_externals;
     SSL_alert_desc_string_long := SSL_alert_desc_string_long demo_externals;
     EncryptionLevelToString_INITIAL := EncryptionLevelToString_INITIAL demo_externals;
     GetSupportedVersions := GetSupportedVersions demo_externals;
     GetSupportedAlpns := GetSupportedAlpns demo_externals;
     validate_chlo_size := validate_chlo_size demo_externals;
     create_session_tag_indicators := create_session_tag_indicators demo_externals;
     kQuicDefaultConnectionIdLength := kQuicDefaultConnectionIdLength demo_externals;
     kMinPacketSizeForVersionNegotiation := kMinPacketSizeForVersionNegotiation demo_externals;
     kPacketHeaderTypeSize := kPacketHeaderTypeSize demo_externals;
     GetMinStatelessResetPacketLength := GetMinStatelessResetPacketLength demo_externals;
     kMaxPacketsPerConnection := kMaxPacketsPerConnection demo_externals;
     kMaxConnections := kMaxConnections demo_externals |}.

(** * Tactics *)

Ltac count_factory :=
  unfold factory_calls; cbn; rewrite ?filter_app, ?length_app; cbn;
  repeat case_decide; cbn; try done; try lia.

Ltac some_eq :=
  let H := fresh in intros H; apply (inj Some) in H; subst.

(** * Properties *)

(** ** ALPN selection *)

Section AlpnSelection.

Variable X : Externals.

Lemma existsb_eqb_elem (a : string) (l : list string) :
  existsb (String.eqb a) l = true ↔ a ∈ l.
Proof.
  rewrite existsb_exists. split.
  - intros (b & Hb & Heq). apply String.eqb_eq in Heq. subst b.
    by apply list_elem_of_In.
  - intros Ha. exists a. split; [by apply list_elem_of_In|].
    apply String.eqb_refl.
Qed.

Lemma first_supported_alpn_first (supported pre post : list string) (a : string) :
  a ∈ supported → (∀ b, b ∈ pre → b ∉ supported) →
  first_supported_alpn supported (pre ++ a :: post) = Some a.
Proof.
  intros Ha. induction pre as [|b pre IH]; intros Hpre; simpl.
  - apply existsb_eqb_elem in Ha. by rewrite Ha.
  - destruct (existsb (String.eqb b) supported) eqn:Hb.
    + apply existsb_eqb_elem in Hb. exfalso. apply (Hpre b); [left|done].
    + apply IH. intros c Hc. apply Hpre. by right.
Qed.

Lemma first_supported_alpn_none (supported candidates : list string) :
  (∀ b, b ∈ candidates → b ∉ supported) →
  first_supported_alpn supported candidates = None.
Proof.
  induction candidates as [|b rest IH]; intros Hall; simpl; [done|].
  destruct (existsb (String.eqb b) supported) eqn:Hb.
  - apply existsb_eqb_elem in Hb. exfalso. apply (Hall b); [left|done].
  - apply IH. intros c Hc. apply Hall. by right.
Qed.

(** C10.  [SelectAlpn] returns the empty string for an empty list; for a
    list of more than one element, the first element that occurs in the
    version manager's supported ALPNs, when one does; and the first element
    of the list in every other case (a single element, or no element
    supported). *)
Theorem SelectAlpn_rule (alpns : list string) :
  (alpns = [] → SelectAlpn X alpns = "")
  ∧ (∀ pre a post,
       (1 < length alpns)%nat → alpns = pre ++ a :: post →
       a ∈ GetSupportedAlpns X →
       (∀ b, b ∈ pre → b ∉ GetSupportedAlpns X) →
       SelectAlpn X alpns = a)
  ∧ (∀ first rest,
       alpns = first :: rest →
       rest = [] ∨ (∀ b, b ∈ alpns → b ∉ GetSupportedAlpns X) →
       SelectAlpn X alpns = first).
Proof.
  split; [by intros ->|split].
  - intros pre a post Hlen Heq Ha Hpre. unfold SelectAlpn.
    destruct alpns as [|first rest]; [by destruct pre|].
    apply Nat.ltb_lt in Hlen. rewrite Hlen, Heq.
    by rewrite first_supported_alpn_first.
  - intros first rest -> [->|Hnone]; unfold SelectAlpn; [done|].
    destruct (1 <? length (first :: rest))%nat; [|done].
    by rewrite first_supported_alpn_none.
Qed.

End AlpnSelection.

(** ** Blocked source ports *)

Lemma blocked_ports_scan_elem (port : N) (table : list N) :
  blocked_ports_scan port table = true ↔ port ∈ table.
Proof.
  induction table as [|b rest IH]; simpl.
  - split; [done|]. by intros ?%elem_of_nil.
  - destruct (N.eqb_spec port b) as [->|Hne].
    + split; [intros _; left|done].
    + rewrite IH. split; [by right|].
      intros [?|?]%elem_of_cons; [done|done].
Qed.

Lemma IsSourceUdpPortBlocked_elem (port : N) :
  IsSourceUdpPortBlocked port = true ↔ port ∈ blocked_ports.
Proof.
  unfold IsSourceUdpPortBlocked.
  destruct (N.ltb_spec highest_blocked_port port) as [Hhigh|Hlow].
  - split; [done|]. intros Hin. exfalso.
    assert (Forall (λ b, b ≤ highest_blocked_port) blocked_ports) as Hall
      by (repeat constructor; by vm_compute).
    rewrite Forall_forall in Hall. specialize (Hall _ Hin). lia.
  - apply blocked_ports_scan_elem.
Qed.

Section BlockedPorts.

Variable X : Externals.
Variable F : Flags.

Lemma MaybeDispatchPacket_blocked_port reenter (pi : ReceivedPacketInfo)
    (d : Dispatcher) :
  IsSourceUdpPortBlocked (port (peer_address pi)) = true →
  MaybeDispatchPacket X F reenter pi d
  = Some (code_count "quic_dropped_blocked_port" d, true).
Proof. intros H. unfold MaybeDispatchPacket. by rewrite H. Qed.

(** C1, as the code has it.  The port check is exactly membership in the
    sixteen listed ports.  On a datagram from such a port
    [MaybeDispatchPacket] answers "handled" and leaves the dispatcher as it
    was but for the counter quic_dropped_blocked_port.  [ProcessPacket]
    returns at any depth; nothing is written, no session, map entry,
    buffered list, time-wait entry or recorded reset address changes.  What
    can change before the port check is [last_error_], when the header
    stage rejects the datagram, and
    [expected_server_connection_id_length_], which adopts the datagram's
    length when [should_update_expected_server_connection_id_length_] is
    set. *)
Theorem blocked_port_silent_drop (depth : nat) (self peer : QuicSocketAddress)
    (p : QuicReceivedPacket) (d : Dispatcher) :
  (∀ n : N,
     IsSourceUdpPortBlocked n = true
     ↔ n ∈ [0; 17; 19; 53; 111; 123; 137; 138; 161; 389; 500; 1900; 3702;
            5353; 5355; 11211])
  ∧ (IsSourceUdpPortBlocked (port peer) = true →
     (∀ reenter pi,
        peer_address pi = peer →
        MaybeDispatchPacket X F reenter pi d
        = Some (code_count "quic_dropped_blocked_port" d, true))
     ∧ ∃ d',
         ProcessPacket X F (S depth) self peer p d = Some d'
         ∧ (d' = SetLastError
                   (ParsePublicHeaderDispatcher X (data p)
                      (expected_server_connection_id_length_ d)).1 d
            ∨ d' = SetLastError QUIC_INVALID_PACKET_HEADER d
            ∨ d' = code_count "quic_dropped_blocked_port"
                     (if should_update_expected_server_connection_id_length_ d
                      then
                        set_expected_server_connection_id_length
                          (cid_length
                             (ph_destination_connection_id
                                (ParsePublicHeaderDispatcher X (data p)
                                   (expected_server_connection_id_length_ d)).2))
                          d
                      else d))
         ∧ written d' = written d
         ∧ sessions d' = sessions d
         ∧ reference_counted_session_map_ d' = reference_counted_session_map_ d
         ∧ buffered_packets_ d' = buffered_packets_ d
         ∧ time_wait_list_manager_ d' = time_wait_list_manager_ d
         ∧ recent_stateless_reset_addresses_ d'
           = recent_stateless_reset_addresses_ d
         ∧ (should_update_expected_server_connection_id_length_ d = false →
            expected_server_connection_id_length_ d'
            = expected_server_connection_id_length_ d)).
Proof.
  split; [apply IsSourceUdpPortBlocked_elem|].
  intros Hblocked. split.
  - intros reenter pi <-. by apply MaybeDispatchPacket_blocked_port.
  - cbn [ProcessPacket].
    destruct (ParsePublicHeaderDispatcher X (data p)
                (expected_server_connection_id_length_ d))
      as [error header] eqn:Hparse.
    cbn [fst snd].
    repeat match goal with
           | |- context [if ?b then Some (SetLastError ?e d) else _] =>
               destruct b;
               [eexists; split; [reflexivity|];
                split; [auto|]; by repeat split|]
           end.
    rewrite MaybeDispatchPacket_blocked_port by done.
    eexists; split; [reflexivity|].
    split; [by right; right|].
    unfold written, code_count; cbn.
    rewrite filter_app; cbn. rewrite app_nil_r.
    by destruct (should_update_expected_server_connection_id_length_ d) eqn:Hup.
Qed.

End BlockedPorts.

(** A datagram from port 53 whose connection ID is four octets long, given
    to a dispatcher that expects eight and updates its expectation: the
    blocked-port drop leaves [expected_server_connection_id_length_] at
    four. *)
Lemma blocked_port_datagram_changes_expected_length :
  let d :=
    SetShouldUpdateExpectedServerConnectionIdLength true
      (new_QuicDispatcher 8 true 0) in
  let peer := {| host := 16909060; port := 53 |} in
  let p := demo_datagram 0 1 [1; 2; 3; 4] 1200 0 in
  IsSourceUdpPortBlocked (port peer) = true
  ∧ expected_server_connection_id_length_ d = 8
  ∧ (λ d', (expected_server_connection_id_length_ d', log d'))
      <$> ProcessPacket demo_externals demo_flags 1 demo_self peer p d
    = Some (4, [CodeCount "quic_dropped_blocked_port"]).
Proof. by vm_compute. Qed.

Lemma blocked_port_silent_drop_witness :
  IsSourceUdpPortBlocked 53 = true
  ∧ written
      <$> ProcessPacket demo_externals demo_flags 1 demo_self
            {| host := 16909060; port := 53 |}
            (demo_datagram 0 1 demo_cid 1200 241)
            (new_QuicDispatcher 8 true 0)
    = Some [].
Proof.
  split; [done|].
  destruct (blocked_port_silent_drop demo_externals demo_flags 0 demo_self
              {| host := 16909060; port := 53 |}
              (demo_datagram 0 1 demo_cid 1200 241)
              (new_QuicDispatcher 8 true 0)) as [_ H].
  destruct (H eq_refl) as [_ (d' & Hrun & _ & Hwritten & _)].
  rewrite Hrun. cbn [fmap option_fmap option_map]. by rewrite Hwritten.
Defined.

(** ** Connection-ID replacement *)

Section ConnectionIdReplacement.

Variable X : Externals.
Variable F : Flags.

(** C3, as the code has it.  With the restart flag
    quic_abstract_connection_id_generator off, for a version that allows
    variable-length connection IDs the answer of
    [MaybeReplaceServerConnectionId] depends on nothing but the connection
    ID and the expected length [L]: two calls, made in any two states of the
    dispatcher that expect [L], agree.  When the length of the connection ID
    differs from [L] the answer is a replacement of length [L]; when it is
    [L] there is no replacement.  The hash of QuicUtils is a collaborator,
    taken as a function of the connection ID and the length; what is assumed
    of it is that it produces connection IDs of the length asked for.  With
    the flag on, the answer is the one of the connection-ID generator,
    whatever length the dispatcher expects. *)
Theorem MaybeReplaceServerConnectionId_pure (d1 d2 : Dispatcher)
    (c : QuicConnectionId) (v : ParsedQuicVersion) (L : N) :
  AllowsVariableLengthConnectionIds X v = true →
  (∀ c' L', cid_length (CreateReplacementConnectionId X c' L') = L') →
  expected_server_connection_id_length_ d1 = L →
  expected_server_connection_id_length_ d2 = L →
  (quic_abstract_connection_id_generator F = false →
   MaybeReplaceServerConnectionId X F d1 c v
   = MaybeReplaceServerConnectionId X F d2 c v
   ∧ (cid_length c ≠ L →
      ∃ r, MaybeReplaceServerConnectionId X F d1 c v = Some r
           ∧ cid_length r = L)
   ∧ (cid_length c = L → MaybeReplaceServerConnectionId X F d1 c v = None))
  ∧ (quic_abstract_connection_id_generator F = true →
     ∀ d : Dispatcher,
       MaybeReplaceServerConnectionId X F d c v
       = MaybeReplaceConnectionId X c v).
Proof.
  intros _ Hhash H1 H2. unfold MaybeReplaceServerConnectionId.
  split; intros ->; [|done].
  rewrite H1, H2. split; [done|].
  unfold ReplaceShortServerConnectionId, ReplaceLongServerConnectionId.
  destruct (N.eqb_spec (cid_length c) L) as [Heq|Hne]; [by split|].
  split; [|done]. intros _.
  destruct (cid_length c <? L); eexists; (split; [reflexivity|apply Hhash]).
Qed.

End ConnectionIdReplacement.

Lemma demo_replacement_length (c : QuicConnectionId) (len : N) :
  cid_length (demo_replacement c len) = len.
Proof.
  unfold cid_length, demo_replacement.
  rewrite length_take, length_app, length_replicate. lia.
Qed.

(** Two dispatchers that expect eight octets, with the flag off and with
    the flag on. *)
Lemma MaybeReplaceServerConnectionId_pure_witness :
  (MaybeReplaceServerConnectionId demo_externals demo_flags
     (new_QuicDispatcher 8 true 0) [1; 2; 3; 4] demo_tls_version
   = MaybeReplaceServerConnectionId demo_externals demo_flags
       (code_count "other" (new_QuicDispatcher 8 false 7)) [1; 2; 3; 4]
       demo_tls_version
   ∧ MaybeReplaceServerConnectionId demo_externals demo_flags
       (new_QuicDispatcher 8 true 0) [1; 2; 3; 4] demo_tls_version
     = Some [1; 2; 3; 4; 0; 0; 0; 0]
   ∧ MaybeReplaceServerConnectionId demo_externals demo_flags
       (new_QuicDispatcher 8 true 0) demo_cid demo_tls_version
     = None)
  ∧ MaybeReplaceServerConnectionId demo_generator_externals
      demo_flags_generator (new_QuicDispatcher 8 true 0) [1; 2; 3; 4]
      demo_tls_version
    = demo_generator [1; 2; 3; 4] demo_tls_version.
Proof.
  split.
  - destruct (MaybeReplaceServerConnectionId_pure demo_externals demo_flags
                (new_QuicDispatcher 8 true 0)
                (code_count "other" (new_QuicDispatcher 8 false 7))
                [1; 2; 3; 4] demo_tls_version 8) as [Hoff _];
      [reflexivity|apply demo_replacement_length|reflexivity|reflexivity|].
    destruct Hoff as (Hsame & _ & _); [reflexivity|].
    split; [exact Hsame|]. split; [reflexivity|].
    destruct (MaybeReplaceServerConnectionId_pure demo_externals demo_flags
                (new_QuicDispatcher 8 true 0) (new_QuicDispatcher 8 true 0)
                demo_cid demo_tls_version 8) as [Hoff _];
      [reflexivity|apply demo_replacement_length|reflexivity|reflexivity|].
    destruct Hoff as (_ & _ & Hnone); [reflexivity|]. by apply Hnone.
  - destruct (MaybeReplaceServerConnectionId_pure demo_generator_externals
                demo_flags_generator (new_QuicDispatcher 8 true 0)
                (new_QuicDispatcher 8 true 0) [1; 2; 3; 4] demo_tls_version 8)
      as [_ Hon];
      [reflexivity|apply demo_replacement_length|reflexivity|reflexivity|].
    by apply Hon.
Defined.

(** With quic_abstract_connection_id_generator on, a dispatcher that expects
    connection IDs of four octets and has a generator for connection IDs of
    eight: a connection ID of eight octets is not replaced, though its
    length is not the expected one, and a connection ID of four is replaced,
    though its length is, by one of eight octets.  With a generator that
    never replaces, a connection ID of four octets stays as it is in a
    dispatcher that expects eight. *)
Lemma generator_ignores_expected_length :
  let d := new_QuicDispatcher 4 true 0 in
  AllowsVariableLengthConnectionIds demo_generator_externals demo_tls_version
  = true
  ∧ expected_server_connection_id_length_ d = 4
  ∧ cid_length demo_cid = 8
  ∧ MaybeReplaceServerConnectionId demo_generator_externals
      demo_flags_generator d demo_cid demo_tls_version = None
  ∧ cid_length [1; 2; 3; 4] = 4
  ∧ MaybeReplaceServerConnectionId demo_generator_externals
      demo_flags_generator d [1; 2; 3; 4] demo_tls_version
    = Some [1; 2; 3; 4; 0; 0; 0; 0]
  ∧ expected_server_connection_id_length_ (new_QuicDispatcher 8 true 0) = 8
  ∧ MaybeReplaceServerConnectionId demo_externals demo_flags_generator
      (new_QuicDispatcher 8 true 0) [1; 2; 3; 4] demo_tls_version = None.
Proof. by vm_compute. Qed.

(** ** The stateless terminator *)

Lemma CloseConnection_new_terminator
    (server_cid original_cid : QuicConnectionId) (v : ParsedQuicVersion)
    (error_code : QuicErrorCode) (error_details : string) (ietf : bool)
    (ids : list QuicConnectionId) (d : Dispatcher) :
  CloseConnection (new_StatelessConnectionTerminator server_cid original_cid v)
    error_code error_details ietf ids d
  = AddConnectionIdToTimeWait SEND_TERMINATION_PACKETS
      {| tw_ietf_quic := ietf;
         termination_packets :=
           [InitialEncryptedPacket v server_cid original_cid
              [ConnectionCloseFrame (transport_version v) error_code
                 NO_IETF_QUIC_ERROR error_details 0]];
         active_connection_ids := ids; srtt := 0 |} d.
Proof. reflexivity. Qed.

(** C9.  [CloseConnection] on a terminator whose creator holds no frame
    adds exactly one packet to the collector: a CONNECTION_CLOSE frame with
    the given error code and details, in a packet for the server connection
    ID under the initial keys of the original server connection ID; and it
    adds the given active connection IDs to the time-wait list under
    SEND_TERMINATION_PACKETS with the collected packets.  For the terminator
    as constructed, that is this one packet. *)
Theorem CloseConnection_one_packet (t : StatelessConnectionTerminator)
    (server_cid original_cid : QuicConnectionId) (v : ParsedQuicVersion)
    (error_code : QuicErrorCode) (error_details : string) (ietf : bool)
    (ids : list QuicConnectionId) (d : Dispatcher) :
  let close_packet (u : StatelessConnectionTerminator) :=
    InitialEncryptedPacket (framer_version (framer_ u))
      (creator_server_connection_id (creator_ u))
      (initial_obfuscators (framer_ u))
      [ConnectionCloseFrame (transport_version (framer_version (framer_ u)))
         error_code NO_IETF_QUIC_ERROR error_details 0] in
  let fresh := new_StatelessConnectionTerminator server_cid original_cid v in
  (queued_frames (creator_ t) = [] →
   packets_ (collector_
               (SerializeConnectionClosePacket t error_code error_details).1)
   = packets_ (collector_ t) ++ [close_packet t]
   ∧ CloseConnection t error_code error_details ietf ids d
     = AddConnectionIdToTimeWait SEND_TERMINATION_PACKETS
         {| tw_ietf_quic := ietf;
            termination_packets := packets_ (collector_ t) ++ [close_packet t];
            active_connection_ids := ids; srtt := 0 |} d)
  ∧ close_packet fresh
    = InitialEncryptedPacket v server_cid original_cid
        [ConnectionCloseFrame (transport_version v) error_code
           NO_IETF_QUIC_ERROR error_details 0]
  ∧ CloseConnection fresh error_code error_details ietf ids d
    = AddConnectionIdToTimeWait SEND_TERMINATION_PACKETS
        {| tw_ietf_quic := ietf; termination_packets := [close_packet fresh];
           active_connection_ids := ids; srtt := 0 |} d
  ∧ log (CloseConnection fresh error_code error_details ietf ids d) = log d
  ∧ ∀ cid,
      cid ∈ ids →
      time_wait_list_manager_
        (CloseConnection fresh error_code error_details ietf ids d) !! cid
      = Some {| action := SEND_TERMINATION_PACKETS;
                info := {| tw_ietf_quic := ietf;
                           termination_packets := [close_packet fresh];
                           active_connection_ids := ids; srtt := 0 |} |}.
Proof.
  intros close_packet fresh.
  assert (CloseConnection fresh error_code error_details ietf ids d
          = AddConnectionIdToTimeWait SEND_TERMINATION_PACKETS
              {| tw_ietf_quic := ietf;
                 termination_packets := [close_packet fresh];
                 active_connection_ids := ids; srtt := 0 |} d) as Hfresh
    by reflexivity.
  split; [|split; [reflexivity|split; [exact Hfresh|split]]].
  - intros Hempty. unfold CloseConnection, SerializeConnectionClosePacket.
    cbn [AddFrame negb fst]. unfold FlushCurrentPacket. cbn.
    rewrite Hempty. cbn. split; reflexivity.
  - rewrite Hfresh. reflexivity.
  - intros cid Hcid. rewrite Hfresh. unfold AddConnectionIdToTimeWait. cbn.
    clear Hfresh. induction ids as [|c rest IH]; [by apply elem_of_nil in Hcid|].
    cbn. destruct (decide (c = cid)) as [->|Hne].
    + by rewrite lookup_insert_eq.
    + rewrite lookup_insert_ne by done.
      apply elem_of_cons in Hcid as [->|Hin]; [done|].
      revert Hin. clear.
      generalize ({| action := SEND_TERMINATION_PACKETS;
                     info := {| tw_ietf_quic := ietf;
                                termination_packets := [close_packet fresh];
                                active_connection_ids := c :: rest;
                                srtt := 0 |} |}).
      intros e. induction rest as [|c' rest IH];
        [by intros ?%elem_of_nil|].
      intros [->|Hin]%elem_of_cons; cbn.
      * by rewrite lookup_insert_eq.
      * destruct (decide (c' = cid)) as [->|Hne];
          [by rewrite lookup_insert_eq|].
        rewrite lookup_insert_ne by done. by apply IH.
Qed.

(** ** Stateless resets *)

Section StatelessResets.

Variable X : Externals.
Variable F : Flags.







End StatelessResets.


(** ** The time-wait list and stateless termination: what they touch *)

Lemma lookup_AddConnectionIdToTimeWait (a : TimeWaitAction)
    (i : TimeWaitConnectionInfo) (d : Dispatcher) (cid : QuicConnectionId) :
  time_wait_list_manager_ (AddConnectionIdToTimeWait a i d) !! cid
  = if bool_decide (cid ∈ active_connection_ids i)
    then Some {| action := a; info := i |}
    else time_wait_list_manager_ d !! cid.
Proof.
  unfold AddConnectionIdToTimeWait. cbn.
  generalize {| action := a; info := i |}. intros e.
  induction (active_connection_ids i) as [|c rest IH]; cbn; [done|].
  destruct (decide (c = cid)) as [->|Hne].
  - rewrite lookup_insert_eq. rewrite bool_decide_eq_true_2; [done|left].
  - rewrite lookup_insert_ne by done. rewrite IH.
    destruct (decide (cid ∈ rest)) as [Hin|Hout].
    + rewrite !bool_decide_eq_true_2; [done|by right|done].
    + rewrite !bool_decide_eq_false_2; [done| |done].
      intros [?|?]%elem_of_cons; congruence.
Qed.

Lemma written_app (d : Dispatcher) (events : list Event) :
  written (set_log (log d ++ events) d) = written d ++ filter is_write events.
Proof. unfold written. cbn. apply filter_app. Qed.

Lemma factory_calls_app (d : Dispatcher) (events : list Event) :
  factory_calls (set_log (log d ++ events) d)
  = factory_calls d ++ filter is_session_creation events.
Proof. unfold factory_calls. cbn. apply filter_app. Qed.

Section StatelessTermination.

Variable X : Externals.

Lemma StatelesslyTerminateConnection_effect (d : Dispatcher)
    (cid : QuicConnectionId) (format : PacketHeaderFormat)
    (flag prefix : bool) (v : ParsedQuicVersion) (code : QuicErrorCode)
    (details : string) (a : TimeWaitAction) :
  let d' :=
    StatelesslyTerminateConnection X d cid format flag prefix v code details
      a in
  same_sessions d d'
  ∧ written d' = written d
  ∧ buffered_packets_ d' = buffered_packets_ d
  ∧ recent_stateless_reset_addresses_ d' = recent_stateless_reset_addresses_ d
  ∧ (∀ other, other ≠ cid →
       time_wait_list_manager_ d' !! other = time_wait_list_manager_ d !! other)
  ∧ time_wait_list_manager_ d' !! cid
    = Some
        (if bool_decide (format ≠ IETF_QUIC_LONG_HEADER_PACKET) && negb flag
         then
           {| action := a;
              info := {| tw_ietf_quic := bool_decide (format ≠ GOOGLE_QUIC_PACKET);
                         termination_packets := [];
                         active_connection_ids := [cid]; srtt := 0 |} |}
         else
           {| action := SEND_TERMINATION_PACKETS;
              info :=
                {| tw_ietf_quic := bool_decide (format ≠ GOOGLE_QUIC_PACKET);
                   termination_packets :=
                     [if IsSupportedVersion X v then
                        InitialEncryptedPacket v cid cid
                          [ConnectionCloseFrame (transport_version v) code
                             NO_IETF_QUIC_ERROR details 0]
                      else
                        VersionNegotiationPacket cid EmptyQuicConnectionId
                          (bool_decide (format ≠ GOOGLE_QUIC_PACKET)) prefix
                          []];
                   active_connection_ids := [cid]; srtt := 0 |} |}).
Proof.
  unfold StatelesslyTerminateConnection, same_sessions.
  destruct (bool_decide (format ≠ IETF_QUIC_LONG_HEADER_PACKET) && negb flag);
    [|destruct (IsSupportedVersion X v)]; cbn zeta.
  - repeat split; try reflexivity.
    + intros other Hne. rewrite lookup_AddConnectionIdToTimeWait. cbn.
      rewrite bool_decide_eq_false_2; [done|]. by intros ?%list_elem_of_singleton.
    + rewrite lookup_AddConnectionIdToTimeWait. cbn.
      rewrite bool_decide_eq_true_2; [done|]. by apply list_elem_of_singleton.
  - repeat split; try reflexivity.
    + unfold factory_calls. cbn. rewrite !filter_app. cbn.
      by rewrite !app_nil_r.
    + unfold written. cbn. rewrite !filter_app. cbn. by rewrite !app_nil_r.
    + intros other Hne. rewrite CloseConnection_new_terminator.
      unfold code_count. cbn [time_wait_list_manager_ set_log].
      rewrite lookup_AddConnectionIdToTimeWait. cbn.
      rewrite bool_decide_eq_false_2; [done|]. by intros ?%list_elem_of_singleton.
    + rewrite CloseConnection_new_terminator.
      unfold code_count. cbn [time_wait_list_manager_ set_log].
      rewrite lookup_AddConnectionIdToTimeWait. cbn.
      rewrite bool_decide_eq_true_2; [done|]. by apply list_elem_of_singleton.
  - repeat split; try reflexivity.
    + intros other Hne. rewrite lookup_AddConnectionIdToTimeWait. cbn.
      rewrite bool_decide_eq_false_2; [done|]. by intros ?%list_elem_of_singleton.
    + rewrite lookup_AddConnectionIdToTimeWait. cbn.
      rewrite bool_decide_eq_true_2; [done|]. by apply list_elem_of_singleton.
Qed.

End StatelessTermination.

(** ** Collisions on session creation *)

Section Collision.

Variable X : Externals.
Variable F : Flags.

(** C4, as the code has it.  With the restart flag
    quic_map_original_connection_ids2 on: if the server connection ID, the
    replacement when there is one and the incoming ID otherwise, is already
    in the session map, then [CreateSessionFromChlo] returns no session,
    does not call the session factory, and leaves the sessions and the map
    as they were.  Without a replacement nothing at all changes.  With a
    replacement the incoming connection ID is statelessly terminated with
    QUIC_HANDSHAKE_FAILED and the detail of the collision: it is in the
    time-wait list afterwards, under SEND_TERMINATION_PACKETS, and for a
    supported version the saved packet is the CONNECTION_CLOSE with that
    detail. *)
Theorem CreateSessionFromChlo_collision (d : Dispatcher)
    (original : QuicConnectionId) (chlo : ParsedClientHello)
    (v : ParsedQuicVersion) (self peer : QuicSocketAddress) :
  quic_map_original_connection_ids2 F = true →
  is_Some
    (reference_counted_session_map_ d
       !! default original (MaybeReplaceServerConnectionId X F d original v)) →
  let result := CreateSessionFromChlo X F d original chlo v self peer in
  result.2 = None
  ∧ same_sessions d result.1
  ∧ written result.1 = written d
  ∧ (MaybeReplaceServerConnectionId X F d original v = None → result.1 = d)
  ∧ (is_Some (MaybeReplaceServerConnectionId X F d original v) →
     result.1
     = StatelesslyTerminateConnection X d original
         IETF_QUIC_LONG_HEADER_PACKET true
         (HasLengthPrefixedConnectionIds X v) v QUIC_HANDSHAKE_FAILED
         "Connection ID collision, please retry"
         SEND_CONNECTION_CLOSE_PACKETS
     ∧ IsConnectionIdInTimeWait result.1 original = true
     ∧ (action <$> time_wait_list_manager_ result.1 !! original)
       = Some SEND_TERMINATION_PACKETS
     ∧ (IsSupportedVersion X v = true →
        (termination_packets ∘ info
           <$> time_wait_list_manager_ result.1 !! original)
        = Some [InitialEncryptedPacket v original original
                  [ConnectionCloseFrame (transport_version v)
                     QUIC_HANDSHAKE_FAILED NO_IETF_QUIC_ERROR
                     "Connection ID collision, please retry" 0]])).
Proof.
  intros Hflag Hfound result. subst result. unfold CreateSessionFromChlo.
  rewrite (bool_decide_eq_true_2 _ Hfound), Hflag. cbn [andb fst snd].
  pose proof (StatelesslyTerminateConnection_effect X d original
                IETF_QUIC_LONG_HEADER_PACKET true
                (HasLengthPrefixedConnectionIds X v) v QUIC_HANDSHAKE_FAILED
                "Connection ID collision, please retry"
                SEND_CONNECTION_CLOSE_PACKETS)
    as (Hsame & Hwritten & _ & _ & _ & Hentry).
  cbn zeta in Hsame, Hwritten, Hentry.
  destruct (MaybeReplaceServerConnectionId X F d original v) as [r|] eqn:Hr.
  - rewrite bool_decide_eq_true_2 by eauto.
    split; [done|]. split; [done|]. split; [done|]. split; [done|].
    intros _. split; [done|]. unfold IsConnectionIdInTimeWait.
    rewrite Hentry. cbn. split; [done|]. split; [done|]. by intros ->.
  - rewrite bool_decide_eq_false_2 by (by intros [? ?]).
    split; [done|]. split; [by repeat split|]. split; [done|].
    split; [done|]. by intros [? ?].
Qed.

End Collision.

(** ** The buffered-packet store: what an enqueue does to a list *)

Lemma find_list_replace cid new ls l :
  find_list cid ls = Some l → find_list cid (replace_list cid new ls) = Some new.
Proof.
  induction ls as [|[c l0] rest IH]; cbn; [done|].
  destruct (bool_decide (c = cid)) eqn:Hc; cbn; rewrite Hc; [done|apply IH].
Qed.

Lemma find_list_replace_ne cid other new ls :
  other ≠ cid →
  find_list other (replace_list cid new ls) = find_list other ls.
Proof.
  intros Hne. induction ls as [|[c l0] rest IH]; cbn; [done|].
  destruct (bool_decide (c = cid)) eqn:Hc; cbn.
  - apply bool_decide_eq_true in Hc. subst c.
    by rewrite bool_decide_eq_false_2 by done.
  - by rewrite IH.
Qed.

Lemma find_list_app cid ls ls' :
  find_list cid (ls ++ ls')
  = match find_list cid ls with
    | Some l => Some l
    | None => find_list cid ls'
    end.
Proof.
  induction ls as [|[c l0] rest IH]; cbn; [done|].
  by destruct (bool_decide (c = cid)).
Qed.

Lemma find_list_evict cid ls kept :
  evict_oldest_without_chlo ls = Some kept →
  find_list cid ls = None → find_list cid kept = None.
Proof.
  revert kept. induction ls as [|[c l0] rest IH]; intros kept; cbn; [done|].
  destruct (parsed_chlo l0).
  - destruct (evict_oldest_without_chlo rest) as [kept'|]; cbn; [|done].
    intros [= <-]. cbn. destruct (bool_decide (c = cid)); [done|].
    by apply IH.
  - intros [= <-]. by destruct (bool_decide (c = cid)).
Qed.

Section StoreEnqueue.

Variable X : Externals.

(** A successful enqueue leaves a list for the connection ID: a packet that
    comes with a CHLO is in front of the packets that were there, the CHLO
    is the list's; a packet without one goes to the back. *)
Lemma EnqueuePacket_success s time cid ietf p self peer v chlo s' :
  EnqueuePacket X s time cid ietf p self peer v chlo = (s', SUCCESS) →
  let entry :=
    {| bp_packet := p; bp_self_address := self; bp_peer_address := peer |} in
  packets_for s' cid
  = match chlo with
    | Some _ => entry :: packets_for s cid
    | None => packets_for s cid ++ [entry]
    end
  ∧ chlo_for s' cid
    = match chlo with
      | Some c => Some c
      | None => chlo_for s cid
      end
  ∧ is_Some (find_list cid (lists s')).
Proof.
  unfold EnqueuePacket, packets_for, chlo_for.
  destruct (find_list cid (lists s)) as [l|] eqn:Hfind.
  - destruct (_ <=? _); [done|].
    destruct chlo as [c|].
    + destruct (bool_decide (is_Some (parsed_chlo l))); [done|].
      intros [= <-]. cbn. by erewrite find_list_replace.
    + intros [= <-]. cbn. by erewrite find_list_replace.
  - destruct (_ <? _).
    + intros [= <-]. cbn. rewrite find_list_app, Hfind. cbn.
      rewrite bool_decide_eq_true_2 by done. by destruct chlo.
    + destruct chlo as [c|]; [|done].
      destruct (evict_oldest_without_chlo (lists s)) as [kept|] eqn:Hev;
        [|done].
      intros [= <-]. cbn.
      rewrite find_list_app, (find_list_evict _ _ _ Hev Hfind). cbn.
      by rewrite bool_decide_eq_true_2.
Qed.

End StoreEnqueue.

(** ** Deferring a CHLO to the next event loop *)

Section DeferredChlo.

Variable X : Externals.
Variable F : Flags.

(** C6, as the code has it.  With FLAGS_quic_allow_chlo_buffering on and
    [new_sessions_allowed_per_event_loop_] at most zero, [ProcessChlo]
    creates no session and does not call the session factory: it hands the
    packet with its parsed CHLO to the store's [EnqueuePacket] and returns.
    When the store answers SUCCESS the connection's list has the CHLO and
    the packet in front; any other answer is reported through
    [OnBufferPacketFailure]. *)
Theorem ProcessChlo_defers (chlo : ParsedClientHello)
    (pi : ReceivedPacketInfo) (d : Dispatcher) :
  FLAGS_quic_allow_chlo_buffering F = true →
  (new_sessions_allowed_per_event_loop_ d ≤ 0)%Z →
  let enqueued :=
    EnqueuePacket X (buffered_packets_ d) (now d)
      (destination_connection_id pi)
      (bool_decide (form pi ≠ GOOGLE_QUIC_PACKET)) (packet pi)
      (self_address pi) (peer_address pi) (version pi) (Some chlo) in
  let d' := (ProcessChlo X F chlo pi d).1 in
  (ProcessChlo X F chlo pi d).2 = pi
  ∧ same_sessions d d'
  ∧ written d' = written d
  ∧ buffered_packets_ d' = enqueued.1
  ∧ (enqueued.2 = SUCCESS →
     HasChloForConnection (buffered_packets_ d') (destination_connection_id pi)
     = true
     ∧ ∃ l,
         find_list (destination_connection_id pi)
           (lists (buffered_packets_ d')) = Some l
         ∧ parsed_chlo l = Some chlo
         ∧ head (buffered_packets l)
           = Some {| bp_packet := packet pi;
                     bp_self_address := self_address pi;
                     bp_peer_address := peer_address pi |})
  ∧ (enqueued.2 ≠ SUCCESS →
     last (log d')
     = Some (BufferPacketFailure enqueued.2 (destination_connection_id pi))).
Proof.
  intros Hflag Hquota enqueued d'. subst enqueued d'. unfold ProcessChlo.
  rewrite Hflag. rewrite (proj2 (Z.leb_le _ _) Hquota). cbn [andb].
  set (d0 := if HasChloForConnection _ _ then quic_bug _ d else d).
  assert (buffered_packets_ d0 = buffered_packets_ d ∧ now d0 = now d
          ∧ same_sessions d d0 ∧ written d0 = written d)
    as (-> & -> & Hsame & Hwritten).
  { subst d0. destruct (HasChloForConnection _ _);
      [|by repeat split].
    unfold quic_bug. rewrite written_app. unfold same_sessions.
    rewrite factory_calls_app. cbn. by rewrite !app_nil_r. }
  destruct (EnqueuePacket _ _ _ _ _ _ _ _ _ _) as [store rs] eqn:Henq.
  cbn [fst snd].
  assert (same_sessions d0 (set_buffered_packets store d0)) as Hsame1
    by (by repeat split).
  destruct (decide (rs = SUCCESS)) as [->|Hfail].
  - rewrite bool_decide_eq_false_2 by (by intros ?). cbn.
    split; [done|]. split; [exact Hsame|]. split; [exact Hwritten|].
    split; [done|]. split; [|done]. intros _.
    apply EnqueuePacket_success in Henq as (Hpackets & Hchlo & [l Hl]).
    unfold packets_for, chlo_for, HasChloForConnection in *.
    rewrite Hl in *. rewrite Hchlo. split; [done|].
    exists l. by rewrite Hpackets.
  - rewrite bool_decide_eq_true_2 by done. cbn [fst snd].
    split; [done|]. unfold OnBufferPacketFailure.
    rewrite written_app. cbn [filter]. split; [|split; [|split; [done|]]].
    + destruct Hsame as (? & ? & ? & ? & ?). unfold same_sessions.
      rewrite factory_calls_app. cbn. rewrite app_nil_r. by repeat split.
    + rewrite filter_cons, filter_nil. cbn. by rewrite app_nil_r.
    + split; [done|]. intros _. cbn [log set_log]. by rewrite last_snoc.
Qed.

End DeferredChlo.

(** ** Concrete runs: collisions and deferred CHLOs *)

Example demo_established_session :
  reference_counted_session_map_ demo_established !! demo_cid = Some 0%nat
  ∧ map (λ s, (connection_id s, length (received s))) (sessions demo_established)
    = [(demo_cid, 1%nat)]
  ∧ length (factory_calls demo_established) = 1%nat.
Proof. by vm_compute. Qed.

(** A CHLO for the four-octet connection ID whose replacement is
    [demo_cid], which already has a session: no session is returned and the
    four-octet ID is in the time-wait list. *)
Lemma CreateSessionFromChlo_collision_witness :
  let result :=
    CreateSessionFromChlo demo_externals demo_flags demo_established
      [202; 254; 186; 190] demo_chlo demo_tls_version demo_self demo_peer in
  result.2 = None
  ∧ IsConnectionIdInTimeWait result.1 [202; 254; 186; 190] = true
  ∧ sessions result.1 = sessions demo_established.
Proof.
  destruct (CreateSessionFromChlo_collision demo_externals demo_flags
              demo_established [202; 254; 186; 190] demo_chlo
              demo_tls_version demo_self demo_peer)
    as (Hnone & (Hsessions & _) & _ & _ & Hreplaced);
    [reflexivity|exists 0%nat; by vm_compute|].
  destruct Hreplaced as (_ & Hwait & _); [by exists demo_cid|].
  by repeat split.
Defined.

(** With quic_map_original_connection_ids2 off, a CHLO for a connection ID
    that already has a session reaches the session factory: a session is
    created, though it cannot be inserted. *)
Lemma collision_with_flag_off_calls_factory :
  let result :=
    CreateSessionFromChlo demo_externals demo_flags_unmapped demo_established
      demo_cid demo_chlo demo_tls_version demo_self demo_peer in
  is_Some (reference_counted_session_map_ demo_established !! demo_cid)
  ∧ MaybeReplaceServerConnectionId demo_externals demo_flags_unmapped
      demo_established demo_cid demo_tls_version = None
  ∧ length (factory_calls demo_established) = 1%nat
  ∧ length (factory_calls result.1) = 2%nat
  ∧ last (log result.1) = Some (QuicBug "quic_bug_10287_9")
  ∧ result.2 = Some 0%nat.
Proof. split; [by exists 0%nat|by vm_compute]. Qed.

(** A CHLO arriving at a fresh dispatcher, whose quota is zero: it is
    buffered with its CHLO. *)
Lemma ProcessChlo_defers_witness :
  let d := new_QuicDispatcher 8 true 0 in
  let d' := (ProcessChlo demo_externals demo_flags demo_chlo
               demo_chlo_packet_info d).1 in
  sessions d' = []
  ∧ factory_calls d' = []
  ∧ HasChloForConnection (buffered_packets_ d') demo_cid = true.
Proof.
  destruct (ProcessChlo_defers demo_externals demo_flags demo_chlo
              demo_chlo_packet_info (new_QuicDispatcher 8 true 0))
    as (_ & (Hsessions & _ & _ & _ & Hcalls) & _ & _ & Hstored & _);
    [reflexivity|by vm_compute|].
  destruct Hstored as [Hchlo _]; [by vm_compute|].
  by repeat split.
Defined.

(** With FLAGS_quic_allow_chlo_buffering off, the same CHLO at the same
    quota of zero creates a session at once. *)
Lemma ProcessChlo_without_buffering_creates_session :
  let d := new_QuicDispatcher 8 true 0 in
  let d' := (ProcessChlo demo_externals demo_flags_unbuffered demo_chlo
               demo_chlo_packet_info d).1 in
  (new_sessions_allowed_per_event_loop_ d ≤ 0)%Z
  ∧ length (sessions d') = 1%nat
  ∧ length (factory_calls d') = 1%nat
  ∧ lists (buffered_packets_ d') = []
  ∧ reference_counted_session_map_ d' !! demo_cid = Some 0%nat.
Proof. by vm_compute. Qed.

(** ** The fate kFateTimeWait *)

Lemma set_log_log (d : Dispatcher) : set_log (log d) d = d.
Proof. by destruct d. Qed.

Lemma foldl_write_packet (self peer : QuicSocketAddress)
    (ps : list QuicEncryptedPacket) (d : Dispatcher) :
  foldl (λ d' p, write_packet self peer p d') d ps
  = set_log (log d ++ map (WritePacket self peer) ps) d.
Proof.
  revert d. induction ps as [|p ps IH]; intros d; cbn.
  - by rewrite app_nil_r, set_log_log.
  - rewrite IH. unfold write_packet. cbn. by rewrite <- app_assoc.
Qed.

Lemma filter_is_write_map (self peer : QuicSocketAddress)
    (ps : list QuicEncryptedPacket) :
  filter is_write (map (WritePacket self peer) ps)
  = map (WritePacket self peer) ps.
Proof.
  induction ps as [|p ps IH]; [done|]. cbn [map]. rewrite filter_cons.
  destruct (decide _) as [_|Hno]; [by rewrite IH|by destruct Hno].
Qed.

Lemma filter_is_session_creation_map (self peer : QuicSocketAddress)
    (ps : list QuicEncryptedPacket) :
  filter is_session_creation (map (WritePacket self peer) ps) = [].
Proof.
  induction ps as [|p ps IH]; [done|]. cbn [map]. rewrite filter_cons.
  by destruct (decide _) as [Hyes|_].
Qed.

Lemma find_list_remove (cid : QuicConnectionId)
    (ls : list (QuicConnectionId * BufferedPacketList)) :
  find_list cid (remove_list cid ls) = None.
Proof.
  unfold remove_list. induction ls as [|[c l] rest IH]; [done|].
  rewrite filter_cons. cbn. destruct (decide (c ≠ cid)) as [Hne|Heq]; [|done].
  cbn. by rewrite bool_decide_eq_false_2.
Qed.

Lemma HasBufferedPackets_DiscardPackets (s : QuicBufferedPacketStore)
    (cid : QuicConnectionId) :
  HasBufferedPackets (DiscardPackets s cid) cid = false.
Proof.
  unfold HasBufferedPackets, DiscardPackets, DeliverPackets.
  destruct (find_list cid (lists s)) eqn:Hfind; cbn.
  - rewrite find_list_remove. apply bool_decide_eq_false_2. by intros [? ?].
  - rewrite Hfind. apply bool_decide_eq_false_2. by intros [? ?].
Qed.

Section TimeWaitFate.

Variable X : Externals.
Variable F : Flags.

Lemma ProcessHeader_fate_time_wait_version_flag reenter pi d d1 code detail :
  ProcessHeader_fate X F reenter pi d
  = Some (Switch d1 kFateTimeWait code detail) →
  version_flag pi = true.
Proof.
  unfold ProcessHeader_fate, ValidityChecks.
  destruct (version_flag pi); [done|]. by cbn.
Qed.

Lemma IsSupportedVersion_elem (v : ParsedQuicVersion) :
  IsSupportedVersion X v = true ↔ v ∈ GetSupportedVersions X.
Proof.
  unfold IsSupportedVersion. rewrite existsb_exists. split.
  - intros (s & Hin & Heq). apply bool_decide_eq_true in Heq. subst s.
    by apply list_elem_of_In.
  - intros Hin. exists v. split; [by apply list_elem_of_In|].
    by apply bool_decide_eq_true_2.
Qed.

(** C5.  When [ProcessHeader] reaches its final switch with the fate
    kFateTimeWait, the packet has the version flag, and the function ends
    with the destination connection ID in the time-wait list under
    SEND_TERMINATION_PACKETS with one saved packet: for a supported
    version the CONNECTION_CLOSE synthesised for the error code and detail
    (the TLS alert's, or else "Reject connection"), under the initial keys of
    that connection ID; otherwise, so for every unknown version when the
    supported ones are known, a version-negotiation packet with an empty
    version list.  After that the time-wait list has processed the
    triggering packet, which sends the saved packet to the peer, and the
    packets buffered for the connection ID are gone.  No session is
    created or touched. *)
Theorem ProcessHeader_time_wait reenter (pi : ReceivedPacketInfo)
    (d d1 : Dispatcher) (code : QuicErrorCode) (detail : string) :
  ProcessHeader_fate X F reenter pi d
  = Some (Switch d1 kFateTimeWait code detail) →
  let cid := destination_connection_id pi in
  let ietf := bool_decide (form pi ≠ GOOGLE_QUIC_PACKET) in
  let close_detail :=
    if bool_decide (detail = "") then "Reject connection" else detail in
  let connection_close :=
    InitialEncryptedPacket (version pi) cid cid
      [ConnectionCloseFrame (transport_version (version pi)) code
         NO_IETF_QUIC_ERROR close_detail 0] in
  let version_negotiation :=
    VersionNegotiationPacket cid EmptyQuicConnectionId ietf
      (use_length_prefix pi) [] in
  let saved :=
    if IsSupportedVersion X (version pi) then connection_close
    else version_negotiation in
  ∃ d',
    ProcessHeader X F reenter pi d = Some d'
    ∧ version_flag pi = true
    ∧ d' = (let d2 :=
              StatelesslyTerminateConnection X
                (code_count "quic_reject_fate_time_wait" d1) cid (form pi)
                (version_flag pi) (use_length_prefix pi) (version pi) code
                close_detail SEND_STATELESS_RESET in
            let d3 :=
              TimeWaitList_ProcessPacket (self_address pi) (peer_address pi)
                cid (form pi) (packet_length (packet pi)) d2 in
            set_buffered_packets (DiscardPackets (buffered_packets_ d3) cid)
              d3)
    ∧ time_wait_list_manager_ d' !! cid
      = Some {| action := SEND_TERMINATION_PACKETS;
                info := {| tw_ietf_quic := ietf;
                           termination_packets := [saved];
                           active_connection_ids := [cid]; srtt := 0 |} |}
    ∧ (IsKnown X (version pi) = true →
       IsSupportedVersion X (version pi) = true → saved = connection_close)
    ∧ (IsKnown X (version pi) = false →
       (∀ s, s ∈ GetSupportedVersions X → IsKnown X s = true) →
       saved = version_negotiation)
    ∧ written d'
      = written d1 ++ [WritePacket (self_address pi) (peer_address pi) saved]
    ∧ HasBufferedPackets (buffered_packets_ d') cid = false
    ∧ same_sessions d1 d'.
Proof.
  intros Hfate cid ietf close_detail connection_close version_negotiation
    saved.
  pose proof (ProcessHeader_fate_time_wait_version_flag _ _ _ _ _ _ Hfate)
    as Hflag.
  unfold ProcessHeader. rewrite Hfate. eexists. split; [reflexivity|].
  split; [exact Hflag|]. split; [reflexivity|].
  unfold ProcessHeader_switch. fold cid. fold close_detail.
  set (d0 := code_count "quic_reject_fate_time_wait" d1).
  pose proof (StatelesslyTerminateConnection_effect X d0 cid (form pi)
                (version_flag pi) (use_length_prefix pi) (version pi) code
                close_detail SEND_STATELESS_RESET)
    as (Hsame & Hwritten & _ & _ & _ & Hentry).
  cbn zeta in Hsame, Hwritten, Hentry.
  set (d2 := StatelesslyTerminateConnection X d0 cid (form pi)
               (version_flag pi) (use_length_prefix pi) (version pi) code
               close_detail SEND_STATELESS_RESET) in *.
  rewrite Hflag, andb_false_r in Hentry.
  assert (TimeWaitList_ProcessPacket (self_address pi) (peer_address pi) cid
            (form pi) (packet_length (packet pi)) d2
          = set_log
              (log d2
               ++ map (WritePacket (self_address pi) (peer_address pi))
                    [saved]) d2) as ->.
  { unfold TimeWaitList_ProcessPacket. rewrite Hentry.
    cbn [action info termination_packets]. by rewrite foldl_write_packet. }
  cbn [time_wait_list_manager_ set_buffered_packets set_log buffered_packets_].
  split; [exact Hentry|]. split; [|split; [|split; [|split]]].
  - intros _ Hsup. subst saved. by rewrite Hsup.
  - intros Hunknown Hall. subst saved.
    destruct (IsSupportedVersion X (version pi)) eqn:Hsup; [|done].
    apply IsSupportedVersion_elem, Hall in Hsup. congruence.
  - unfold written in *. cbn [log set_buffered_packets set_log].
    rewrite filter_app, Hwritten. subst d0. unfold code_count. cbn.
    rewrite filter_app. cbn. rewrite app_nil_r. f_equal.
  - apply HasBufferedPackets_DiscardPackets.
  - destruct Hsame as (Hs & Hm & Hn & Hq & Hf). unfold same_sessions.
    cbn [sessions reference_counted_session_map_
         num_sessions_in_session_map_ new_sessions_allowed_per_event_loop_
         set_buffered_packets set_log].
    rewrite Hs, Hm, Hn, Hq. repeat split.
    unfold factory_calls in *. cbn [log set_buffered_packets set_log].
    rewrite filter_app, Hf. subst d0. unfold code_count. cbn.
    rewrite filter_app. cbn. by rewrite !app_nil_r.
Qed.

End TimeWaitFate.

(** An INITIAL packet whose CHLO ends in a fatal alert, at a fresh
    dispatcher: the connection ID enters the time-wait list and the
    CONNECTION_CLOSE goes to the peer. *)
Lemma ProcessHeader_time_wait_witness :
  ∃ d',
    ProcessHeader demo_externals demo_flags
      (ProcessPacket demo_externals demo_flags 0) demo_alert_packet_info
      (new_QuicDispatcher 8 true 0) = Some d'
    ∧ IsConnectionIdInTimeWait d' demo_cid = true
    ∧ written d'
      = [WritePacket demo_self demo_peer
           (InitialEncryptedPacket demo_tls_version demo_cid demo_cid
              [ConnectionCloseFrame 80 (QUIC_ERROR_CODE 296)
                 NO_IETF_QUIC_ERROR demo_alert_detail 0])].
Proof.
  destruct (ProcessHeader_time_wait demo_externals demo_flags
              (ProcessPacket demo_externals demo_flags 0)
              demo_alert_packet_info (new_QuicDispatcher 8 true 0)
              (new_QuicDispatcher 8 true 0) (QUIC_ERROR_CODE 296)
              demo_alert_detail)
    as (d' & Hrun & _ & _ & Hentry & _ & _ & Hwritten & _);
    [by vm_compute|].
  exists d'. split; [exact Hrun|]. split.
  - unfold IsConnectionIdInTimeWait.
    change (destination_connection_id demo_alert_packet_info) with demo_cid
      in Hentry.
    by rewrite Hentry.
  - exact Hwritten.
Defined.

(** ** Short INITIAL packets *)

Section ShortInitial.

Variable X : Externals.
Variable F : Flags.

(** C8, as the code has it.  Take a packet with the version flag, a
    supported version and an IETF long header of type INITIAL, whose
    connection ID the dispatcher does not know: no session under it or
    under its replacement, no CHLO buffered for it, not in the time-wait
    list; let the dispatcher accept new connections and the crypto
    configuration validate CHLO sizes.  Then the check at the end of
    [MaybeDispatchPacket] decides by the length alone: below 1200 octets
    the packet is dropped, handled with nothing changed but a counter; from
    1200 octets on it is not dropped by this check, and unless the port or
    connection-ID length checks at the top dropped it, the answer is "not
    handled" with the dispatcher unchanged. *)
Theorem short_initial_dropped reenter (pi : ReceivedPacketInfo)
    (d : Dispatcher) :
  version_flag pi = true →
  IsSupportedVersion X (version pi) = true →
  form pi = IETF_QUIC_LONG_HEADER_PACKET →
  long_packet_type pi = INITIAL →
  validate_chlo_size X = true →
  accept_new_connections_ d = true →
  reference_counted_session_map_ d !! destination_connection_id pi = None →
  find_replaced_session X F pi d = None →
  HasChloForConnection (buffered_packets_ d) (destination_connection_id pi)
  = false →
  IsConnectionIdInTimeWait d (destination_connection_id pi) = false →
  MaybeDispatchPacket_unknown_connection X pi d
  = (if packet_length (packet pi) <? 1200
     then (code_count "quic_drop_small_initial_packets" d, true)
     else (d, false))
  ∧ (packet_length (packet pi) < 1200 →
     ∃ counter,
       MaybeDispatchPacket X F reenter pi d
       = Some (code_count counter d, true))
  ∧ (1200 ≤ packet_length (packet pi) →
     (∃ counter,
        MaybeDispatchPacket X F reenter pi d
        = Some (code_count counter d, true)
        ∧ counter ≠ "quic_drop_small_initial_packets")
     ∨ MaybeDispatchPacket X F reenter pi d = Some (d, false))
  ∧ (1200 ≤ packet_length (packet pi) →
     IsSourceUdpPortBlocked (port (peer_address pi)) = false →
     (cid_length (destination_connection_id pi)
      <? kQuicMinimumInitialConnectionIdLength)
     && (cid_length (destination_connection_id pi)
         <? expected_server_connection_id_length_ d)
     && negb (allow_short_initial_server_connection_ids_ d) = false →
     IsConnectionIdLengthValidForVersion X
       (cid_length (destination_connection_id pi))
       (transport_version (version pi)) = true →
     MaybeDispatchPacket X F reenter pi d = Some (d, false)).
Proof.
  intros Hflag Hsup Hform Htype Hvalidate Haccept Hmap Hreplaced Hchlo Hwait.
  assert (MaybeDispatchPacket_unknown_connection X pi d
          = (if packet_length (packet pi) <? 1200
             then (code_count "quic_drop_small_initial_packets" d, true)
             else (d, false))) as Htail.
  { unfold MaybeDispatchPacket_unknown_connection.
    rewrite Hchlo, Hwait, Haccept, Hflag, Hsup, Hvalidate, Hform, Htype.
    cbn. reflexivity. }
  split; [exact Htail|].
  assert (MaybeDispatchPacket X F reenter pi d
          = if IsSourceUdpPortBlocked (port (peer_address pi))
            then Some (code_count "quic_dropped_blocked_port" d, true)
            else if IsKnown X (version pi)
                    && (cid_length (destination_connection_id pi)
                        <? kQuicMinimumInitialConnectionIdLength)
                    && (cid_length (destination_connection_id pi)
                        <? expected_server_connection_id_length_ d)
                    && negb (allow_short_initial_server_connection_ids_ d)
            then Some (code_count
                         "quic_dropped_invalid_small_initial_connection_id" d,
                       true)
            else if IsKnown X (version pi)
                    && negb (IsConnectionIdLengthValidForVersion X
                               (cid_length (destination_connection_id pi))
                               (transport_version (version pi)))
            then Some (code_count
                         "quic_dropped_invalid_initial_connection_id" d, true)
            else Some (if packet_length (packet pi) <? 1200
                       then (code_count "quic_drop_small_initial_packets" d,
                             true)
                       else (d, false))) as Hwhole.
  { unfold MaybeDispatchPacket. rewrite Hflag, Hmap, Hreplaced, Htail.
    reflexivity. }
  rewrite Hwhole. split; [|split].
  - intros Hshort. apply N.ltb_lt in Hshort. rewrite Hshort.
    repeat match goal with
           | |- context [if ?b then Some (code_count ?n d, true) else _] =>
               destruct b; [by eexists|]
           end.
    by eexists.
  - intros Hlong. apply N.ltb_ge in Hlong. rewrite Hlong.
    repeat match goal with
           | |- context [if ?b then Some (code_count ?n d, true) else _] =>
               destruct b; [left; by eexists|]
           end.
    by right.
  - intros Hlong Hport Hmin Hvalid. apply N.ltb_ge in Hlong.
    rewrite Hlong, Hport, Hvalid.
    destruct (IsKnown X (version pi)); cbn [andb negb]; rewrite ?Hmin;
      reflexivity.
Qed.

End ShortInitial.

(** An INITIAL packet of 1199 octets for an unknown connection ID at a fresh
    dispatcher is dropped and counted; one of 1200 octets is passed on. *)
Lemma short_initial_dropped_witness :
  MaybeDispatchPacket_unknown_connection demo_externals
    (demo_initial_packet_info 1199) (new_QuicDispatcher 8 true 0)
  = (code_count "quic_drop_small_initial_packets"
       (new_QuicDispatcher 8 true 0), true)
  ∧ (∃ counter,
       MaybeDispatchPacket demo_externals demo_flags
         (ProcessPacket demo_externals demo_flags 0)
         (demo_initial_packet_info 1199) (new_QuicDispatcher 8 true 0)
       = Some (code_count counter (new_QuicDispatcher 8 true 0), true))
  ∧ MaybeDispatchPacket demo_externals demo_flags
      (ProcessPacket demo_externals demo_flags 0)
      (demo_initial_packet_info 1200) (new_QuicDispatcher 8 true 0)
    = Some (new_QuicDispatcher 8 true 0, false).
Proof.
  destruct (short_initial_dropped demo_externals demo_flags
              (ProcessPacket demo_externals demo_flags 0)
              (demo_initial_packet_info 1199) (new_QuicDispatcher 8 true 0))
    as (Htail & Hshort & _); [by vm_compute ..|].
  destruct (short_initial_dropped demo_externals demo_flags
              (ProcessPacket demo_externals demo_flags 0)
              (demo_initial_packet_info 1200) (new_QuicDispatcher 8 true 0))
    as (_ & _ & _ & Hlong); [by vm_compute ..|].
  split; [rewrite Htail; by vm_compute|].
  split; [apply Hshort; by vm_compute|apply Hlong; by vm_compute].
Defined.

(** An INITIAL packet of 1199 octets with a supported version, addressed to
    a connection ID that has a session: [MaybeDispatchPacket] hands it to the
    session. *)
Lemma short_initial_for_a_session_is_delivered :
  let pi := demo_initial_packet_info 1199 in
  let result :=
    MaybeDispatchPacket demo_externals demo_flags
      (ProcessPacket demo_externals demo_flags 0) pi demo_established in
  version_flag pi = true
  ∧ IsSupportedVersion demo_externals (version pi) = true
  ∧ form pi = IETF_QUIC_LONG_HEADER_PACKET
  ∧ long_packet_type pi = INITIAL
  ∧ packet_length (packet pi) = 1199
  ∧ map (λ s, length (received s)) (sessions demo_established) = [1%nat]
  ∧ (λ r, (map (λ s, last (received s)) (sessions r.1), r.2)) <$> result
    = Some ([Some (demo_self, demo_peer, packet pi)], true).
Proof. by vm_compute. Qed.

(** ** Delivery order *)

Lemma grows_refl (ss : list QuicSession) : grows ss ss.
Proof. intros h s Hs. by exists s. Qed.

Lemma grows_trans (ss1 ss2 ss3 : list QuicSession) :
  grows ss1 ss2 → grows ss2 ss3 → grows ss1 ss3.
Proof.
  intros H12 H23 h s Hs. destruct (H12 _ _ Hs) as (s2 & Hs2 & Hp2).
  destruct (H23 _ _ Hs2) as (s3 & Hs3 & Hp3). exists s3.
  split; [done|by etrans].
Qed.

Lemma grows_app (ss extra : list QuicSession) : grows ss (ss ++ extra).
Proof.
  intros h s Hs. exists s. split; [|done].
  rewrite lookup_app_l; [done|by eapply lookup_lt_Some].
Qed.

Lemma DeliverPacketsToSession_length (packets : list BufferedPacket) (h : nat)
    (d : Dispatcher) :
  length (sessions (DeliverPacketsToSession packets h d)) = length (sessions d).
Proof.
  unfold DeliverPacketsToSession. revert d.
  induction packets as [|p rest IH]; intros d; [done|].
  cbn [foldl]. rewrite IH. unfold ProcessUdpPacket. cbn [sessions set_sessions].
  apply length_alter.
Qed.

Lemma DeliverPacketsToSession_received (packets : list BufferedPacket)
    (h : nat) (d : Dispatcher) :
  received <$> sessions (DeliverPacketsToSession packets h d) !! h
  = (λ r, r ++ map entry_of packets) <$> (received <$> sessions d !! h).
Proof.
  unfold DeliverPacketsToSession. revert d.
  induction packets as [|p rest IH]; intros d.
  - cbn. destruct (sessions d !! h); cbn; [by rewrite app_nil_r|done].
  - cbn [foldl]. rewrite IH. unfold ProcessUdpPacket.
    cbn [sessions set_sessions].
    rewrite list_lookup_alter_eq.
    destruct (sessions d !! h); cbn; [|done].
    by rewrite <- app_assoc.
Qed.

Lemma DeliverPacketsToSession_other (packets : list BufferedPacket)
    (h other : nat) (d : Dispatcher) :
  other ≠ h →
  sessions (DeliverPacketsToSession packets h d) !! other
  = sessions d !! other.
Proof.
  intros Hne. unfold DeliverPacketsToSession. revert d.
  induction packets as [|p rest IH]; intros d; [done|].
  cbn [foldl]. rewrite IH. unfold ProcessUdpPacket.
  cbn [sessions set_sessions]. by apply list_lookup_alter_ne.
Qed.

Lemma DeliverPacketsToSession_grows (packets : list BufferedPacket) (h : nat)
    (d : Dispatcher) :
  grows (sessions d) (sessions (DeliverPacketsToSession packets h d)).
Proof.
  intros i s Hs. destruct (decide (i = h)) as [->|Hne].
  - pose proof (DeliverPacketsToSession_received packets h d) as Hr.
    rewrite Hs in Hr. cbn in Hr.
    destruct (sessions (DeliverPacketsToSession packets h d) !! h) as [s'|];
      [|done].
    exists s'. split; [done|]. injection Hr as ->. by eexists.
  - exists s. by rewrite DeliverPacketsToSession_other.
Qed.

Lemma DeliverPackets_packets (s : QuicBufferedPacketStore)
    (cid : QuicConnectionId) :
  buffered_packets (DeliverPackets s cid).2 = packets_for s cid.
Proof.
  unfold DeliverPackets, packets_for. by destruct (find_list cid (lists s)).
Qed.

Lemma find_list_elem (cid : QuicConnectionId)
    (ls : list (QuicConnectionId * BufferedPacketList)) (l : BufferedPacketList) :
  find_list cid ls = Some l → (cid, l) ∈ ls.
Proof.
  induction ls as [|[c l0] rest IH]; cbn; [done|].
  destruct (bool_decide (c = cid)) eqn:Hc.
  - apply bool_decide_eq_true in Hc. subst c. intros [= ->]. left.
  - intros Hfind. right. by apply IH.
Qed.

Lemma DeliverPackets_lists (s : QuicBufferedPacketStore)
    (cid : QuicConnectionId) e :
  e ∈ lists (DeliverPackets s cid).1 → e ∈ lists s.
Proof.
  unfold DeliverPackets. destruct (find_list cid (lists s)); [|done].
  cbn. unfold remove_list. by intros [_ ?]%list_elem_of_filter.
Qed.

Section DeliveryOrder.

Variable X : Externals.
Variable F : Flags.

(** [CreateSessionFromChlo] leaves the sessions as they were or adds one,
    which it returns and which has received nothing; the store is as it
    was. *)
Lemma CreateSessionFromChlo_sessions (d : Dispatcher)
    (original : QuicConnectionId) (chlo : ParsedClientHello)
    (v : ParsedQuicVersion) (self peer : QuicSocketAddress) :
  let result := CreateSessionFromChlo X F d original chlo v self peer in
  buffered_packets_ result.1 = buffered_packets_ d
  ∧ (sessions result.1 = sessions d
     ∨ (result.2 = Some (length (sessions d))
        ∧ ∃ s, sessions result.1 = sessions d ++ [s] ∧ received s = [])).
Proof.
  unfold CreateSessionFromChlo.
  destruct (bool_decide (is_Some (reference_counted_session_map_ d !! _))
            && quic_map_original_connection_ids2 F).
  { cbn [fst snd]. destruct (bool_decide (is_Some _)); [|by split; [|left]].
    pose proof (StatelesslyTerminateConnection_effect X d original
                  IETF_QUIC_LONG_HEADER_PACKET true
                  (HasLengthPrefixedConnectionIds X v) v
                  QUIC_HANDSHAKE_FAILED
                  "Connection ID collision, please retry"
                  SEND_CONNECTION_CLOSE_PACKETS) as ([Hs _] & _ & Hb & _).
    split; [exact Hb|by left]. }
  destruct (CreateQuicSession X _ _ _ _ _ _) as [[session_cid session_ver]|].
  2: { cbn. by split; [|left]. }
  cbn [reference_counted_session_map_ set_log].
  destruct (reference_counted_session_map_ d !! _) as [existing|].
  { cbn. by split; [|left]. }
  cbn zeta.
  destruct (quic_map_original_connection_ids2 F
            && bool_decide (is_Some _)) eqn:Hins.
  - destruct (_ !! original); cbn; (split; [done|right]);
      (split; [done|]); eexists; (split; [reflexivity|]);
      by destruct (bool_decide (is_Some _)).
  - cbn. split; [done|right]. split; [done|]. eexists.
    split; [reflexivity|]. by destruct (bool_decide (is_Some _)).
Qed.

Lemma CreateSessionFromChlo_created (d : Dispatcher)
    (original : QuicConnectionId) (chlo : ParsedClientHello)
    (v : ParsedQuicVersion) (self peer : QuicSocketAddress)
    (d1 : Dispatcher) (r : option nat) :
  CreateSessionFromChlo X F d original chlo v self peer = (d1, r) →
  length (sessions d1) = S (length (sessions d)) →
  r = Some (length (sessions d))
  ∧ (∃ s, sessions d1 = sessions d ++ [s] ∧ received s = [])
  ∧ buffered_packets_ d1 = buffered_packets_ d.
Proof.
  intros Hcreate Hlen.
  pose proof (CreateSessionFromChlo_sessions d original chlo v self peer)
    as [Hstore Hcases].
  cbn zeta in Hstore, Hcases. rewrite Hcreate in Hstore, Hcases.
  cbn [fst snd] in Hstore, Hcases.
  destruct Hcases as [Hsame|[Hr Hs]]; [rewrite Hsame in Hlen; lia|done].
Qed.

(** One pass of the loop of [ProcessBufferedChlos]: lists only leave the
    store; sessions that were there keep what they had received; a session
    that was not there has received exactly the packets of a list of the
    store that had a CHLO, in the list's order. *)
Lemma ProcessBufferedChlos_body_effect (d : Dispatcher) :
  let d1 := (ProcessBufferedChlos_body X F d).1 in
  (∀ e, e ∈ lists (buffered_packets_ d1) → e ∈ lists (buffered_packets_ d))
  ∧ grows (sessions d) (sessions d1)
  ∧ (∀ h s',
       (length (sessions d) ≤ h)%nat → sessions d1 !! h = Some s' →
       ∃ cid l,
         (cid, l) ∈ lists (buffered_packets_ d)
         ∧ is_Some (parsed_chlo l)
         ∧ received s' = map entry_of (buffered_packets l)).
Proof.
  assert (∀ (ss : list QuicSession) h s',
            (length ss ≤ h)%nat → ss !! h = Some s' → False) as Hbeyond.
  { intros ss h s' Hle Hs. apply lookup_lt_Some in Hs. lia. }
  unfold ProcessBufferedChlos_body, DeliverPacketsForNextConnection.
  destruct (chlo_order (buffered_packets_ d)) as [|cid rest].
  { cbn. split; [done|]. split; [apply grows_refl|]. intros h s' Hle Hs.
    by destruct (Hbeyond _ _ _ Hle Hs). }
  pose proof (DeliverPackets_lists (buffered_packets_ d) cid) as Hsub.
  pose proof (DeliverPackets_packets (buffered_packets_ d) cid) as Hpackets.
  unfold packets_for in Hpackets.
  destruct (DeliverPackets (buffered_packets_ d) cid) as [store l]
    eqn:Hdeliver.
  cbn [fst snd] in Hsub, Hpackets |- *.
  destruct (buffered_packets l) as [|front others] eqn:Hl.
  { cbn. split; [done|]. split; [apply grows_refl|]. intros h s' Hle Hs.
    by destruct (Hbeyond _ _ _ Hle Hs). }
  destruct (find_list cid (lists (buffered_packets_ d))) as [l0|] eqn:Hfind;
    [|done].
  assert (l = l0) as <-.
  { unfold DeliverPackets in Hdeliver. rewrite Hfind in Hdeliver.
    by injection Hdeliver. }
  apply find_list_elem in Hfind.
  destruct (parsed_chlo l) as [chlo|] eqn:Hchlo.
  2: { cbn. split; [done|]. split; [apply grows_refl|]. intros h s' Hle Hs.
       by destruct (Hbeyond _ _ _ Hle Hs). }
  pose proof (CreateSessionFromChlo_sessions (set_buffered_packets store d)
                cid chlo (list_version l) (bp_self_address front)
                (bp_peer_address front)) as [Hstore Hcases].
  cbn zeta in Hstore, Hcases.
  destruct (CreateSessionFromChlo _ _ _ _ _ _ _ _) as [d2 r].
  cbn [fst snd sessions buffered_packets_ set_buffered_packets]
    in Hstore, Hcases.
  destruct Hcases as [Hsame|(-> & s & Happ & Hrecv)].
  - assert (grows (sessions d) (sessions d2)) as Hgrows
      by (rewrite Hsame; apply grows_refl).
    destruct r as [h|]; cbn [fst].
    + rewrite <- Hl.
      split; [|split].
      * unfold DeliverPacketsToSession.
        assert (∀ ps d0,
                  buffered_packets_
                    (foldl (λ d' p,
                              ProcessUdpPacket h (bp_self_address p)
                                (bp_peer_address p) (bp_packet p) d') d0 ps)
                  = buffered_packets_ d0) as Hkeep.
        { induction ps as [|p ps IH]; intros d0; [done|]. cbn. by rewrite IH. }
        rewrite Hkeep, Hstore. exact Hsub.
      * eapply grows_trans; [exact Hgrows|].
        apply DeliverPacketsToSession_grows.
      * intros i s' Hle Hs. exfalso. apply lookup_lt_Some in Hs.
        rewrite DeliverPacketsToSession_length, Hsame in Hs. lia.
    + rewrite Hstore. split; [exact Hsub|]. split; [exact Hgrows|].
      intros i s' Hle Hs. rewrite Hsame in Hs.
      by destruct (Hbeyond _ _ _ Hle Hs).
  - cbn [fst]. rewrite <- Hl. split; [|split].
    + unfold DeliverPacketsToSession.
      assert (∀ ps d0,
                buffered_packets_
                  (foldl (λ d' p,
                            ProcessUdpPacket (length (sessions d))
                              (bp_self_address p) (bp_peer_address p)
                              (bp_packet p) d') d0 ps)
                = buffered_packets_ d0) as Hkeep.
      { induction ps as [|p ps IH]; intros d0; [done|]. cbn. by rewrite IH. }
      rewrite Hkeep, Hstore. exact Hsub.
    + eapply grows_trans; [|apply DeliverPacketsToSession_grows].
      rewrite Happ. apply grows_app.
    + intros i s' Hle Hs.
      assert (i = length (sessions d)) as ->.
      { apply lookup_lt_Some in Hs.
        rewrite DeliverPacketsToSession_length, Happ, length_app in Hs.
        cbn in Hs. lia. }
      pose proof (DeliverPacketsToSession_received (buffered_packets l)
                    (length (sessions d)) d2) as Hr.
      rewrite Hs, Happ, list_lookup_middle in Hr by done. cbn in Hr.
      injection Hr as Hr. rewrite Hrecv in Hr. cbn in Hr.
      exists cid, l. by rewrite Hchlo.
Qed.

Lemma ProcessBufferedChlos_loop_effect (n : nat) (d : Dispatcher) :
  let d' := ProcessBufferedChlos_loop X F n d in
  (∀ e, e ∈ lists (buffered_packets_ d') → e ∈ lists (buffered_packets_ d))
  ∧ grows (sessions d) (sessions d')
  ∧ (∀ h s',
       (length (sessions d) ≤ h)%nat → sessions d' !! h = Some s' →
       ∃ cid l,
         (cid, l) ∈ lists (buffered_packets_ d)
         ∧ is_Some (parsed_chlo l)
         ∧ map entry_of (buffered_packets l) `prefix_of` received s').
Proof.
  revert d. induction n as [|n IH]; intros d; cbn zeta.
  - cbn. split; [done|]. split; [apply grows_refl|].
    intros h s' Hle Hs. apply lookup_lt_Some in Hs. lia.
  - cbn [ProcessBufferedChlos_loop].
    destruct (0 <? new_sessions_allowed_per_event_loop_ d)%Z.
    2: { split; [done|]. split; [apply grows_refl|].
         intros h s' Hle Hs. apply lookup_lt_Some in Hs. lia. }
    pose proof (ProcessBufferedChlos_body_effect d) as (Hsub & Hgrows & Hnew).
    cbn zeta in Hsub, Hgrows, Hnew.
    destruct (ProcessBufferedChlos_body X F d) as [d1 go_on].
    cbn [fst] in Hsub, Hgrows, Hnew.
    destruct go_on.
    2: { split; [done|]. split; [done|]. intros h s' Hle Hs.
         destruct (Hnew _ _ Hle Hs) as (cid & l & Hin & Hchlo & Hrecv).
         exists cid, l. by rewrite Hrecv. }
    specialize (IH (set_new_sessions_allowed_per_event_loop
                      (new_sessions_allowed_per_event_loop_ d1 - 1)%Z d1)).
    cbn zeta in IH.
    cbn [buffered_packets_ sessions set_new_sessions_allowed_per_event_loop]
      in IH.
    destruct IH as (Hsub' & Hgrows' & Hnew').
    split; [auto|]. split; [by eapply grows_trans|].
    intros h s' Hle Hs.
    destruct (decide (h < length (sessions d1))%nat) as [Hlt|Hge].
    + destruct (lookup_lt_is_Some_2 (sessions d1) h Hlt) as [s1 Hs1].
      destruct (Hnew _ _ Hle Hs1) as (cid & l & Hin & Hchlo & Hrecv).
      destruct (Hgrows' _ _ Hs1) as (s'' & Hs'' & Hprefix).
      rewrite Hs in Hs''. injection Hs'' as <-.
      exists cid, l. by rewrite <- Hrecv.
    + destruct (Hnew' h s') as (cid & l & Hin & Hchlo & Hrecv);
        [lia|done|].
      exists cid, l. auto.
Qed.

(** C2.  The store puts a packet that comes with a CHLO in front of the
    packets buffered for its connection ID and appends every other packet
    behind them.  When [ProcessChlo] creates a session from a live packet,
    that packet is the first the session receives, followed by the packets
    buffered for the connection ID in the order of their list.  When the
    body of the loop of [ProcessBufferedChlos] creates a session, the list it
    took from the store was the first in line with a CHLO, and the session
    receives the packets of that list in the list's order, from the front,
    where the store put the CHLO-bearing datagram.  Every session that a
    whole call of [ProcessBufferedChlos] creates has received, first, the
    packets of one of the store's lists with a CHLO, in that order. *)
Theorem chlo_delivered_first :
  (∀ s time cid ietf p self peer v chlo s',
     EnqueuePacket X s time cid ietf p self peer v chlo = (s', SUCCESS) →
     packets_for s' cid
     = match chlo with
       | Some _ =>
           {| bp_packet := p; bp_self_address := self;
              bp_peer_address := peer |} :: packets_for s cid
       | None =>
           packets_for s cid
           ++ [{| bp_packet := p; bp_self_address := self;
                  bp_peer_address := peer |}]
       end)
  ∧ (∀ chlo pi d,
       let d' := (ProcessChlo X F chlo pi d).1 in
       length (sessions d') = S (length (sessions d)) →
       received <$> sessions d' !! length (sessions d)
       = Some ((self_address pi, peer_address pi, packet pi)
               :: map entry_of
                    (packets_for (buffered_packets_ d)
                       (destination_connection_id pi))))
  ∧ (∀ d,
       let next := DeliverPacketsForNextConnection (buffered_packets_ d) in
       let d' := (ProcessBufferedChlos_body X F d).1 in
       length (sessions d') = S (length (sessions d)) →
       is_Some (parsed_chlo next.2)
       ∧ chlo_order (buffered_packets_ d) !! 0%nat = Some next.1.2
       ∧ buffered_packets next.2
         = packets_for (buffered_packets_ d) next.1.2
       ∧ received <$> sessions d' !! length (sessions d)
         = Some (map entry_of (buffered_packets next.2)))
  ∧ (∀ max_connections_to_create d h s',
       (length (sessions d) ≤ h)%nat →
       sessions (ProcessBufferedChlos X F max_connections_to_create d) !! h
       = Some s' →
       ∃ cid l,
         (cid, l) ∈ lists (buffered_packets_ d)
         ∧ is_Some (parsed_chlo l)
         ∧ map entry_of (buffered_packets l) `prefix_of` received s').
Proof.
  split; [|split; [|split]].
  - intros s time cid ietf p self peer v chlo s' Henq.
    by apply EnqueuePacket_success in Henq as [Hp _].
  - intros chlo pi d d'. subst d'. unfold ProcessChlo.
    destruct (FLAGS_quic_allow_chlo_buffering F && _).
    { destruct (EnqueuePacket _ _ _ _ _ _ _ _ _ _) as [store rs].
      cbn [fst]. intros Hlen. exfalso.
      destruct (HasChloForConnection _ _), (bool_decide (rs ≠ SUCCESS));
        cbn in Hlen; lia. }
    destruct (CreateSessionFromChlo _ _ _ _ _ _ _ _) as [d1 [h|]] eqn:Hcreate.
    2: { cbn [fst]. intros Hlen.
         by destruct (CreateSessionFromChlo_created _ _ _ _ _ _ _ _
                        Hcreate Hlen) as [? _]. }
    destruct (DeliverPackets (buffered_packets_ d1) _) as [store delivered]
      eqn:Hdeliver.
    assert (buffered_packets delivered
            = packets_for (buffered_packets_ d1)
                (destination_connection_id pi)) as Hpackets
      by (by rewrite <- DeliverPackets_packets, Hdeliver).
    set (d2 := set_buffered_packets store d1).
    set (branch := if bool_decide _ then _ else _).
    assert (sessions branch.1 = sessions d1
            ∧ self_address branch.2 = self_address pi
            ∧ peer_address branch.2 = peer_address pi
            ∧ packet branch.2 = packet pi) as (Hs3 & Hself & Hpeer & Hpacket).
    { subst branch. destruct (bool_decide _); [|done].
      by destruct (buffered_packets delivered). }
    destruct branch as [d3 pi']. cbn [fst snd] in *.
    cbn [sessions set_new_sessions_allowed_per_event_loop].
    rewrite DeliverPacketsToSession_length. unfold ProcessUdpPacket at 1.
    cbn [sessions set_sessions]. rewrite length_alter, Hs3.
    intros Hlen.
    destruct (CreateSessionFromChlo_created _ _ _ _ _ _ _ _ Hcreate Hlen)
      as ([= ->] & (s & Hsessions & Hreceived) & Hstore).
    rewrite DeliverPacketsToSession_received. unfold ProcessUdpPacket.
    cbn [sessions set_sessions]. rewrite list_lookup_alter_eq, Hs3, Hsessions.
    rewrite list_lookup_middle by done. cbn.
    by rewrite Hreceived, Hself, Hpeer, Hpacket, Hpackets, Hstore.
  - intros d next d'. subst next d'. unfold ProcessBufferedChlos_body.
    unfold DeliverPacketsForNextConnection.
    destruct (chlo_order (buffered_packets_ d)) as [|cid rest] eqn:Horder.
    { cbn. lia. }
    destruct (DeliverPackets (buffered_packets_ d) cid) as [store l]
      eqn:Hdeliver.
    assert (buffered_packets l = packets_for (buffered_packets_ d) cid)
      as Hpackets by (by rewrite <- DeliverPackets_packets, Hdeliver).
    cbn [fst snd].
    destruct (buffered_packets l) as [|front others] eqn:Hl; [cbn; lia|].
    destruct (parsed_chlo l) as [chlo|]; [|cbn; lia].
    destruct (CreateSessionFromChlo _ _ _ _ _ _ _ _) as [d2 [h|]] eqn:Hcreate.
    2: { cbn [fst]. intros Hlen.
         by destruct (CreateSessionFromChlo_created _ _ _ _ _ _ _ _
                        Hcreate Hlen) as [? _]. }
    cbn [fst]. rewrite DeliverPacketsToSession_length. intros Hlen.
    destruct (CreateSessionFromChlo_created _ _ _ _ _ _ _ _ Hcreate Hlen)
      as ([= ->] & (s & Hsessions & Hreceived) & _).
    split; [by eexists|]. split; [done|]. split; [done|].
    rewrite DeliverPacketsToSession_received.
    cbn [sessions set_buffered_packets] in Hsessions |- *.
    rewrite Hsessions, list_lookup_middle by done. cbn.
    by rewrite Hreceived.
  - intros max_connections_to_create d h s'. unfold ProcessBufferedChlos.
    pose proof (ProcessBufferedChlos_loop_effect
                  (N.to_nat max_connections_to_create)
                  (set_new_sessions_allowed_per_event_loop
                     (to_int16_t (Z.of_N max_connections_to_create)) d))
      as (_ & _ & Hnew).
    exact (Hnew h s').
Qed.

End DeliveryOrder.

(** The session made from the buffered CHLO receives the datagram that
    completed the CHLO first, then the others as they arrived, by one pass of
    the loop and by a whole call of [ProcessBufferedChlos]; the session made
    from a live CHLO receives it first, then the packet that was waiting. *)
Lemma chlo_delivered_first_witness :
  map (bp_packet) (packets_for (buffered_packets_ demo_buffered) demo_cid)
  = [demo_second_half; demo_first_half; demo_later]
  ∧ received
      <$> sessions (ProcessBufferedChlos_body demo_externals demo_flags
                      demo_buffered).1 !! 0%nat
    = Some [(demo_self, demo_peer, demo_second_half);
            (demo_self, demo_peer, demo_first_half);
            (demo_self, demo_peer, demo_later)]
  ∧ received
      <$> sessions (ProcessChlo demo_externals demo_flags demo_chlo
                      demo_chlo_packet_info demo_early).1 !! 0%nat
    = Some [(demo_self, demo_peer, demo_chlo_datagram);
            (demo_self, demo_peer, demo_later)]
  ∧ ∃ cid l,
      (cid, l) ∈ lists (buffered_packets_ demo_buffered)
      ∧ is_Some (parsed_chlo l)
      ∧ map entry_of (buffered_packets l)
        `prefix_of` [(demo_self, demo_peer, demo_second_half);
                     (demo_self, demo_peer, demo_first_half);
                     (demo_self, demo_peer, demo_later)].
Proof.
  destruct (chlo_delivered_first demo_externals demo_flags)
    as (_ & Hlive & Hbuffered & Hdrain).
  split; [by vm_compute|]. split; [|split].
  - destruct (Hbuffered demo_buffered) as (_ & _ & _ & Hreceived);
      [by vm_compute|].
    change (length (sessions demo_buffered)) with 0%nat in Hreceived.
    rewrite Hreceived. by vm_compute.
  - pose proof (Hlive demo_chlo demo_chlo_packet_info demo_early) as Hreceived.
    cbn zeta in Hreceived.
    change (length (sessions demo_early)) with 0%nat in Hreceived.
    rewrite Hreceived; by vm_compute.
  - apply (Hdrain 16 demo_buffered 0%nat
             {| connection_id := demo_cid;
                session_version := demo_tls_version;
                original_destination_connection_id := None;
                received := [(demo_self, demo_peer, demo_second_half);
                             (demo_self, demo_peer, demo_first_half);
                             (demo_self, demo_peer, demo_later)] |});
      by vm_compute.
Defined.

(** * Further properties *)

(** ** What a step leaves as it was *)

Lemma to_int16_t_range (z : Z) : (- 2 ^ 15 ≤ to_int16_t z < 2 ^ 15)%Z.
Proof.
  unfold to_int16_t.
  pose proof (Z.mod_pos_bound (z + 2 ^ 15) (2 ^ 16)) as Hmod. lia.
Qed.

Lemma to_int16_t_id (z : Z) :
  (- 2 ^ 15 ≤ z < 2 ^ 15)%Z → to_int16_t z = z.
Proof.
  intros Hz. unfold to_int16_t. rewrite Z.mod_small by lia. lia.
Qed.

Lemma to_int16_t_le (z : Z) : (0 ≤ z)%Z → (to_int16_t z ≤ z)%Z.
Proof.
  intros Hz. destruct (decide (z < 2 ^ 15)%Z) as [Hlt|Hge].
  - rewrite to_int16_t_id; lia.
  - pose proof (to_int16_t_range z). lia.
Qed.

Lemma quiet_refl (d : Dispatcher) : quiet d d.
Proof. by repeat split. Qed.

Lemma quiet_trans (d1 d2 d3 : Dispatcher) :
  quiet d1 d2 → quiet d2 d3 → quiet d1 d3.
Proof.
  intros (?&?&?&?&?&?) (?&?&?&?&?&?). repeat split; by etrans.
Qed.

Lemma quiet_set_log (d : Dispatcher) (events : list Event) :
  filter is_session_creation events = [] →
  quiet d (set_log (log d ++ events) d).
Proof.
  intros Hnone. repeat split; try reflexivity.
  by rewrite factory_calls_app, Hnone, app_nil_r.
Qed.

Lemma calm_refl (d : Dispatcher) : calm d d.
Proof. split; [apply quiet_refl|done]. Qed.

Lemma calm_trans (d1 d2 d3 : Dispatcher) :
  calm d1 d2 → calm d2 d3 → calm d1 d3.
Proof.
  intros [? ?] [? ?]. split; [by eapply quiet_trans|by etrans].
Qed.

Lemma calm_quiet (d d' : Dispatcher) : calm d d' → quiet d d'.
Proof. by intros [? _]. Qed.

Lemma calm_set_log (d : Dispatcher) (events : list Event) :
  filter is_session_creation events = [] →
  calm d (set_log (log d ++ events) d).
Proof. intros Hnone. split; [by apply quiet_set_log|done]. Qed.

Lemma calm_code_count name d : calm d (code_count name d).
Proof. by apply calm_set_log. Qed.

Lemma calm_quic_bug name d : calm d (quic_bug name d).
Proof. by apply calm_set_log. Qed.

Lemma calm_write_packet self peer p d : calm d (write_packet self peer p d).
Proof. by apply calm_set_log. Qed.

Lemma calm_ProcessUdpPacket h self peer p d :
  calm d (ProcessUdpPacket h self peer p d).
Proof.
  repeat split; try reflexivity. unfold ProcessUdpPacket. cbn.
  apply length_alter.
Qed.

Lemma calm_TimeWaitList_ProcessPacket self peer cid format len d :
  calm d (TimeWaitList_ProcessPacket self peer cid format len d).
Proof.
  unfold TimeWaitList_ProcessPacket.
  destruct (time_wait_list_manager_ d !! cid) as [e|]; [|apply calm_refl].
  destruct (action e); try apply calm_refl;
    try (rewrite foldl_write_packet; apply calm_set_log,
           filter_is_session_creation_map).
  apply calm_write_packet.
Qed.

Lemma within_budget_trans (d1 d2 d3 : Dispatcher) :
  within_budget d1 d2 → within_budget d2 d3 → within_budget d1 d3.
Proof.
  intros (Hl & Hrange & Hzero) (Hl' & Hrange' & Hzero').
  split; [lia|]. split.
  - intros Hlt. destruct (Hrange Hlt) as (Hq & Hp & Hpos).
    destruct Hrange' as (Hq' & Hp' & Hpos'); [lia|].
    split; [lia|]. split; [lia|auto].
  - intros Hle. destruct (Hzero Hle) as [Heq Hf].
    destruct Hzero' as [Heq' Hf']; [lia|]. split; [lia|by rewrite Hf'].
Qed.

Lemma quiet_within_budget (d d' : Dispatcher) :
  quiet d d' → within_budget d d'.
Proof.
  intros (Hl & _ & _ & Hq & _ & Hf). unfold within_budget.
  rewrite Hl, Hq, Hf. split; [lia|]. split; [|by intros _].
  intros _. split; [lia|]. split; [lia|done].
Qed.

Section Quiet.

Variable X : Externals.
Variable F : Flags.

Lemma calm_StatelesslyTerminateConnection d cid format flag prefix v code
    details a :
  calm d
    (StatelesslyTerminateConnection X d cid format flag prefix v code details
       a).
Proof.
  destruct (StatelesslyTerminateConnection_effect X d cid format flag prefix v
              code details a) as ((Hs & Hm & Hn & Hq & Hf) & _ & Hb & _).
  repeat split; try done.
  - by rewrite Hs.
  - unfold StatelesslyTerminateConnection.
    destruct (_ && _); [done|]. destruct (IsSupportedVersion X v); [|done].
    cbn zeta. rewrite CloseConnection_new_terminator. reflexivity.
Qed.

Lemma quiet_BufferEarlyPacket pi d : quiet d (BufferEarlyPacket X pi d).
Proof.
  unfold BufferEarlyPacket.
  destruct (EnqueuePacket _ _ _ _ _ _ _ _ _ _) as [store rs].
  destruct (bool_decide (rs ≠ SUCCESS)); [|by repeat split].
  eapply quiet_trans; [|by apply quiet_set_log]. by repeat split.
Qed.

Lemma calm_MaybeResetPacketsWithNoVersion pi d :
  calm d (MaybeResetPacketsWithNoVersion X F pi d).
Proof.
  unfold MaybeResetPacketsWithNoVersion.
  repeat (match goal with
          | |- calm _ (if ?b then _ else _) => destruct b
          end; [apply calm_code_count|]).
  unfold SendPublicReset.
  eapply calm_trans; [|apply calm_write_packet].
  destruct (bool_decide (recent_stateless_reset_addresses_ d = ∅));
    by repeat split.
Qed.

Lemma quiet_TryExtractChloOrBufferEarlyPacket pi d :
  quiet d (TryExtractChloOrBufferEarlyPacket X F pi d).1.
Proof.
  unfold TryExtractChloOrBufferEarlyPacket.
  destruct (UsesTls X (version pi)).
  - set (first := if HasBufferedPackets _ _ then _ else _).
    assert (quiet d first.1) as Hfirst.
    { subst first. destruct (HasBufferedPackets _ _); [|apply quiet_refl].
      destruct (IngestPacketForTlsChloExtraction _ _ _ _) as [store r].
      by repeat split. }
    destruct first as [d1 r]. cbn [fst] in Hfirst.
    destruct (_ && _); cbn [fst].
    { destruct (has_full_tls_chlo r); [|done].
      eapply quiet_trans; [done|apply calm_quiet, calm_quic_bug]. }
    destruct (negb _); cbn [fst]; [|done].
    eapply quiet_trans; [done|apply quiet_BufferEarlyPacket].
  - destruct (if FLAGS_quic_allow_chlo_buffering F then _ else _)
      as [not_a_chlo e].
    destruct not_a_chlo; cbn [fst]; [apply quiet_BufferEarlyPacket|].
    destruct (_ && _); cbn [fst];
      [apply calm_quiet, calm_code_count|apply quiet_refl].
Qed.

Lemma quiet_ProcessHeader_switch fate pi cid code detail d :
  quiet d (ProcessHeader_switch X fate pi cid code detail d).
Proof.
  destruct fate; cbn [ProcessHeader_switch];
    [apply calm_quiet, calm_quic_bug| |apply quiet_refl].
  cbn zeta.
  eapply quiet_trans; [apply calm_quiet, calm_code_count|].
  eapply quiet_trans; [apply calm_quiet, calm_StatelesslyTerminateConnection|].
  eapply quiet_trans; [apply calm_quiet, calm_TimeWaitList_ProcessPacket|].
  by repeat split.
Qed.

End Quiet.

Section Budget.

Variable X : Externals.
Variable F : Flags.

Lemma CreateSessionFromChlo_frame (d : Dispatcher)
    (original : QuicConnectionId) (chlo : ParsedClientHello)
    (v : ParsedQuicVersion) (self peer : QuicSocketAddress) :
  let d1 := (CreateSessionFromChlo X F d original chlo v self peer).1 in
  new_sessions_allowed_per_event_loop_ d1
  = new_sessions_allowed_per_event_loop_ d
  ∧ accept_new_connections_ d1 = accept_new_connections_ d
  ∧ (length (factory_calls d1) ≤ S (length (factory_calls d)))%nat.
Proof.
  unfold CreateSessionFromChlo.
  destruct (bool_decide (is_Some (reference_counted_session_map_ d !! _))
            && quic_map_original_connection_ids2 F).
  { cbn [fst]. destruct (bool_decide (is_Some _)); [|by auto].
    destruct (calm_StatelesslyTerminateConnection X d original
                IETF_QUIC_LONG_HEADER_PACKET true
                (HasLengthPrefixedConnectionIds X v) v QUIC_HANDSHAKE_FAILED
                "Connection ID collision, please retry"
                SEND_CONNECTION_CLOSE_PACKETS)
      as ((_ & _ & _ & Hq & Ha & Hf) & _).
    rewrite Hq, Ha, Hf. auto. }
  destruct (CreateQuicSession X _ _ _ _ _ _) as [[session_cid session_ver]|].
  2: { cbn. split; [done|]. split; [done|].
       count_factory. }
  cbn [reference_counted_session_map_ set_log].
  destruct (reference_counted_session_map_ d !! _) as [existing|].
  { cbn. split; [done|]. split; [done|].
    count_factory. }
  cbn zeta.
  destruct (quic_map_original_connection_ids2 F && bool_decide (is_Some _)).
  - destruct (_ !! original); cbn; (split; [done|]); (split; [done|]);
      count_factory.
  - cbn. split; [done|]. split; [done|].
    count_factory.
Qed.

Lemma quiet_DeliverPacketsToSession packets h d :
  quiet d (DeliverPacketsToSession packets h d).
Proof.
  unfold DeliverPacketsToSession. revert d.
  induction packets as [|p rest IH]; intros d; [apply quiet_refl|].
  cbn [foldl]. eapply quiet_trans; [|apply IH].
  apply calm_quiet, calm_ProcessUdpPacket.
Qed.

Lemma ProcessChlo_within_budget chlo pi d :
  FLAGS_quic_allow_chlo_buffering F = true →
  within_budget d (ProcessChlo X F chlo pi d).1.
Proof.
  intros Hflag. unfold ProcessChlo. rewrite Hflag. cbn [andb].
  destruct (new_sessions_allowed_per_event_loop_ d <=? 0)%Z eqn:Hquota.
  { apply quiet_within_budget.
    set (d0 := if HasChloForConnection _ _ then _ else _).
    assert (quiet d d0) as H0.
    { subst d0. destruct (HasChloForConnection _ _);
        [apply calm_quiet, calm_quic_bug|apply quiet_refl]. }
    destruct (EnqueuePacket _ _ _ _ _ _ _ _ _ _) as [store rs]. cbn [fst].
    eapply quiet_trans; [exact H0|].
    destruct (bool_decide (rs ≠ SUCCESS)); [|by repeat split].
    eapply quiet_trans; [|by apply quiet_set_log]. by repeat split. }
  apply Z.leb_gt in Hquota.
  pose proof (CreateSessionFromChlo_sessions X F d
                (destination_connection_id pi) chlo (version pi)
                (self_address pi) (peer_address pi)) as [_ Hcases].
  pose proof (CreateSessionFromChlo_frame d (destination_connection_id pi)
                chlo (version pi) (self_address pi) (peer_address pi))
    as (Hq & _ & _).
  cbn zeta in Hcases, Hq.
  destruct (CreateSessionFromChlo _ _ _ _ _ _ _ _) as [d1 r].
  cbn [fst snd] in Hcases, Hq.
  assert (length (sessions d) ≤ length (sessions d1)
          ∧ length (sessions d1) ≤ S (length (sessions d)))%nat as Hlen.
  { destruct Hcases as [->|(_ & s & -> & _)]; [lia|].
    rewrite length_app. cbn. lia. }
  destruct r as [h|].
  2: { cbn [fst]. destruct Hcases as [Hsame|[[=] _]].
       unfold within_budget. rewrite Hq, Hsame.
       split; [lia|]. split; [|lia]. intros _. repeat split; lia. }
  destruct (DeliverPackets _ _) as [store delivered].
  set (branch := if bool_decide _ then _ else _).
  assert (quiet d1 branch.1) as Hbranch.
  { subst branch. destruct (bool_decide _); cbn [fst]; [|by repeat split].
    destruct (buffered_packets delivered); [by repeat split|].
    eapply quiet_trans; [|apply calm_quiet, calm_code_count].
    by repeat split. }
  destruct branch as [d3 pi']. cbn [fst] in *.
  set (d5 := DeliverPacketsToSession _ _ _).
  assert (quiet d1 d5) as (Hl5 & _ & _ & Hq5 & _).
  { subst d5. eapply quiet_trans; [exact Hbranch|].
    eapply quiet_trans; [apply calm_quiet, calm_ProcessUdpPacket|].
    apply quiet_DeliverPacketsToSession. }
  unfold within_budget.
  cbn [sessions new_sessions_allowed_per_event_loop_
       set_new_sessions_allowed_per_event_loop fst].
  rewrite Hl5, Hq5, Hq. split; [lia|]. split; [|lia]. intros Hlt.
  rewrite to_int16_t_id by lia. repeat split; lia.
Qed.

Lemma MaybeHandleLegacyVersionEncapsulation_cases reenter inner pi d d' b :
  MaybeHandleLegacyVersionEncapsulation X reenter inner pi d = Some (d', b) →
  (b = false ∧ calm d d')
  ∨ (b = true
     ∧ ∃ p d1,
         reenter (self_address pi) (peer_address pi) p d = Some d1
         ∧ calm d1 d').
Proof.
  unfold MaybeHandleLegacyVersionEncapsulation.
  destruct inner as [|octet inner]; [intros [= <- <-]; left; split;
                                       [done|apply calm_refl]|].
  destruct (ParsePublicHeaderDispatcher X _ _) as [error header].
  destruct (bool_decide (error ≠ QUIC_NO_ERROR));
    [intros [= <- <-]; left; split; [done|apply calm_refl]|].
  destruct (bool_decide (_ ≠ _));
    [intros [= <- <-]; left; split; [done|apply calm_refl]|].
  destruct (_ <=? _);
    [intros [= <- <-]; left; split; [done|apply calm_quic_bug]|].
  destruct (reenter _ _ _ _) as [d1|] eqn:Hre; [|done].
  intros [= <- <-]. right. split; [done|]. eexists _, d1.
  split; [exact Hre|apply calm_code_count].
Qed.

Lemma quiet_MaybeDispatchPacket_unknown_connection pi d :
  quiet d (MaybeDispatchPacket_unknown_connection X pi d).1.
Proof.
  unfold MaybeDispatchPacket_unknown_connection.
  repeat match goal with
         | |- quiet _ (if ?b then _ else _).1 => destruct b; cbn [fst]
         end;
    try apply quiet_refl; try apply quiet_BufferEarlyPacket;
    try apply calm_quiet, calm_TimeWaitList_ProcessPacket;
    try apply calm_quiet, calm_code_count;
    try apply calm_quiet, calm_write_packet.
  eapply quiet_trans; [apply calm_quiet, calm_StatelesslyTerminateConnection|].
  eapply quiet_trans; [apply calm_quiet, calm_TimeWaitList_ProcessPacket|].
  by apply quiet_set_log.
Qed.

Lemma MaybeDispatchPacket_cases reenter pi d d' b :
  MaybeDispatchPacket X F reenter pi d = Some (d', b) →
  (b = true
   ∧ (calm d d'
      ∨ ∃ p d1,
          reenter (self_address pi) (peer_address pi) p d = Some d1
          ∧ calm d1 d'))
  ∨ (IsSourceUdpPortBlocked (port (peer_address pi)) = false
     ∧ reference_counted_session_map_ d !! destination_connection_id pi = None
     ∧ (d', b) = MaybeDispatchPacket_unknown_connection X pi d).
Proof.
  unfold MaybeDispatchPacket.
  destruct (IsSourceUdpPortBlocked _);
    [intros [= <- <-]; left; split; [done|left; apply calm_code_count]|].
  destruct (_ && _);
    [intros [= <- <-]; left; split; [done|left; apply calm_code_count]|].
  destruct (_ && _);
    [intros [= <- <-]; left; split; [done|left; apply calm_code_count]|].
  destruct (reference_counted_session_map_ d !! _) as [it|].
  - destruct (_ && _).
    2: { intros [= <- <-]. left. split; [done|left].
         apply calm_ProcessUdpPacket. }
    destruct (quic_disable_legacy_version_encapsulation F).
    { intros [= <- <-]. left. split; [done|left].
      eapply calm_trans; [apply calm_code_count|apply calm_ProcessUdpPacket]. }
    destruct (Extract _ _ _ _ _) as [extracted alpn_extractor].
    destruct extracted.
    2: { intros [= <- <-]. left. split; [done|left].
         apply calm_ProcessUdpPacket. }
    destruct (MaybeHandleLegacyVersionEncapsulation _ _ _ _ _)
      as [[d2 handled]|] eqn:Hlve; [|done].
    apply MaybeHandleLegacyVersionEncapsulation_cases in Hlve
      as [[-> Hcalm]|(-> & p & d1 & Hre & Hcalm)].
    + intros [= <- <-]. left. split; [done|left].
      eapply calm_trans; [exact Hcalm|apply calm_ProcessUdpPacket].
    + intros [= <- <-]. left. split; [done|right]. by exists p, d1.
  - destruct (find_replaced_session _ _ _ _) as [it2|].
    + intros [= <- <-]. left. split; [done|left].
      apply calm_ProcessUdpPacket.
    + intros [= Heq]. right. split; [done|]. split; [done|].
      by destruct (MaybeDispatchPacket_unknown_connection X pi d).
Qed.

Lemma ProcessHeader_within_budget reenter pi d d' :
  FLAGS_quic_allow_chlo_buffering F = true →
  (∀ self peer p d0 d1,
     reenter self peer p d0 = Some d1 → within_budget d0 d1) →
  ProcessHeader X F reenter pi d = Some d' →
  within_budget d d'.
Proof.
  intros Hflag Hre. unfold ProcessHeader, ProcessHeader_fate, ValidityChecks.
  destruct (negb (version_flag pi)).
  { some_eq. cbn [ProcessHeader_switch].
    apply quiet_within_budget, calm_quiet,
      calm_MaybeResetPacketsWithNoVersion. }
  pose proof (quiet_TryExtractChloOrBufferEarlyPacket X F pi d) as Hextract.
  destruct (TryExtractChloOrBufferEarlyPacket X F pi d) as [d2 r].
  cbn [fst] in Hextract.
  destruct (if send_connection_close_for_tls_alerts_ d2 then _ else _)
    as [alert|].
  { some_eq. apply quiet_within_budget.
    eapply quiet_trans; [exact Hextract|].
    eapply quiet_trans; [|apply quiet_ProcessHeader_switch].
    destruct (bool_decide _);
      [apply calm_quiet, calm_quic_bug|apply quiet_refl]. }
  destruct (result_parsed_chlo r) as [chlo|].
  2: { some_eq. by apply quiet_within_budget. }
  destruct (bool_decide (_ = kFateProcess)).
  2: { some_eq. apply quiet_within_budget.
       eapply quiet_trans; [exact Hextract|apply quiet_ProcessHeader_switch]. }
  destruct (quic_disable_legacy_version_encapsulation F).
  { some_eq.
    eapply within_budget_trans; [|by apply ProcessChlo_within_budget].
    apply quiet_within_budget.
    eapply quiet_trans; [exact Hextract|].
    destruct (legacy_version_encapsulation_inner_packet chlo);
      [apply quiet_refl|apply calm_quiet, calm_code_count]. }
  destruct (MaybeHandleLegacyVersionEncapsulation _ _ _ _ _)
    as [[d3 handled]|] eqn:Hlve; [|done].
  apply MaybeHandleLegacyVersionEncapsulation_cases in Hlve
    as [[-> Hcalm]|(-> & p & d1 & Hin & Hcalm)].
  - some_eq.
    eapply within_budget_trans; [|by apply ProcessChlo_within_budget].
    apply quiet_within_budget.
    eapply quiet_trans; [exact Hextract|by apply calm_quiet].
  - some_eq.
    eapply within_budget_trans; [by apply quiet_within_budget|].
    eapply within_budget_trans; [by eapply Hre|].
    by apply quiet_within_budget, calm_quiet.
Qed.

Lemma ProcessPacket_within_budget depth self peer p d d' :
  FLAGS_quic_allow_chlo_buffering F = true →
  ProcessPacket X F depth self peer p d = Some d' →
  within_budget d d'.
Proof.
  intros Hflag. revert self peer p d d'.
  induction depth as [|depth IH]; intros self peer p d d'; [done|].
  cbn [ProcessPacket].
  destruct (ParsePublicHeaderDispatcher X _ _) as [error header].
  repeat match goal with
         | |- (if ?b then Some (SetLastError ?e d) else _) = _ → _ =>
             destruct b;
             [intros [= <-]; by apply quiet_within_budget|]
         end.
  set (d1 := if should_update_expected_server_connection_id_length_ d
             then _ else d).
  assert (quiet d d1) as H1 by (subst d1; by destruct
    (should_update_expected_server_connection_id_length_ d)).
  destruct (MaybeDispatchPacket _ _ _ _ _) as [[d2 handled]|] eqn:Hdispatch;
    [|done].
  apply MaybeDispatchPacket_cases in Hdispatch
    as [[-> [Hcalm|(p' & d3 & Hre & Hcalm)]]|(_ & _ & Hunknown)].
  - intros [= <-]. apply quiet_within_budget.
    eapply quiet_trans; [exact H1|by apply calm_quiet].
  - intros [= <-].
    eapply within_budget_trans; [by apply quiet_within_budget|].
    eapply within_budget_trans; [by eapply IH|].
    by apply quiet_within_budget, calm_quiet.
  - pose proof (quiet_MaybeDispatchPacket_unknown_connection
                  (make_packet_info self peer p header) d1) as Hquiet.
    rewrite <- Hunknown in Hquiet. cbn [fst] in Hquiet.
    destruct handled.
    + intros [= <-]. apply quiet_within_budget. by eapply quiet_trans.
    + intros Hheader.
      eapply within_budget_trans;
        [apply quiet_within_budget; by eapply quiet_trans|].
      eapply ProcessHeader_within_budget; [done| |exact Hheader].
      intros ? ? ? ? ?. apply IH.
Qed.

End Budget.

Section SessionBudget.

Variable X : Externals.
Variable F : Flags.

Lemma ProcessPackets_within_budget depth arrivals d d' :
  FLAGS_quic_allow_chlo_buffering F = true →
  ProcessPackets X F depth arrivals d = Some d' →
  within_budget d d'.
Proof.
  intros Hflag. revert d.
  induction arrivals as [|[[self peer] p] rest IH]; intros d; cbn.
  - intros [= <-]. apply quiet_within_budget, quiet_refl.
  - destruct (ProcessPacket X F depth self peer p d) as [d1|] eqn:Hone;
      [|done].
    intros Hrest. eapply within_budget_trans; [|by apply IH].
    by eapply ProcessPacket_within_budget.
Qed.

(** One pass of the loop of [ProcessBufferedChlos] leaves the quota as it
    was and makes at most one session, with at most one call of the
    factory, and none when it ends the loop. *)
Lemma ProcessBufferedChlos_body_budget (d : Dispatcher) :
  let r := ProcessBufferedChlos_body X F d in
  new_sessions_allowed_per_event_loop_ r.1
  = new_sessions_allowed_per_event_loop_ d
  ∧ (length (sessions d) ≤ length (sessions r.1))%nat
  ∧ (length (sessions r.1)
     ≤ length (sessions d) + (if r.2 then 1 else 0))%nat
  ∧ (length (factory_calls r.1)
     ≤ length (factory_calls d) + (if r.2 then 1 else 0))%nat.
Proof.
  unfold ProcessBufferedChlos_body.
  destruct (DeliverPacketsForNextConnection _) as [[store cid] l].
  destruct (buffered_packets l) as [|front others];
    [unfold factory_calls; cbn; lia|].
  destruct (parsed_chlo l) as [chlo|].
  2: { cbn [fst snd]. split; [done|]. split; [cbn; lia|]. split; [cbn; lia|].
       count_factory. }
  pose proof (CreateSessionFromChlo_sessions X F (set_buffered_packets store d)
                cid chlo (list_version l) (bp_self_address front)
                (bp_peer_address front)) as [_ Hcases].
  pose proof (CreateSessionFromChlo_frame X F (set_buffered_packets store d)
                cid chlo (list_version l) (bp_self_address front)
                (bp_peer_address front)) as (Hq & _ & Hf).
  cbn zeta in Hcases, Hq, Hf.
  destruct (CreateSessionFromChlo _ _ _ _ _ _ _ _) as [d2 r].
  cbn [fst snd sessions set_buffered_packets
       new_sessions_allowed_per_event_loop_] in Hcases, Hq, Hf.
  unfold factory_calls in Hf |- *. cbn [log set_buffered_packets] in Hf.
  assert (length (sessions d) ≤ length (sessions d2)
          ∧ length (sessions d2) ≤ S (length (sessions d)))%nat as Hlen.
  { destruct Hcases as [->|(_ & s & -> & _)]; [lia|].
    rewrite length_app. cbn. lia. }
  destruct r as [h|]; cbn [fst snd]; [|lia].
  destruct (quiet_DeliverPacketsToSession (front :: others) h d2)
    as (Hl & _ & _ & Hq' & _ & Hf').
  unfold factory_calls in Hf'. rewrite Hl, Hq', Hf'. lia.
Qed.

Lemma ProcessBufferedChlos_loop_budget (fuel : nat) (d : Dispatcher) :
  let d' := ProcessBufferedChlos_loop X F fuel d in
  (0 ≤ new_sessions_allowed_per_event_loop_ d)%Z →
  (0 ≤ new_sessions_allowed_per_event_loop_ d')%Z
  ∧ (new_sessions_allowed_per_event_loop_ d'
     ≤ new_sessions_allowed_per_event_loop_ d)%Z
  ∧ (length (sessions d) ≤ length (sessions d'))%nat
  ∧ (Z.of_nat (length (sessions d')) + new_sessions_allowed_per_event_loop_ d'
     ≤ Z.of_nat (length (sessions d))
       + new_sessions_allowed_per_event_loop_ d)%Z
  ∧ (Z.of_nat (length (factory_calls d'))
     + new_sessions_allowed_per_event_loop_ d'
     ≤ Z.of_nat (length (factory_calls d))
       + new_sessions_allowed_per_event_loop_ d)%Z.
Proof.
  revert d. induction fuel as [|fuel IH]; intros d; cbn zeta.
  - cbn. lia.
  - cbn [ProcessBufferedChlos_loop].
    destruct (0 <? new_sessions_allowed_per_event_loop_ d)%Z eqn:Hpos;
      [|lia].
    apply Z.ltb_lt in Hpos.
    pose proof (ProcessBufferedChlos_body_budget d) as (Hq & Hl & Hl' & Hf).
    cbn zeta in Hq, Hl, Hl', Hf.
    destruct (ProcessBufferedChlos_body X F d) as [d1 go_on].
    cbn [fst snd] in Hq, Hl, Hl', Hf.
    destruct go_on; [|lia].
    specialize (IH (set_new_sessions_allowed_per_event_loop
                      (new_sessions_allowed_per_event_loop_ d1 - 1)%Z d1)).
    cbn zeta in IH.
    change (factory_calls (set_new_sessions_allowed_per_event_loop
                             (new_sessions_allowed_per_event_loop_ d1 - 1)%Z
                             d1))
      with (factory_calls d1) in IH.
    cbn [sessions new_sessions_allowed_per_event_loop_
         set_new_sessions_allowed_per_event_loop] in IH.
    intros _. destruct IH as (? & ? & ? & ? & ?); lia.
Qed.

Lemma ProcessBufferedChlos_loop_without_quota (fuel : nat)
    (d : Dispatcher) :
  (new_sessions_allowed_per_event_loop_ d ≤ 0)%Z →
  ProcessBufferedChlos_loop X F fuel d = d.
Proof.
  intros Hquota. destruct fuel as [|fuel]; [done|].
  cbn [ProcessBufferedChlos_loop].
  destruct (Z.ltb_spec 0 (new_sessions_allowed_per_event_loop_ d)); [lia|done].
Qed.

(** The loop does not end for want of fuel: any fuel that is not less than
    the quota gives the same result. *)
Lemma ProcessBufferedChlos_loop_fuel (fuel fuel' : nat) (d : Dispatcher) :
  (new_sessions_allowed_per_event_loop_ d ≤ Z.of_nat fuel)%Z →
  (new_sessions_allowed_per_event_loop_ d ≤ Z.of_nat fuel')%Z →
  ProcessBufferedChlos_loop X F fuel d = ProcessBufferedChlos_loop X F fuel' d.
Proof.
  revert fuel' d. induction fuel as [|fuel IH]; intros fuel' d Hfuel Hfuel'.
  { by rewrite !ProcessBufferedChlos_loop_without_quota by lia. }
  destruct fuel' as [|fuel'].
  { by rewrite !ProcessBufferedChlos_loop_without_quota by lia. }
  cbn [ProcessBufferedChlos_loop].
  destruct (0 <? new_sessions_allowed_per_event_loop_ d)%Z; [|done].
  pose proof (ProcessBufferedChlos_body_budget d) as (Hq & _).
  cbn zeta in Hq.
  destruct (ProcessBufferedChlos_body X F d) as [d1 go_on].
  cbn [fst] in Hq. destruct go_on; [|done].
  apply IH; cbn [new_sessions_allowed_per_event_loop_
                 set_new_sessions_allowed_per_event_loop]; lia.
Qed.

Lemma ProcessBufferedChlos_budget (max_connections_to_create : N)
    (d : Dispatcher) :
  let quota := to_int16_t (Z.of_N max_connections_to_create) in
  let d' := ProcessBufferedChlos X F max_connections_to_create d in
  (length (sessions d) ≤ length (sessions d'))%nat
  ∧ ((quota ≤ 0)%Z → d' = set_new_sessions_allowed_per_event_loop quota d)
  ∧ ((0 ≤ quota)%Z →
     (0 ≤ new_sessions_allowed_per_event_loop_ d' ≤ quota)%Z
     ∧ (Z.of_nat (length (sessions d'))
        + new_sessions_allowed_per_event_loop_ d'
        ≤ Z.of_nat (length (sessions d)) + quota)%Z
     ∧ (Z.of_nat (length (factory_calls d'))
        + new_sessions_allowed_per_event_loop_ d'
        ≤ Z.of_nat (length (factory_calls d)) + quota)%Z).
Proof.
  cbn zeta. unfold ProcessBufferedChlos.
  set (quota := to_int16_t (Z.of_N max_connections_to_create)).
  pose proof (ProcessBufferedChlos_loop_budget
                (N.to_nat max_connections_to_create)
                (set_new_sessions_allowed_per_event_loop quota d)) as Hloop.
  cbn zeta in Hloop.
  change (factory_calls (set_new_sessions_allowed_per_event_loop quota d))
    with (factory_calls d) in Hloop.
  cbn [sessions new_sessions_allowed_per_event_loop_
       set_new_sessions_allowed_per_event_loop] in Hloop.
  assert ((quota ≤ 0)%Z →
          ProcessBufferedChlos_loop X F (N.to_nat max_connections_to_create)
            (set_new_sessions_allowed_per_event_loop quota d)
          = set_new_sessions_allowed_per_event_loop quota d) as Hnone.
  { intros Hle. by apply ProcessBufferedChlos_loop_without_quota. }
  split; [|split; [exact Hnone|]].
  - destruct (decide (0 ≤ quota)%Z) as [Hpos|Hneg].
    + by destruct (Hloop Hpos) as (_ & _ & Hl & _).
    + rewrite Hnone by lia. done.
  - intros Hpos. destruct (Hloop Hpos) as (? & ? & ? & ? & ?).
    repeat split; lia.
Qed.

(** X3.  [ProcessBufferedChlos] brings its argument into the range of
    [int16_t] and takes the result as the quota.  When that is not
    positive, as for an argument of 32768, the call changes nothing but the
    quota.  When it is not negative, neither is the quota the call leaves;
    the sessions it made and the quota it leaves add up to no more than the
    quota it set, and so do its calls of the session factory and the quota
    it leaves.  It never removes a session and makes no more sessions than
    its argument says, and fewer than 2^15. *)
Theorem ProcessBufferedChlos_bounded (max_connections_to_create : N)
    (d : Dispatcher) :
  let quota := to_int16_t (Z.of_N max_connections_to_create) in
  let d' := ProcessBufferedChlos X F max_connections_to_create d in
  ((quota ≤ 0)%Z → d' = set_new_sessions_allowed_per_event_loop quota d)
  ∧ ((0 ≤ quota)%Z →
     (0 ≤ new_sessions_allowed_per_event_loop_ d')%Z
     ∧ (Z.of_nat (length (sessions d') - length (sessions d))
        + new_sessions_allowed_per_event_loop_ d' ≤ quota)%Z
     ∧ (Z.of_nat (length (factory_calls d'))
        + new_sessions_allowed_per_event_loop_ d'
        ≤ Z.of_nat (length (factory_calls d)) + quota)%Z)
  ∧ (length (sessions d) ≤ length (sessions d'))%nat
  ∧ (length (sessions d') - length (sessions d)
     ≤ N.to_nat max_connections_to_create)%nat
  ∧ (Z.of_nat (length (sessions d') - length (sessions d)) < 2 ^ 15)%Z
  ∧ (max_connections_to_create < 2 ^ 15 →
     quota = Z.of_N max_connections_to_create).
Proof.
  destruct (ProcessBufferedChlos_budget max_connections_to_create d)
    as (Hl & Hnone & Hsome).
  cbn zeta in *.
  pose proof (to_int16_t_range (Z.of_N max_connections_to_create)) as Hrange.
  pose proof (to_int16_t_le (Z.of_N max_connections_to_create)
                ltac:(lia)) as Hle.
  split; [exact Hnone|]. split.
  { intros Hpos. destruct (Hsome Hpos) as (? & ? & ?). repeat split; lia. }
  split; [exact Hl|].
  assert (length (sessions
                    (ProcessBufferedChlos X F max_connections_to_create d))
          - length (sessions d)
          ≤ Z.to_nat (to_int16_t (Z.of_N max_connections_to_create)))%nat
    as Hmade.
  { destruct (decide (0 ≤ to_int16_t (Z.of_N max_connections_to_create))%Z)
      as [Hpos|Hneg].
    - destruct (Hsome Hpos) as (? & ? & ?). lia.
    - rewrite Hnone by lia. cbn [sessions
        set_new_sessions_allowed_per_event_loop]. lia. }
  split; [lia|]. split; [lia|].
  intros Hsmall. apply to_int16_t_id. lia.
Qed.

(** X1.  Between two calls of [ProcessBufferedChlos], the call itself and the
    datagrams that follow make together no more sessions than the call
    allowed. *)
Theorem sessions_within_budget (max_connections_to_create : N) (depth : nat)
    (arrivals : list (QuicSocketAddress * QuicSocketAddress
                      * QuicReceivedPacket))
    (d d' : Dispatcher) :
  FLAGS_quic_allow_chlo_buffering F = true →
  ProcessPackets X F depth arrivals
    (ProcessBufferedChlos X F max_connections_to_create d) = Some d' →
  (length (sessions d')
   ≤ length (sessions d) + N.to_nat max_connections_to_create)%nat.
Proof.
  intros Hflag Hrun.
  destruct (ProcessBufferedChlos_budget max_connections_to_create d)
    as (Hl & Hnone & Hsome).
  cbn zeta in Hl, Hnone, Hsome.
  pose proof (to_int16_t_range (Z.of_N max_connections_to_create)) as Hrange.
  pose proof (to_int16_t_le (Z.of_N max_connections_to_create)
                ltac:(lia)) as Hle.
  destruct (ProcessPackets_within_budget _ _ _ _ Hflag Hrun)
    as (_ & Hbudget & Hzero).
  destruct (decide (0 ≤ to_int16_t (Z.of_N max_connections_to_create))%Z)
    as [Hpos|Hneg].
  - destruct (Hsome Hpos) as (Hq & Hs & _).
    destruct Hbudget as (_ & Hp & Hstays); lia.
  - rewrite Hnone in Hbudget, Hzero by lia.
    cbn [sessions new_sessions_allowed_per_event_loop_
         set_new_sessions_allowed_per_event_loop] in Hbudget, Hzero.
    destruct Hbudget as (_ & Hp & _); [lia|].
    destruct Hzero as [Hq _]; lia.
Qed.

(** X2.  While the quota of new sessions is used up, no datagram makes a
    session or reaches the session factory. *)
Theorem no_session_without_quota (depth : nat)
    (arrivals : list (QuicSocketAddress * QuicSocketAddress
                      * QuicReceivedPacket))
    (d d' : Dispatcher) :
  FLAGS_quic_allow_chlo_buffering F = true →
  (new_sessions_allowed_per_event_loop_ d ≤ 0)%Z →
  ProcessPackets X F depth arrivals d = Some d' →
  length (sessions d') = length (sessions d)
  ∧ factory_calls d' = factory_calls d
  ∧ new_sessions_allowed_per_event_loop_ d'
    = new_sessions_allowed_per_event_loop_ d.
Proof.
  intros Hflag Hquota Hrun.
  destruct (ProcessPackets_within_budget _ _ _ _ Hflag Hrun)
    as (Hl & Hbudget & Hzero).
  destruct (Hzero Hquota) as [Hq Hf].
  destruct Hbudget as (_ & Hp & _); [lia|]. split; [lia|done].
Qed.

End SessionBudget.

Section StopAccepting.

Variable X : Externals.
Variable F : Flags.





End StopAccepting.

(** ** The session map *)

(** ** Connection IDs issued and retired *)

(** X13.  [TryAddNewConnectionId] answers true exactly when the issuing
    connection ID is in the session map and the new one is not; then the new
    ID names the session of the issuing one.  No connection ID that was in the
    map changes its session, and a refusal leaves the map as it was.  Sessions
    and their count stay as they were. *)
Theorem TryAddNewConnectionId_outcome
    (server_connection_id new_connection_id : QuicConnectionId)
    (d : Dispatcher) :
  let r := TryAddNewConnectionId server_connection_id new_connection_id d in
  let m := reference_counted_session_map_ d in
  let m' := reference_counted_session_map_ r.1 in
  (r.2 = true ↔ is_Some (m !! server_connection_id)
                ∧ m !! new_connection_id = None)
  ∧ (∀ cid, is_Some (m !! cid) → m' !! cid = m !! cid)
  ∧ (r.2 = true →
     m' !! new_connection_id = m !! server_connection_id
     ∧ ∀ cid, cid ≠ new_connection_id → m' !! cid = m !! cid)
  ∧ (r.2 = false → m' = m)
  ∧ sessions r.1 = sessions d
  ∧ num_sessions_in_session_map_ r.1 = num_sessions_in_session_map_ d.
Proof.
  unfold TryAddNewConnectionId.
  destruct (reference_counted_session_map_ d !! server_connection_id)
    as [it|] eqn:Hserver.
  2: { cbn. repeat split; try done. by intros [[? ?] _]. }
  destruct (reference_counted_session_map_ d !! new_connection_id)
    as [other|] eqn:Hnew.
  { cbn. repeat split; try done. by intros [_ ?]. }
  cbn. split; [by split; [intros _; split; [eexists|]|]|].
  split.
  { intros cid [h Hcid]. rewrite lookup_insert_ne; [done|congruence]. }
  split; [|done]. intros _. split; [by rewrite lookup_insert_eq|].
  intros cid Hne. by rewrite lookup_insert_ne.
Qed.

(** X14.  Retiring a connection ID that [TryAddNewConnectionId] has just added
    gives back the session map as it was before. *)
Theorem TryAddNewConnectionId_then_retired
    (server_connection_id new_connection_id : QuicConnectionId)
    (d d1 : Dispatcher) :
  TryAddNewConnectionId server_connection_id new_connection_id d
  = (d1, true) →
  reference_counted_session_map_ (OnConnectionIdRetired new_connection_id d1)
  = reference_counted_session_map_ d
  ∧ sessions (OnConnectionIdRetired new_connection_id d1) = sessions d.
Proof.
  unfold TryAddNewConnectionId, OnConnectionIdRetired.
  destruct (reference_counted_session_map_ d !! server_connection_id)
    as [it|]; [|done].
  destruct (reference_counted_session_map_ d !! new_connection_id)
    as [other|] eqn:Hnew; [done|].
  intros [= <-]. cbn. split; [|done].
  by rewrite delete_insert_id.
Qed.

(** ** Snapshots of the sessions *)

Lemma visit_sessions_snoc (entries : list (QuicConnectionId * nat))
    (kv : QuicConnectionId * nat) :
  visit_sessions (entries ++ [kv])
  = let '(visited_session, snapshot) := visit_sessions entries in
    if bool_decide (kv.2 ∈ visited_session)
    then (visited_session, snapshot)
    else ({[kv.2]} ∪ visited_session, snapshot ++ [kv.2]).
Proof.
  unfold visit_sessions. rewrite foldl_app. cbn [foldl].
  by destruct (foldl _ _ entries).
Qed.

Lemma visit_sessions_spec (entries : list (QuicConnectionId * nat)) :
  NoDup (visit_sessions entries).2
  ∧ (∀ h, h ∈ (visit_sessions entries).1 ↔ h ∈ (visit_sessions entries).2)
  ∧ (∀ h, h ∈ (visit_sessions entries).2 ↔ ∃ cid, (cid, h) ∈ entries).
Proof.
  induction entries as [|kv entries IH] using rev_ind.
  - unfold visit_sessions. cbn [foldl fst snd]. split; [constructor|].
    split; [intros h; by rewrite elem_of_empty, elem_of_nil|].
    intros h. split; [by intros ?%elem_of_nil|].
    by intros [cid ?%elem_of_nil].
  - rewrite visit_sessions_snoc.
    destruct (visit_sessions entries) as [visited_session snapshot].
    destruct IH as (Hnodup & Hvisited & Hsnapshot). cbn [fst snd] in *.
    destruct kv as [cid0 h0]. cbn [snd].
    destruct (bool_decide (h0 ∈ visited_session)) eqn:Hseen; cbn [fst snd].
    + apply bool_decide_eq_true in Hseen.
      split; [done|]. split; [done|]. intros h. rewrite Hsnapshot.
      split.
      * intros [cid Hin]. exists cid. apply elem_of_app. by left.
      * intros [cid [Hin|Hin%list_elem_of_singleton]%elem_of_app];
          [by exists cid|].
        injection Hin as -> ->. apply Hsnapshot, Hvisited, Hseen.
    + apply bool_decide_eq_false in Hseen.
      split.
      { apply NoDup_app. split; [done|]. split; [|apply NoDup_singleton].
        intros h Hin ->%list_elem_of_singleton. by apply Hseen, Hvisited. }
      split.
      { intros h. rewrite elem_of_union, elem_of_singleton, elem_of_app,
          list_elem_of_singleton, Hvisited. tauto. }
      intros h. rewrite elem_of_app, list_elem_of_singleton, Hsnapshot.
      split.
      * intros [[cid Hin]| ->]; [exists cid|exists cid0];
          apply elem_of_app; [by left|right]. by apply list_elem_of_singleton.
      * intros [cid [Hin|Hin%list_elem_of_singleton]%elem_of_app];
          [left; by exists cid|]. injection Hin as -> ->. by right.
Qed.

(** X15.  [GetSessionsSnapshot] lists every session that some connection ID of
    the map names, each of them once, however many connection IDs name it. *)
Theorem GetSessionsSnapshot_each_session_once (d : Dispatcher) :
  NoDup (GetSessionsSnapshot d)
  ∧ ∀ session,
      session ∈ GetSessionsSnapshot d
      ↔ ∃ cid, reference_counted_session_map_ d !! cid = Some session.
Proof.
  unfold GetSessionsSnapshot.
  destruct (visit_sessions_spec
              (map_to_list (reference_counted_session_map_ d)))
    as (Hnodup & _ & Hsnapshot).
  split; [done|]. intros session. rewrite Hsnapshot.
  split; intros [cid Hin]; exists cid; by apply elem_of_map_to_list.
Qed.

Lemma foldl_alter_sessions (operation : QuicSession → QuicSession)
    (handles : list nat) (d : Dispatcher) (h : nat) :
  NoDup handles →
  sessions
    (foldl (λ d' session,
              set_sessions (alter operation session (sessions d')) d')
       d handles) !! h
  = if bool_decide (h ∈ handles) then operation <$> sessions d !! h
    else sessions d !! h.
Proof.
  intros Hnodup. revert d.
  induction Hnodup as [|session handles Hnotin Hnodup IH]; intros d.
  - cbn. by rewrite bool_decide_eq_false_2 by apply not_elem_of_nil.
  - cbn [foldl]. rewrite IH. cbn [sessions set_sessions].
    destruct (decide (h = session)) as [->|Hne].
    + rewrite bool_decide_eq_false_2 by done.
      rewrite bool_decide_eq_true_2 by left.
      by rewrite list_lookup_alter_eq.
    + rewrite list_lookup_alter_ne by done.
      destruct (decide (h ∈ handles)) as [Hin|Hout].
      * rewrite !bool_decide_eq_true_2; [done|by right|done].
      * rewrite !bool_decide_eq_false_2; [done| |done].
        by intros [?|?]%elem_of_cons.
Qed.

Lemma foldl_alter_sessions_frame (operation : QuicSession → QuicSession)
    (handles : list nat) (d : Dispatcher) :
  let d' :=
    foldl (λ d' session,
             set_sessions (alter operation session (sessions d')) d')
      d handles in
  reference_counted_session_map_ d' = reference_counted_session_map_ d
  ∧ log d' = log d
  ∧ buffered_packets_ d' = buffered_packets_ d
  ∧ length (sessions d') = length (sessions d).
Proof.
  revert d. induction handles as [|session handles IH]; intros d; [done|].
  cbn [foldl]. cbn zeta in IH. destruct (IH (set_sessions
    (alter operation session (sessions d)) d)) as (-> & -> & -> & ->).
  cbn. by rewrite length_alter.
Qed.

(** X16.  [PerformActionOnActiveSessions] applies the operation once to every
    session that some connection ID of the map names, also when several name
    it, and to no other session; the map, the store and what was written stay
    as they were. *)
Theorem PerformActionOnActiveSessions_once
    (operation : QuicSession → QuicSession) (d : Dispatcher) :
  let d' := PerformActionOnActiveSessions operation d in
  (∀ cid session,
     reference_counted_session_map_ d !! cid = Some session →
     sessions d' !! session = operation <$> sessions d !! session)
  ∧ (∀ session,
       (∀ cid, reference_counted_session_map_ d !! cid ≠ Some session) →
       sessions d' !! session = sessions d !! session)
  ∧ reference_counted_session_map_ d' = reference_counted_session_map_ d
  ∧ log d' = log d
  ∧ buffered_packets_ d' = buffered_packets_ d.
Proof.
  assert (NoDup (GetSessionsSnapshot d)
          ∧ ∀ session,
              session ∈ GetSessionsSnapshot d
              ↔ ∃ cid, reference_counted_session_map_ d !! cid = Some session)
    as [Hnodup Hin].
  { unfold GetSessionsSnapshot.
    destruct (visit_sessions_spec
                (map_to_list (reference_counted_session_map_ d)))
      as (Hnodup & _ & Hsnapshot).
    split; [done|]. intros session. rewrite Hsnapshot.
    split; intros [cid Hin]; exists cid; by apply elem_of_map_to_list. }
  unfold PerformActionOnActiveSessions.
  destruct (foldl_alter_sessions_frame operation (GetSessionsSnapshot d) d)
    as (Hm & Hl & Hb & _).
  split; [|split; [|done]].
  - intros cid session Hcid. rewrite foldl_alter_sessions by done.
    rewrite bool_decide_eq_true_2; [done|]. apply Hin. by exists cid.
  - intros session Hnone. rewrite foldl_alter_sessions by done.
    rewrite bool_decide_eq_false_2; [done|].
    intros [cid Hcid]%Hin. by apply (Hnone cid).
Qed.

(** ** Closed sessions and blocked writers *)

(** ** Closing sessions *)

Lemma elem_of_erase_writer (writer w : QuicBlockedWriter)
    (l : list QuicBlockedWriter) :
  w ∈ (erase_writer writer l).1 ↔ w ∈ l ∧ w ≠ writer.
Proof. unfold erase_writer. cbn. rewrite list_elem_of_filter. tauto. Qed.

Lemma lookup_foldl_delete (cids : list QuicConnectionId)
    (m : gmap QuicConnectionId nat) (cid : QuicConnectionId) :
  foldl (λ m' c, delete c m') m cids !! cid
  = if bool_decide (cid ∈ cids) then None else m !! cid.
Proof.
  revert m. induction cids as [|c cids IH]; intros m; cbn [foldl].
  - by rewrite bool_decide_eq_false_2 by apply not_elem_of_nil.
  - rewrite IH. destruct (decide (cid ∈ cids)) as [Hin|Hout].
    + rewrite !bool_decide_eq_true_2; [done|by right|done].
    + rewrite (bool_decide_eq_false_2 (cid ∈ cids)) by done.
      destruct (decide (cid = c)) as [->|Hne].
      * rewrite lookup_delete_eq. by rewrite bool_decide_eq_true_2 by left.
      * rewrite lookup_delete_ne by done.
        rewrite bool_decide_eq_false_2; [done|].
        by intros [?|?]%elem_of_cons.
Qed.

Section ClosingSessionsProperties.

Variable X : Externals.
Variable connection : nat → QuicConnection.

Lemma CleanUpSession_effect (server_connection_id : QuicConnectionId)
    (session : nat) (s : DispatcherWithLists) :
  let c := connection session in
  let s' := CleanUpSession X connection server_connection_id session s in
  (∀ cid,
     time_wait_list_manager_ (dispatcher s') !! cid
     = if bool_decide (cid ∈ GetActiveServerConnectionIds c)
       then Some (time_wait_entry_of X server_connection_id c)
       else time_wait_list_manager_ (dispatcher s) !! cid)
  ∧ write_blocked_list_ s'
    = (erase_writer (ConnectionWriter session) (write_blocked_list_ s)).1
  ∧ closed_session_list_ s' = closed_session_list_ s
  ∧ delete_sessions_alarm_ s' = delete_sessions_alarm_ s
  ∧ calm (dispatcher s) (dispatcher s')
  ∧ written (dispatcher s') = written (dispatcher s)
  ∧ sessions (dispatcher s') = sessions (dispatcher s).
Proof.
  unfold CleanUpSession, time_wait_entry_of. cbn zeta.
  set (c := connection session).
  destruct (connection_termination_packets c) as [[|p ps]|] eqn:Htp;
    cbn [negb andb]; destruct (IsHandshakeComplete c); cbn [negb andb];
    rewrite ?CloseConnection_new_terminator; cbn [dispatcher with_dispatcher
      with_write_blocked_list write_blocked_list_ closed_session_list_
      delete_sessions_alarm_];
    (split; [intros cid; rewrite lookup_AddConnectionIdToTimeWait;
             unfold make_TimeWaitConnectionInfo; rewrite ?Htp; cbn;
             reflexivity|]);
    (split; [done|]); (split; [done|]); (split; [done|]);
    (split; [|split; [|done]; unfold written; cbn; rewrite ?filter_app; cbn;
              by rewrite ?app_nil_r]);
    (split; [|done]); repeat split; try done;
    unfold factory_calls; cbn; rewrite ?filter_app; cbn;
    by rewrite ?app_nil_r.
Qed.

(** X17.  [CleanUpSession] puts every active connection ID of the closing
    connection in the time-wait list: with the connection's termination
    packets if it has some; else with one CONNECTION_CLOSE for the failed
    handshake if the handshake is not complete, under
    SEND_TERMINATION_PACKETS; else for a stateless reset.  The connection
    leaves the list of blocked writers; nothing is written, and sessions,
    session map and store stay as they were. *)
Theorem CleanUpSession_time_wait (server_connection_id : QuicConnectionId)
    (session : nat) (s : DispatcherWithLists) :
  let c := connection session in
  let s' := CleanUpSession X connection server_connection_id session s in
  (∀ cid,
     cid ∈ GetActiveServerConnectionIds c →
     time_wait_list_manager_ (dispatcher s') !! cid
     = Some (time_wait_entry_of X server_connection_id c))
  ∧ (∀ cid,
       cid ∉ GetActiveServerConnectionIds c →
       time_wait_list_manager_ (dispatcher s') !! cid
       = time_wait_list_manager_ (dispatcher s) !! cid)
  ∧ (ConnectionWriter session ∉ write_blocked_list_ s')
  ∧ (∀ w, w ≠ ConnectionWriter session →
          w ∈ write_blocked_list_ s' ↔ w ∈ write_blocked_list_ s)
  ∧ written (dispatcher s') = written (dispatcher s)
  ∧ sessions (dispatcher s') = sessions (dispatcher s)
  ∧ reference_counted_session_map_ (dispatcher s')
    = reference_counted_session_map_ (dispatcher s)
  ∧ buffered_packets_ (dispatcher s') = buffered_packets_ (dispatcher s).
Proof.
  destruct (CleanUpSession_effect server_connection_id session s)
    as (Htw & Hwbl & _ & _ & [(_ & Hmap & _) Hstore] & Hwritten & Hsessions).
  cbn zeta. split; [|split; [|split; [|split]]].
  - intros cid Hin. by rewrite Htw, bool_decide_eq_true_2.
  - intros cid Hout. by rewrite Htw, bool_decide_eq_false_2.
  - rewrite Hwbl, elem_of_erase_writer. by intros [_ ?].
  - intros w Hne. rewrite Hwbl, elem_of_erase_writer. tauto.
  - done.
Qed.

(** X19.  [OnConnectionClosed] for a connection ID that the session map does
    not hold reports the two bugs and changes nothing else. *)
Theorem OnConnectionClosed_unknown_connection
    (server_connection_id : QuicConnectionId) (s : DispatcherWithLists) :
  reference_counted_session_map_ (dispatcher s) !! server_connection_id
  = None →
  ∃ s',
    OnConnectionClosed X connection server_connection_id s = (s', false)
    ∧ log (dispatcher s')
      = log (dispatcher s)
        ++ [QuicBug "quic_bug_10287_3"; QuicBug "quic_bug_10287_4"]
    ∧ set_log (log (dispatcher s)) (dispatcher s') = dispatcher s
    ∧ write_blocked_list_ s' = write_blocked_list_ s
    ∧ closed_session_list_ s' = closed_session_list_ s
    ∧ delete_sessions_alarm_ s' = delete_sessions_alarm_ s.
Proof.
  intros Hnone. unfold OnConnectionClosed. rewrite Hnone.
  eexists. split; [done|]. cbn. rewrite <- app_assoc.
  split; [done|]. split; [|done]. by destruct (dispatcher s).
Qed.

Lemma OnConnectionClosed_found (server_connection_id : QuicConnectionId)
    (session : nat) (s : DispatcherWithLists) :
  reference_counted_session_map_ (dispatcher s) !! server_connection_id
  = Some session →
  ∃ s',
    OnConnectionClosed X connection server_connection_id s
    = (s', bool_decide
             (server_connection_id
              ∉ GetActiveServerConnectionIds (connection session)))
    ∧ (∀ cid,
         cid ∈ GetActiveServerConnectionIds (connection session) →
         reference_counted_session_map_ (dispatcher s') !! cid = None
         ∧ time_wait_list_manager_ (dispatcher s') !! cid
           = Some (time_wait_entry_of X server_connection_id
                     (connection session)))
    ∧ (∀ cid,
         cid ∉ GetActiveServerConnectionIds (connection session) →
         reference_counted_session_map_ (dispatcher s') !! cid
         = reference_counted_session_map_ (dispatcher s) !! cid)
    ∧ closed_session_list_ s' = closed_session_list_ s ++ [session]
    ∧ delete_sessions_alarm_ s'
      = match closed_session_list_ s with
        | [] => Some (now (dispatcher s))
        | _ :: _ => delete_sessions_alarm_ s
        end
    ∧ (0 < num_sessions_in_session_map_ (dispatcher s) < 2 ^ 64 →
       num_sessions_in_session_map_ (dispatcher s')
       = num_sessions_in_session_map_ (dispatcher s) - 1)
    ∧ (ConnectionWriter session ∉ write_blocked_list_ s')
    ∧ sessions (dispatcher s') = sessions (dispatcher s)
    ∧ written (dispatcher s') = written (dispatcher s)
    ∧ buffered_packets_ (dispatcher s') = buffered_packets_ (dispatcher s).
Proof.
  intros Hfound. unfold OnConnectionClosed. rewrite Hfound.
  cbn zeta.
  eexists. split; [reflexivity|].
  set (s2 := with_closed_session_list _ _).
  destruct (CleanUpSession_effect server_connection_id session s2)
    as (Htw & Hwbl & Hclosed & Halarm & [(_ & Hmap & Hnum & _) Hstore]
        & Hwritten & Hsessions).
  cbn zeta in Htw, Hwbl, Hclosed, Halarm, Hnum, Hwritten, Hsessions, Hmap,
    Hstore.
  assert (dispatcher s2 = dispatcher s) as Hd
    by (subst s2; by destruct (closed_session_list_ s)).
  cbn [dispatcher with_dispatcher write_blocked_list_ closed_session_list_
       delete_sessions_alarm_ reference_counted_session_map_
       set_num_sessions_in_session_map set_reference_counted_session_map
       time_wait_list_manager_ num_sessions_in_session_map_ sessions
       buffered_packets_].
  split; [|split; [|split; [|split; [|split; [|split; [|split; [|split]]]]]]].
  - intros cid Hin. rewrite lookup_foldl_delete, bool_decide_eq_true_2 by done.
    split; [done|]. by rewrite Htw, bool_decide_eq_true_2.
  - intros cid Hout.
    rewrite lookup_foldl_delete, bool_decide_eq_false_2 by done.
    by rewrite Hmap, Hd.
  - rewrite Hclosed. subst s2.
    destruct (closed_session_list_ s) eqn:Hc; cbn; by rewrite ?Hc.
  - rewrite Halarm. subst s2.
    destruct (closed_session_list_ s) eqn:Hc; cbn; by rewrite ?Hc.
  - rewrite Hnum, Hd. intros Hrange.
    rewrite N.add_sub_assoc by lia.
    replace (num_sessions_in_session_map_ (dispatcher s) + 2 ^ 64 - 1)
      with (num_sessions_in_session_map_ (dispatcher s) - 1 + 1 * 2 ^ 64)
      by lia.
    rewrite N.Div0.mod_add. apply N.mod_small. lia.
  - rewrite Hwbl, elem_of_erase_writer. by intros [_ ?].
  - by rewrite Hsessions, Hd.
  - unfold written in *. cbn [log set_num_sessions_in_session_map
      set_reference_counted_session_map]. by rewrite Hwritten, Hd.
  - by rewrite Hstore, Hd.
Qed.

(** X18.  [OnConnectionClosed] for a session of the map whose connection
    counts the connection ID among its active ones: no active connection ID of
    the connection names a session any more, and each is in the time-wait
    list; the other connection IDs keep their sessions; the session joins the
    closed ones, for which the alarm is set to now if there were none; one
    session less is counted; the connection is not a blocked writer; nothing
    is written, and no entry of the map is left with a null pointer. *)
Theorem OnConnectionClosed_closes (server_connection_id : QuicConnectionId)
    (session : nat) (s : DispatcherWithLists) :
  reference_counted_session_map_ (dispatcher s) !! server_connection_id
  = Some session →
  server_connection_id ∈ GetActiveServerConnectionIds (connection session) →
  ∃ s',
    OnConnectionClosed X connection server_connection_id s = (s', false)
    ∧ (∀ cid,
         cid ∈ GetActiveServerConnectionIds (connection session) →
         reference_counted_session_map_ (dispatcher s') !! cid = None
         ∧ time_wait_list_manager_ (dispatcher s') !! cid
           = Some (time_wait_entry_of X server_connection_id
                     (connection session)))
    ∧ (∀ cid,
         cid ∉ GetActiveServerConnectionIds (connection session) →
         reference_counted_session_map_ (dispatcher s') !! cid
         = reference_counted_session_map_ (dispatcher s) !! cid)
    ∧ closed_session_list_ s' = closed_session_list_ s ++ [session]
    ∧ delete_sessions_alarm_ s'
      = match closed_session_list_ s with
        | [] => Some (now (dispatcher s))
        | _ :: _ => delete_sessions_alarm_ s
        end
    ∧ (0 < num_sessions_in_session_map_ (dispatcher s) < 2 ^ 64 →
       num_sessions_in_session_map_ (dispatcher s')
       = num_sessions_in_session_map_ (dispatcher s) - 1)
    ∧ (ConnectionWriter session ∉ write_blocked_list_ s')
    ∧ sessions (dispatcher s') = sessions (dispatcher s)
    ∧ written (dispatcher s') = written (dispatcher s).
Proof.
  intros Hfound Hactive.
  destruct (OnConnectionClosed_found server_connection_id session s Hfound)
    as (s' & Hclose & Hin & Hout & Hclosed & Halarm & Hnum & Hwbl & Hsessions
        & Hwritten & _).
  rewrite bool_decide_eq_false_2 in Hclose by (by intros Hout').
  exists s'. split; [done|]. split; [done|]. split; [done|].
  split; [done|]. split; [done|]. split; [done|]. split; [done|]. by split.
Qed.

Lemma erase_writer_absent (writer : QuicBlockedWriter)
    (l : list QuicBlockedWriter) :
  writer ∉ l → erase_writer writer l = (l, 0%nat).
Proof.
  unfold erase_writer. induction l as [|w l IH]; [done|].
  intros Hout. apply not_elem_of_cons in Hout as [Hne Hout].
  rewrite !filter_cons.
  destruct (decide (w ≠ writer)) as [_|Hnn]; [|destruct Hnn; congruence].
  destruct (decide (w = writer)); [congruence|].
  specialize (IH Hout). injection IH as -> ->. done.
Qed.

Lemma erase_closed_session_effect (s : DispatcherWithLists) (session : nat) :
  let s1 := erase_closed_session s session in
  (∀ w, w ∈ write_blocked_list_ s1
        ↔ w ∈ write_blocked_list_ s ∧ w ≠ ConnectionWriter session)
  ∧ closed_session_list_ s1 = closed_session_list_ s
  ∧ delete_sessions_alarm_ s1 = delete_sessions_alarm_ s
  ∧ calm (dispatcher s) (dispatcher s1)
  ∧ sessions (dispatcher s1) = sessions (dispatcher s)
  ∧ written (dispatcher s1) = written (dispatcher s)
  ∧ (ConnectionWriter session ∉ write_blocked_list_ s → s1 = s).
Proof.
  unfold erase_closed_session.
  pose proof (elem_of_erase_writer (ConnectionWriter session)) as Helem.
  pose proof (erase_writer_absent (ConnectionWriter session)
                (write_blocked_list_ s)) as Habsent.
  destruct (erase_writer _ _) as [l erased] eqn:Herase.
  assert (∀ w, w ∈ l ↔ w ∈ write_blocked_list_ s
                       ∧ w ≠ ConnectionWriter session) as Hl.
  { intros w. rewrite <- Helem. by rewrite Herase. }
  cbn zeta. split; [intros w; rewrite <- Hl; by destruct (bool_decide _)|].
  destruct (bool_decide (erased ≠ 0%nat)) eqn:Hbug; cbn.
  - split; [done|]. split; [done|]. split; [apply calm_quic_bug|].
    split; [done|]. split.
    { unfold written. cbn. rewrite filter_app. cbn. by rewrite app_nil_r. }
    intros Hout. apply Habsent in Hout. injection Hout as -> ->.
    by apply bool_decide_eq_true in Hbug.
  - split; [done|]. split; [done|]. split; [apply calm_refl|].
    split; [done|]. split; [done|].
    intros Hout. apply Habsent in Hout. injection Hout as -> _.
    by destruct s.
Qed.

Lemma DeleteSessions_loop (closed : list nat) (s : DispatcherWithLists) :
  let s' := foldl erase_closed_session s closed in
  (∀ w, w ∈ write_blocked_list_ s'
        ↔ w ∈ write_blocked_list_ s
          ∧ ∀ session, session ∈ closed → w ≠ ConnectionWriter session)
  ∧ closed_session_list_ s' = closed_session_list_ s
  ∧ delete_sessions_alarm_ s' = delete_sessions_alarm_ s
  ∧ calm (dispatcher s) (dispatcher s')
  ∧ sessions (dispatcher s') = sessions (dispatcher s)
  ∧ written (dispatcher s') = written (dispatcher s)
  ∧ ((∀ session, session ∈ closed →
                 ConnectionWriter session ∉ write_blocked_list_ s) →
     dispatcher s' = dispatcher s
     ∧ write_blocked_list_ s' = write_blocked_list_ s).
Proof.
  revert s. induction closed as [|session closed IH]; intros s.
  - cbn. split; [|by repeat split; try apply calm_refl].
    intros w. split; [|by intros [? _]]. intros Hin. split; [done|].
    by intros session ?%elem_of_nil.
  - cbn [foldl]. cbn zeta in IH.
    destruct (erase_closed_session_effect s session)
      as (Hw1 & Hc1 & Ha1 & Hcalm1 & Hs1 & Hwr1 & Hsame1).
    cbn zeta in Hw1, Hc1, Ha1, Hcalm1, Hs1, Hwr1, Hsame1.
    destruct (IH (erase_closed_session s session))
      as (Hw & Hc & Ha & Hcalm & Hs & Hwr & Hsame).
    split; [|split; [|split; [|split; [|split; [|split]]]]].
    + intros w. rewrite Hw, Hw1. split.
      * intros [[Hin Hne] Hrest]. split; [done|].
        intros h [->|Hh]%elem_of_cons; auto.
      * intros [Hin Hall]. split; [split; [done|]|].
        -- apply Hall. left.
        -- intros h Hh. apply Hall. by right.
    + by rewrite Hc.
    + by rewrite Ha.
    + by eapply calm_trans.
    + by rewrite Hs.
    + by rewrite Hwr.
    + intros Hnone.
      assert (erase_closed_session s session = s) as Heq
        by (apply Hsame1, Hnone; left).
      rewrite Heq in Hsame |- *. apply Hsame.
      intros h Hh. apply Hnone. by right.
Qed.

(** X21.  [DeleteSessions] empties the list of closed sessions and takes their
    connections off the list of blocked writers, which keeps every other
    writer; only the log can change, by the reports of a connection found
    blocked, and nothing changes when none is. *)
Theorem DeleteSessions_outcome (s : DispatcherWithLists) :
  let s' := DeleteSessions s in
  closed_session_list_ s' = []
  ∧ (∀ w, w ∈ write_blocked_list_ s'
          ↔ w ∈ write_blocked_list_ s
            ∧ ∀ session, session ∈ closed_session_list_ s →
                         w ≠ ConnectionWriter session)
  ∧ delete_sessions_alarm_ s' = delete_sessions_alarm_ s
  ∧ sessions (dispatcher s') = sessions (dispatcher s)
  ∧ reference_counted_session_map_ (dispatcher s')
    = reference_counted_session_map_ (dispatcher s)
  ∧ written (dispatcher s') = written (dispatcher s)
  ∧ ((∀ session, session ∈ closed_session_list_ s →
                 ConnectionWriter session ∉ write_blocked_list_ s) →
     dispatcher s' = dispatcher s
     ∧ write_blocked_list_ s' = write_blocked_list_ s).
Proof.
  unfold DeleteSessions. cbn zeta.
  destruct (bool_decide (write_blocked_list_ s = [])) eqn:Hempty;
    cbn [negb].
  - apply bool_decide_eq_true in Hempty. cbn. rewrite Hempty.
    split; [done|]. split; [|by repeat split].
    intros w. split; [by intros ?%elem_of_nil|by intros [?%elem_of_nil _]].
  - destruct (DeleteSessions_loop (closed_session_list_ s) s)
      as (Hw & _ & Ha & [(_ & Hm & _) _] & Hs & Hwr & Hsame).
    cbn zeta in Hw, Ha, Hm, Hs, Hwr, Hsame.
    cbn [closed_session_list_ write_blocked_list_ dispatcher
         delete_sessions_alarm_ with_closed_session_list].
    split; [done|]. split; [done|]. split; [done|]. split; [done|].
    split; [done|]. split; [done|]. done.
Qed.

(** X22.  A writer that says it is not blocked is reported and not added.  A
    blocked writer is on the list afterwards, once, behind those that were
    there; adding it again changes nothing. *)
Theorem OnWriteBlocked_outcome (blocked_writer : QuicBlockedWriter)
    (is_writer_blocked : bool) (s : DispatcherWithLists) :
  let s' := OnWriteBlocked blocked_writer is_writer_blocked s in
  (is_writer_blocked = false →
   write_blocked_list_ s' = write_blocked_list_ s
   ∧ log (dispatcher s')
     = log (dispatcher s) ++ [QuicBug "quic_bug_12724_4"])
  ∧ (is_writer_blocked = true →
     dispatcher s' = dispatcher s
     ∧ HasPendingWrites s' = true
     ∧ write_blocked_list_ s'
       = (if bool_decide (blocked_writer ∈ write_blocked_list_ s)
          then write_blocked_list_ s
          else write_blocked_list_ s ++ [blocked_writer])
     ∧ (NoDup (write_blocked_list_ s) → NoDup (write_blocked_list_ s'))
     ∧ OnWriteBlocked blocked_writer true s' = s')
  ∧ closed_session_list_ s' = closed_session_list_ s
  ∧ delete_sessions_alarm_ s' = delete_sessions_alarm_ s.
Proof.
  unfold OnWriteBlocked. destruct is_writer_blocked; cbn [negb].
  2: { by cbn. }
  split; [done|]. split; [|by destruct (bool_decide _)]. intros _.
  destruct (bool_decide (blocked_writer ∈ write_blocked_list_ s)) eqn:Hin.
  - rewrite Hin. apply bool_decide_eq_true in Hin.
    repeat split; try done.
    unfold HasPendingWrites. apply negb_true_iff, bool_decide_eq_false_2.
    intros Hnil. rewrite Hnil in Hin. by apply elem_of_nil in Hin.
  - apply bool_decide_eq_false in Hin. cbn.
    split; [done|]. split.
    { unfold HasPendingWrites. cbn. apply negb_true_iff,
        bool_decide_eq_false_2. by destruct (write_blocked_list_ s). }
    split; [done|]. split.
    { intros Hnodup. apply NoDup_app. split; [done|].
      split; [|apply NoDup_singleton].
      by intros w Hw ->%list_elem_of_singleton. }
    rewrite bool_decide_eq_true_2; [done|].
    apply elem_of_app. right. by apply list_elem_of_singleton.
Qed.

(** X20.  When no session was waiting to be destroyed, the [DeleteSessions]
    that follows [OnConnectionClosed] finds nothing to report, whatever the
    connection ID that was closed: the connection that was closed was taken
    off the list of blocked writers when it closed. *)
Theorem closed_session_deleted_quietly
    (server_connection_id : QuicConnectionId) (s : DispatcherWithLists) :
  closed_session_list_ s = [] →
  let s1 := (OnConnectionClosed X connection server_connection_id s).1 in
  dispatcher (DeleteSessions s1) = dispatcher s1
  ∧ write_blocked_list_ (DeleteSessions s1) = write_blocked_list_ s1
  ∧ closed_session_list_ (DeleteSessions s1) = [].
Proof.
  intros Hnone. unfold OnConnectionClosed.
  destruct (reference_counted_session_map_ (dispatcher s) !! _)
    as [session|].
  2: { cbn [fst]. unfold DeleteSessions. cbn. rewrite Hnone.
       by destruct (negb _). }
  cbn zeta. cbn [fst].
  set (s2 := with_closed_session_list _ _).
  destruct (CleanUpSession_effect server_connection_id session s2)
    as (_ & Hwbl & Hclosed & _).
  cbn zeta in Hwbl, Hclosed.
  set (s4 := with_dispatcher _ _).
  assert (closed_session_list_ s4 = [session]) as Hc4.
  { subst s4. cbn [closed_session_list_ with_dispatcher]. rewrite Hclosed.
    subst s2. rewrite Hnone. cbn. by rewrite Hnone. }
  assert (ConnectionWriter session ∉ write_blocked_list_ s4) as Hw4.
  { subst s4. cbn [write_blocked_list_ with_dispatcher].
    rewrite Hwbl, elem_of_erase_writer. by intros [_ ?]. }
  clearbody s4. unfold DeleteSessions.
  cbn [closed_session_list_ write_blocked_list_ dispatcher
       with_closed_session_list].
  destruct (negb _); [|done]. rewrite Hc4. cbn [foldl].
  destruct (erase_closed_session_effect s4 session)
    as (_ & _ & _ & _ & _ & _ & Hsame).
  by rewrite (Hsame Hw4).
Qed.

End ClosingSessionsProperties.

Lemma sublist_same_length {A} (l k : list A) :
  l `sublist_of` k → length l = length k → l = k.
Proof.
  induction 1 as [|x l k Hsub IH|x l k Hsub IH]; cbn; intros Hlen.
  - done.
  - f_equal. apply IH. lia.
  - apply sublist_length in Hsub. lia.
Qed.

Section BlockedWriters.

Variable OnBlockedWriterCanWrite :
  QuicBlockedWriter → DispatcherWithLists → DispatcherWithLists.

(** Every writer, when told that it can write, is blocked again and puts
    itself back with [OnWriteBlocked], or is not and leaves the dispatcher
    alone. *)
Hypothesis blocked_again_or_done :
  ∀ w s,
    OnBlockedWriterCanWrite w s = OnWriteBlocked w true s
    ∨ OnBlockedWriterCanWrite w s = s.

Lemma OnCanWrite_loop (temp_list : list QuicBlockedWriter)
    (s : DispatcherWithLists) (called : list QuicBlockedWriter) :
  write_blocked_list_ s `sublist_of` called →
  let s' :=
    foldl (λ s' blocked_writer, OnBlockedWriterCanWrite blocked_writer s')
      s temp_list in
  write_blocked_list_ s' `sublist_of` called ++ temp_list
  ∧ dispatcher s' = dispatcher s
  ∧ closed_session_list_ s' = closed_session_list_ s
  ∧ delete_sessions_alarm_ s' = delete_sessions_alarm_ s.
Proof.
  revert s called.
  induction temp_list as [|w temp_list IH]; intros s called Hsub.
  - cbn. by rewrite app_nil_r.
  - cbn [foldl]. cbn zeta.
    assert (write_blocked_list_ (OnBlockedWriterCanWrite w s)
              `sublist_of` called ++ [w]
            ∧ dispatcher (OnBlockedWriterCanWrite w s) = dispatcher s
            ∧ closed_session_list_ (OnBlockedWriterCanWrite w s)
              = closed_session_list_ s
            ∧ delete_sessions_alarm_ (OnBlockedWriterCanWrite w s)
              = delete_sessions_alarm_ s) as (Hstep & Hd & Hc & Ha).
    { destruct (blocked_again_or_done w s) as [-> | ->].
      - unfold OnWriteBlocked. cbn [negb].
        destruct (bool_decide _); cbn.
        + split; [by apply sublist_inserts_r|done].
        + split; [by apply sublist_app|done].
      - split; [by apply sublist_inserts_r|done]. }
    destruct (IH _ _ Hstep) as (Hsub' & Hd' & Hc' & Ha').
    rewrite <- app_assoc in Hsub'. cbn in Hsub'.
    by rewrite Hd', Hc', Ha'.
Qed.

(** X23.  [OnCanWrite], when every writer either blocks again or is done: the
    writers that wait afterwards are among those that waited, in their old
    order; nothing is counted when none waits, quic_zero_progress_on_can_write
    when all of them wait again, and quic_blocked_again_on_can_write
    otherwise; nothing else changes. *)
Theorem OnCanWrite_outcome (s : DispatcherWithLists) :
  let s' := OnCanWrite OnBlockedWriterCanWrite s in
  write_blocked_list_ s' `sublist_of` write_blocked_list_ s
  ∧ dispatcher s'
    = (if bool_decide (write_blocked_list_ s' = []) then dispatcher s
       else code_count
              (if bool_decide (write_blocked_list_ s' = write_blocked_list_ s)
               then "quic_zero_progress_on_can_write"
               else "quic_blocked_again_on_can_write") (dispatcher s))
  ∧ closed_session_list_ s' = closed_session_list_ s
  ∧ delete_sessions_alarm_ s' = delete_sessions_alarm_ s.
Proof.
  unfold OnCanWrite. cbn zeta.
  destruct (OnCanWrite_loop (write_blocked_list_ s)
              (with_write_blocked_list [] s) [])
    as (Hsub & Hd & Hc & Ha); [done|].
  cbn zeta in Hsub, Hd, Hc, Ha. cbn [app] in Hsub.
  set (s2 := foldl _ _ _) in *.
  cbn [dispatcher closed_session_list_ delete_sessions_alarm_
       with_write_blocked_list] in Hd, Hc, Ha.
  destruct (write_blocked_list_ s2) as [|w after] eqn:Hafter.
  { rewrite bool_decide_eq_false_2 by (intros Hne; by apply Hne).
    rewrite Hafter. by rewrite bool_decide_eq_true_2. }
  rewrite bool_decide_eq_true_2 by done.
  cbn [write_blocked_list_ dispatcher with_dispatcher closed_session_list_
       delete_sessions_alarm_].
  rewrite Hafter, Hd. split; [done|]. split; [|done].
  rewrite (bool_decide_eq_false_2 (w :: after = [])) by done.
  destruct (decide (length (write_blocked_list_ s) = length (w :: after)))
    as [Hlen|Hlen].
  - rewrite bool_decide_eq_true_2 by done.
    rewrite bool_decide_eq_true_2; [done|].
    by apply sublist_same_length.
  - rewrite bool_decide_eq_false_2 by done.
    rewrite bool_decide_eq_false_2; [done|]. intros Heq.
    by rewrite Heq in Hlen.
Qed.

End BlockedWriters.

(** ** Dispatch *)

Section Dispatch.

Variable X : Externals.
Variable F : Flags.


(** X9.  [MaybeResetPacketsWithNoVersion] writes nothing, or one stateless
    reset to the sender of the packet.  It writes only to an address it has
    not recorded, while it holds fewer addresses than the flag allows, and
    only for a packet longer than the shortest stateless reset (or, with a
    Google QUIC header, not shorter than the shortest valid packet); then it
    records the address, and sets the alarm if the address is the first.  The
    recorded addresses never outgrow the limit of the flag. *)
Theorem MaybeResetPacketsWithNoVersion_outcome (pi : ReceivedPacketInfo)
    (d : Dispatcher) :
  let d' := MaybeResetPacketsWithNoVersion X F pi d in
  let limit := FLAGS_quic_max_recent_stateless_reset_addresses F in
  (written d' = written d
   ∧ recent_stateless_reset_addresses_ d' = recent_stateless_reset_addresses_ d
   ∧ clear_stateless_reset_addresses_alarm_ d'
     = clear_stateless_reset_addresses_alarm_ d
   ∨ written d'
     = written d
       ++ [WritePacket (self_address pi) (peer_address pi)
             (PublicResetPacket (destination_connection_id pi)
                (bool_decide (form pi ≠ GOOGLE_QUIC_PACKET))
                (packet_length (packet pi)))]
     ∧ recent_stateless_reset_addresses_ d'
       = {[peer_address pi]} ∪ recent_stateless_reset_addresses_ d
     ∧ clear_stateless_reset_addresses_alarm_ d'
       = (if bool_decide (recent_stateless_reset_addresses_ d = ∅)
          then Some (now d
                     + FLAGS_quic_recent_stateless_reset_addresses_lifetime_ms
                         F)
          else clear_stateless_reset_addresses_alarm_ d)
     ∧ (peer_address pi ∉ recent_stateless_reset_addresses_ d)
     ∧ N.of_nat (size (recent_stateless_reset_addresses_ d)) < limit
     ∧ (if bool_decide (form pi = GOOGLE_QUIC_PACKET)
        then kPacketHeaderTypeSize X + expected_server_connection_id_length_ d
             + PACKET_1BYTE_PACKET_NUMBER + 1 + 12
             ≤ packet_length (packet pi)
        else GetMinStatelessResetPacketLength X < packet_length (packet pi)))
  ∧ (N.of_nat (size (recent_stateless_reset_addresses_ d)) ≤ limit →
     N.of_nat (size (recent_stateless_reset_addresses_ d')) ≤ limit).
Proof.
  unfold MaybeResetPacketsWithNoVersion. cbn zeta.
  assert (∀ name, written (code_count name d) = written d) as Hcount.
  { intros name. unfold written. cbn. rewrite filter_app. cbn.
    by rewrite app_nil_r. }
  set (d1 := if bool_decide (recent_stateless_reset_addresses_ d = ∅)
             then _ else d).
  assert (log d1 = log d
          ∧ recent_stateless_reset_addresses_ d1
            = recent_stateless_reset_addresses_ d
          ∧ clear_stateless_reset_addresses_alarm_ d1
            = (if bool_decide (recent_stateless_reset_addresses_ d = ∅)
               then Some (now d
                          + FLAGS_quic_recent_stateless_reset_addresses_lifetime_ms
                              F)
               else clear_stateless_reset_addresses_alarm_ d))
    as (Hlog1 & Hrecent1 & Halarm1)
    by (subst d1; by destruct (bool_decide _)).
  clearbody d1.
  assert (∀ ietf,
            let d' :=
              SendPublicReset (self_address pi) (peer_address pi)
                (destination_connection_id pi) ietf
                (packet_length (packet pi))
                (set_recent_stateless_reset_addresses
                   ({[peer_address pi]}
                    ∪ recent_stateless_reset_addresses_ d1) d1) in
            written d'
            = written d
              ++ [WritePacket (self_address pi) (peer_address pi)
                    (PublicResetPacket (destination_connection_id pi) ietf
                       (packet_length (packet pi)))]
            ∧ recent_stateless_reset_addresses_ d'
              = {[peer_address pi]} ∪ recent_stateless_reset_addresses_ d
            ∧ clear_stateless_reset_addresses_alarm_ d'
              = (if bool_decide (recent_stateless_reset_addresses_ d = ∅)
                 then Some (now d
                            + FLAGS_quic_recent_stateless_reset_addresses_lifetime_ms
                                F)
                 else clear_stateless_reset_addresses_alarm_ d)) as Hsend.
  { intros ietf. unfold SendPublicReset, write_packet, written. cbn.
    rewrite filter_app, Hlog1, Hrecent1, Halarm1. by repeat split. }
  destruct (bool_decide (peer_address pi ∈ _)) eqn:Hrecent;
    [split; [left; by rewrite Hcount|done]|].
  apply bool_decide_eq_false in Hrecent.
  destruct (bool_decide (form pi ≠ GOOGLE_QUIC_PACKET)) eqn:Hform;
    cbn [andb].
  - apply bool_decide_eq_true in Hform.
    rewrite (bool_decide_eq_false_2 (form pi = GOOGLE_QUIC_PACKET)) by done.
    cbn [andb].
    destruct (_ <=? _) eqn:Hsmall;
      [split; [left; by rewrite Hcount|done]|].
    apply N.leb_gt in Hsmall.
    destruct (_ <=? _) eqn:Hmany;
      [split; [left; by rewrite Hcount|done]|].
    apply N.leb_gt in Hmany.
    destruct (Hsend true) as (Hw & Hr & Ha). split.
    + right. by rewrite Hw, Hr, Ha.
    + intros _. rewrite Hr, size_union by (by apply disjoint_singleton_l).
      rewrite size_singleton. lia.
  - apply bool_decide_eq_false in Hform.
    assert (form pi = GOOGLE_QUIC_PACKET) as Hgoogle
      by (by destruct (decide (form pi = GOOGLE_QUIC_PACKET));
          [|destruct Hform]).
    rewrite (bool_decide_eq_true_2 (form pi = GOOGLE_QUIC_PACKET)) by done.
    cbn [andb].
    destruct (_ <? _) eqn:Hsmall;
      [split; [left; by rewrite Hcount|done]|].
    apply N.ltb_ge in Hsmall.
    destruct (_ <=? _) eqn:Hmany;
      [split; [left; by rewrite Hcount|done]|].
    apply N.leb_gt in Hmany.
    destruct (Hsend false) as (Hw & Hr & Ha). split.
    + right. by rewrite Hw, Hr, Ha.
    + intros _. rewrite Hr, size_union by (by apply disjoint_singleton_l).
      rewrite size_singleton. lia.
Qed.

(** X10.  [MaybeHandleLegacyVersionEncapsulation] hands a datagram back to
    [ProcessPacket] only for an inner packet that is not empty, parses, has
    the destination connection ID of the outer packet and is shorter than it.
    The datagram handed back is the inner packet followed by zero octets up to
    the length of the outer datagram, with its receipt time and its addresses.
    In every other case the answer is false, whatever [ProcessPacket] would
    do, and nothing changes but for one report. *)
Theorem MaybeHandleLegacyVersionEncapsulation_outcome reenter
    (inner_packet : list N) (pi : ReceivedPacketInfo) (d d' : Dispatcher)
    (handled : bool) :
  MaybeHandleLegacyVersionEncapsulation X reenter inner_packet pi d
  = Some (d', handled) →
  if handled then
    ∃ p d1,
      reenter (self_address pi) (peer_address pi) p d = Some d1
      ∧ d' = code_count "quic_legacy_version_encapsulation_decapsulated" d1
      ∧ data p
        = inner_packet
          ++ replicate (length (data (packet pi)) - length inner_packet) 0
      ∧ length (data p) = length (data (packet pi))
      ∧ receipt_time p = receipt_time (packet pi)
      ∧ inner_packet ≠ []
      ∧ (length inner_packet < length (data (packet pi)))%nat
      ∧ (ParsePublicHeaderDispatcher X inner_packet
           (kQuicDefaultConnectionIdLength X)).1 = QUIC_NO_ERROR
      ∧ ph_destination_connection_id
          (ParsePublicHeaderDispatcher X inner_packet
             (kQuicDefaultConnectionIdLength X)).2
        = destination_connection_id pi
  else
    (d' = d ∨ d' = quic_bug "quic_bug_10287_2" d)
    ∧ ∀ other,
        MaybeHandleLegacyVersionEncapsulation X other inner_packet pi d
        = Some (d', false).
Proof.
  unfold MaybeHandleLegacyVersionEncapsulation.
  destruct inner_packet as [|octet inner];
    [intros [= <- <-]; by split; [left|]|].
  destruct (ParsePublicHeaderDispatcher X _ _) as [error header].
  destruct (bool_decide (error ≠ QUIC_NO_ERROR)) eqn:Herror;
    [intros [= <- <-]; by split; [left|]|].
  destruct (bool_decide (_ ≠ destination_connection_id pi)) eqn:Hcid;
    [intros [= <- <-]; by split; [left|]|].
  destruct (_ <=? _) eqn:Hlen; [intros [= <- <-]; by split; [right|]|].
  destruct (reenter _ _ _ _) as [d1|] eqn:Hre; [|done].
  intros [= <- <-]. eexists _, d1. split; [exact Hre|].
  apply bool_decide_eq_false in Herror, Hcid. apply N.leb_gt in Hlen.
  unfold packet_length in Hlen. cbn [data receipt_time fst snd].
  split; [done|]. split; [done|]. split.
  { rewrite length_app, length_replicate. cbn [length] in *. lia. }
  split; [done|]. split; [done|]. split; [cbn [length] in *; lia|].
  split.
  - by destruct (decide (error = QUIC_NO_ERROR)); [|destruct Herror].
  - by destruct (decide (ph_destination_connection_id header
                         = destination_connection_id pi));
      [|destruct Hcid].
Qed.

(** X11.  What [TryExtractChloOrBufferEarlyPacket] hands on as the parsed
    CHLO.  For a version that uses TLS it carries no inner packet and no UAID.
    For the others it has one ALPN, no retry token and attempts neither
    resumption nor early data; it carries an inner packet only if the version
    of the packet has the transport version of the legacy encapsulation, and
    with CHLO buffering off nothing is read from the packet.  While connection
    closes are sent for TLS alerts, an alert and a parsed CHLO never come
    together. *)
Theorem TryExtractChloOrBufferEarlyPacket_result (pi : ReceivedPacketInfo)
    (d : Dispatcher) :
  let r := (TryExtractChloOrBufferEarlyPacket X F pi d).2 in
  (∀ chlo,
     result_parsed_chlo r = Some chlo →
     if UsesTls X (version pi) then
       legacy_version_encapsulation_inner_packet chlo = []
       ∧ uaid chlo = ""
       ∧ chlo_retry_token chlo = default [] (retry_token pi)
     else
       length (alpns chlo) = 1%nat
       ∧ chlo_retry_token chlo = []
       ∧ resumption_attempted chlo = false
       ∧ early_data_attempted chlo = false
       ∧ result_tls_alert r = None
       ∧ (legacy_version_encapsulation_inner_packet chlo ≠ [] →
          transport_version (version pi)
          = transport_version (LegacyVersionForEncapsulation X)
          ∧ FLAGS_quic_allow_chlo_buffering F = true)
       ∧ (FLAGS_quic_allow_chlo_buffering F = false →
          chlo
          = {| sni := ""; uaid := ""; alpns := [""];
               legacy_version_encapsulation_inner_packet := [];
               chlo_retry_token := []; resumption_attempted := false;
               early_data_attempted := false |}))
  ∧ (send_connection_close_for_tls_alerts_ d = true →
     is_Some (result_tls_alert r) → result_parsed_chlo r = None).
Proof.
  unfold TryExtractChloOrBufferEarlyPacket.
  destruct (UsesTls X (version pi)).
  - set (first := if HasBufferedPackets _ _ then _ else _).
    assert (send_connection_close_for_tls_alerts_ first.1
            = send_connection_close_for_tls_alerts_ d) as Hsend.
    { subst first. destruct (HasBufferedPackets _ _); [|done].
      by destruct (IngestPacketForTlsChloExtraction _ _ _ _). }
    destruct first as [d1 r]. cbn [fst] in Hsend. rewrite Hsend.
    destruct (send_connection_close_for_tls_alerts_ d) eqn:Hflag;
      cbn [andb].
    + destruct (bool_decide (is_Some (out_tls_alert r))) eqn:Halert;
        cbn [snd]; [by split|].
      apply bool_decide_eq_false in Halert.
      destruct (negb _); cbn [snd]; [by split|].
      split; [by intros chlo [= <-]|]. intros _ Hsome. by destruct Halert.
    + destruct (negb _); cbn [snd]; [by split|].
      split; [by intros chlo [= <-]|done].
  - destruct (FLAGS_quic_allow_chlo_buffering F) eqn:Hbuffering.
    + unfold Extract.
      destruct (ChloExtractor_Extract X _ _ _ _) as [message|];
        cbn [negb snd]; [|by split].
      destruct (_ && _); cbn [snd]; [by split|].
      split; [|by intros _ [? [=]]].
      intros chlo [= <-]. cbn.
      split; [done|]. split; [done|]. split; [done|]. split; [done|].
      split; [done|]. split; [|done].
      destruct (_ =? _) eqn:Hlegacy; [|done].
      apply N.eqb_eq in Hlegacy. by intros _.
    + cbn [snd]. destruct (_ && _); cbn [snd]; [by split|].
      split; [|by intros _ [? [=]]].
      intros chlo [= <-]. cbn. by repeat split.
Qed.


Lemma MaybeDispatchPacket_without_encapsulation reenter other pi d :
  quic_disable_legacy_version_encapsulation F = true →
  MaybeDispatchPacket X F reenter pi d = MaybeDispatchPacket X F other pi d
  ∧ is_Some (MaybeDispatchPacket X F reenter pi d).
Proof.
  intros Hdisabled. unfold MaybeDispatchPacket. rewrite Hdisabled.
  destruct (IsSourceUdpPortBlocked _); [by split|].
  destruct (_ && _); [by split|]. destruct (_ && _); [by split|].
  destruct (reference_counted_session_map_ d !! _) as [it|].
  - by destruct (_ && _).
  - by destruct (find_replaced_session _ _ _ _).
Qed.

Lemma ProcessHeader_without_encapsulation reenter other pi d :
  quic_disable_legacy_version_encapsulation F = true →
  ProcessHeader X F reenter pi d = ProcessHeader X F other pi d
  ∧ is_Some (ProcessHeader X F reenter pi d).
Proof.
  intros Hdisabled. unfold ProcessHeader, ProcessHeader_fate.
  rewrite Hdisabled.
  destruct (ValidityChecks X F pi d) as [d1 fate].
  destruct fate; [|by split..].
  destruct (TryExtractChloOrBufferEarlyPacket X F pi d1) as [d2 r].
  destruct (if send_connection_close_for_tls_alerts_ d2 then _ else _);
    [by split|].
  destruct (result_parsed_chlo r); [|by split].
  by destruct (bool_decide _).
Qed.

(** X6.  With legacy version encapsulation disabled, [ProcessPacket] never
    calls itself: it comes back for every datagram, at the first level. *)
Theorem ProcessPacket_without_encapsulation (self peer : QuicSocketAddress)
    (p : QuicReceivedPacket) (d : Dispatcher) :
  quic_disable_legacy_version_encapsulation F = true →
  ∃ d',
    ∀ depth, ProcessPacket X F (S depth) self peer p d = Some d'.
Proof.
  intros Hdisabled.
  destruct (ProcessPacket X F 1 self peer p d) as [d'|] eqn:Hone.
  - exists d'. intros depth. rewrite <- Hone. cbn [ProcessPacket].
    destruct (ParsePublicHeaderDispatcher X _ _) as [error header].
    repeat match goal with
           | |- (if ?b then _ else _) = (if ?b then _ else _) =>
               destruct b; [done|]
           end.
    match goal with
    | |- context [MaybeDispatchPacket X F ?r ?pi ?d0] =>
        match goal with
        | |- _ = match MaybeDispatchPacket X F ?r0 _ _ with _ => _ end =>
            destruct (MaybeDispatchPacket_without_encapsulation r r0 pi d0
                        Hdisabled) as [-> _]
        end
    end.
    destruct (MaybeDispatchPacket _ _ _ _ _) as [[d2 [|]]|]; [done| |done].
    match goal with
    | |- ProcessHeader X F ?r ?pi d2 = ProcessHeader X F ?r0 _ _ =>
        by destruct (ProcessHeader_without_encapsulation r r0 pi d2
                       Hdisabled) as [-> _]
    end.
  - exfalso. revert Hone. cbn [ProcessPacket].
    destruct (ParsePublicHeaderDispatcher X _ _) as [error header].
    repeat match goal with
           | |- (if ?b then Some _ else _) = None → _ => destruct b; [done|]
           end.
    match goal with
    | |- context [MaybeDispatchPacket X F ?r ?pi ?d0] =>
        destruct (MaybeDispatchPacket_without_encapsulation r r pi d0
                    Hdisabled) as [_ [[d2 handled] ->]]
    end.
    destruct handled; [done|].
    match goal with
    | |- ProcessHeader X F ?r ?pi d2 = None → _ =>
        by destruct (ProcessHeader_without_encapsulation r r pi d2
                       Hdisabled) as [_ [d3 ->]]
    end.
Qed.

(** X12.  Packets that stayed in the store too long: [OnExpiredPackets] counts
    the expiry and puts the connection ID in the time-wait list with one
    packet to send, a CONNECTION_CLOSE for the failed handshake if the version
    of the list is supported and else a version negotiation without versions.
    The action handed to [StatelesslyTerminateConnection],
    SEND_STATELESS_RESET, is never the one recorded.  Nothing is written, and
    sessions, session map and store stay as they were. *)
Theorem OnExpiredPackets_time_wait (server_connection_id : QuicConnectionId)
    (early_arrived_packets : BufferedPacketList) (d : Dispatcher) :
  let d' := OnExpiredPackets X server_connection_id early_arrived_packets d in
  let v := list_version early_arrived_packets in
  time_wait_list_manager_ d' !! server_connection_id
  = Some
      {| action := SEND_TERMINATION_PACKETS;
         info :=
           {| tw_ietf_quic := ietf_quic early_arrived_packets;
              termination_packets :=
                [if IsSupportedVersion X v then
                   InitialEncryptedPacket v server_connection_id
                     server_connection_id
                     [ConnectionCloseFrame (transport_version v)
                        QUIC_HANDSHAKE_FAILED NO_IETF_QUIC_ERROR
                        "Packets buffered for too long" 0]
                 else
                   VersionNegotiationPacket server_connection_id
                     EmptyQuicConnectionId (ietf_quic early_arrived_packets)
                     (HasLengthPrefixedConnectionIds X v) []];
              active_connection_ids := [server_connection_id];
              srtt := 0 |} |}
  ∧ (∀ other,
       other ≠ server_connection_id →
       time_wait_list_manager_ d' !! other
       = time_wait_list_manager_ d !! other)
  ∧ written d' = written d
  ∧ sessions d' = sessions d
  ∧ reference_counted_session_map_ d' = reference_counted_session_map_ d
  ∧ buffered_packets_ d' = buffered_packets_ d
  ∧ log d'
    = log d
      ++ CodeCount "quic_reject_buffered_packets_expired"
         :: (if IsSupportedVersion X v
             then [CodeCount "quic_dispatcher_generated_connection_close";
                   ConnectionCloseAtServer QUIC_HANDSHAKE_FAILED]
             else []).
Proof.
  unfold OnExpiredPackets. cbn zeta.
  destruct (StatelesslyTerminateConnection_effect X
              (code_count "quic_reject_buffered_packets_expired" d)
              server_connection_id
              (if ietf_quic early_arrived_packets
               then IETF_QUIC_LONG_HEADER_PACKET else GOOGLE_QUIC_PACKET)
              true
              (HasLengthPrefixedConnectionIds X
                 (list_version early_arrived_packets))
              (list_version early_arrived_packets) QUIC_HANDSHAKE_FAILED
              "Packets buffered for too long" SEND_STATELESS_RESET)
    as ((Hs & Hm & _) & Hw & Hb & _ & Hother & Hentry).
  cbn zeta in Hs, Hm, Hw, Hb, Hother, Hentry.
  split.
  { rewrite Hentry. rewrite andb_false_r.
    by destruct (ietf_quic early_arrived_packets). }
  split; [done|]. split.
  { rewrite Hw. unfold written. cbn. rewrite filter_app. cbn.
    by rewrite app_nil_r. }
  split; [done|]. split; [done|]. split; [done|].
  unfold StatelesslyTerminateConnection. cbn [negb andb].
  rewrite andb_false_r.
  destruct (IsSupportedVersion X _); cbn; [|done].
  by rewrite <- !app_assoc.
Qed.

End Dispatch.

(** ** Datagrams written *)

(** ** One answer for one datagram *)











Section OneAnswer.

Variable X : Externals.
Variable F : Flags.















End OneAnswer.

(** ** Routing after a change of the session map *)

Section Routing.

Variable X : Externals.
Variable F : Flags.

Lemma MaybeDispatchPacket_found_without_version reenter pi d session :
  reference_counted_session_map_ d !! destination_connection_id pi
  = Some session →
  IsSourceUdpPortBlocked (port (peer_address pi)) = false →
  version_flag pi = false →
  MaybeDispatchPacket X F reenter pi d
  = Some (ProcessUdpPacket session (self_address pi) (peer_address pi)
            (packet pi) d, true).
Proof.
  intros Hfound Hport Hflag. unfold MaybeDispatchPacket.
  by rewrite Hport, Hflag, Hfound.
Qed.

(** X24.  A packet without the version flag that is addressed to a connection
    ID that [TryAddNewConnectionId] has added is received by the session that
    issued the connection ID, and by no other. *)
Theorem packets_follow_new_connection_id reenter
    (server_connection_id new_connection_id : QuicConnectionId)
    (d d1 : Dispatcher) (pi : ReceivedPacketInfo) :
  TryAddNewConnectionId server_connection_id new_connection_id d
  = (d1, true) →
  destination_connection_id pi = new_connection_id →
  IsSourceUdpPortBlocked (port (peer_address pi)) = false →
  version_flag pi = false →
  ∃ session d2,
    reference_counted_session_map_ d !! server_connection_id = Some session
    ∧ MaybeDispatchPacket X F reenter pi d1 = Some (d2, true)
    ∧ sessions d2
      = alter
          (session_ProcessUdpPacket (self_address pi) (peer_address pi)
             (packet pi)) session (sessions d).
Proof.
  unfold TryAddNewConnectionId. intros Hadd Hcid Hport Hflag.
  destruct (reference_counted_session_map_ d !! server_connection_id)
    as [session|]; [|done].
  destruct (reference_counted_session_map_ d !! new_connection_id); [done|].
  injection Hadd as <-. exists session. eexists. split; [done|].
  split.
  - apply MaybeDispatchPacket_found_without_version; [|done..].
    cbn. by rewrite Hcid, lookup_insert_eq.
  - reflexivity.
Qed.

Variable connection : nat → QuicConnection.

(** X25.  After [OnConnectionClosed] for a connection ID that names a
    session and that the connection of the session counts among its active
    ones, a packet without the version flag for that connection ID, for
    which no CHLO is buffered, reaches no session: with the restart flag
    quic_map_original_connection_ids2 on, it is answered from the time-wait
    list, with what [CleanUpSession] left there. *)
Theorem closed_connection_answered_from_time_wait reenter
    (server_connection_id : QuicConnectionId) (session : nat)
    (s : DispatcherWithLists) (pi : ReceivedPacketInfo) :
  reference_counted_session_map_ (dispatcher s) !! server_connection_id
  = Some session →
  server_connection_id ∈ GetActiveServerConnectionIds (connection session) →
  quic_map_original_connection_ids2 F = true →
  HasChloForConnection (buffered_packets_ (dispatcher s))
    server_connection_id = false →
  destination_connection_id pi = server_connection_id →
  IsSourceUdpPortBlocked (port (peer_address pi)) = false →
  version_flag pi = false →
  let s1 := (OnConnectionClosed X connection server_connection_id s).1 in
  (OnConnectionClosed X connection server_connection_id s).2 = false
  ∧ ∃ d2,
      MaybeDispatchPacket X F reenter pi (dispatcher s1) = Some (d2, true)
      ∧ written d2
        = written (dispatcher s)
          ++ answer_of (self_address pi) (peer_address pi)
               server_connection_id (packet_length (packet pi))
               (time_wait_entry_of X server_connection_id
                  (connection session))
      ∧ sessions d2 = sessions (dispatcher s)
      ∧ reference_counted_session_map_ d2 !! server_connection_id = None.
Proof.
  intros Hfound Hactive Hflag2 Hchlo Hcid Hport Hflag.
  destruct (OnConnectionClosed_found X connection server_connection_id
              session s Hfound)
    as (s' & Hclose & Hin & _ & _ & _ & _ & _ & Hsessions & Hwritten
        & Hstore).
  rewrite bool_decide_eq_false_2 in Hclose by (by intros Hout).
  cbn zeta. rewrite Hclose. cbn [fst snd]. split; [done|].
  destruct (Hin _ Hactive) as [Hmap Htw].
  unfold MaybeDispatchPacket, find_replaced_session.
  rewrite Hport, Hflag, Hcid, Hmap, Hflag2. cbn [andb negb].
  rewrite andb_false_r.
  unfold MaybeDispatchPacket_unknown_connection.
  rewrite Hcid, Hstore, Hchlo. cbn [OnFailedToDispatchPacket].
  unfold IsConnectionIdInTimeWait. rewrite Htw.
  rewrite bool_decide_eq_true_2 by (by eexists).
  eexists. split; [reflexivity|].
  unfold TimeWaitList_ProcessPacket, answer_of. rewrite Htw.
  destruct (action (time_wait_entry_of X server_connection_id
                      (connection session))).
  - unfold SendPublicReset, write_packet.
    rewrite written_app. cbn [sessions reference_counted_session_map_ set_log].
    rewrite Hwritten, Hsessions. by split.
  - rewrite foldl_write_packet, written_app, filter_is_write_map.
    cbn [sessions reference_counted_session_map_ set_log].
    by rewrite Hwritten, Hsessions.
  - rewrite foldl_write_packet, written_app, filter_is_write_map.
    cbn [sessions reference_counted_session_map_ set_log].
    by rewrite Hwritten, Hsessions.
  - rewrite app_nil_r. by rewrite Hwritten, Hsessions.
Qed.

End Routing.

(** ** Concrete runs: further properties *)

Lemma sessions_within_budget_witness :
  length (sessions demo_buffered) = 0%nat
  ∧ length (sessions demo_drained) = 1%nat
  ∧ HasChlosBuffered demo_drained = true
  ∧ (length (sessions demo_drained)
     ≤ length (sessions demo_buffered) + N.to_nat 1)%nat.
Proof.
  split; [by vm_compute|]. split; [by vm_compute|]. split; [by vm_compute|].
  apply (sessions_within_budget demo_externals demo_flags 1 1
           [demo_arrival demo_other_chlo_datagram] demo_buffered demo_drained);
    by vm_compute.
Defined.

(** A budget of 32768 does not fit the quota: the quota is -32768 and the
    CHLO that waits in the store stays there.  A budget of one makes at most
    one session. *)
Lemma ProcessBufferedChlos_bounded_witness :
  ProcessBufferedChlos demo_externals demo_flags 32768 demo_buffered
  = set_new_sessions_allowed_per_event_loop (-32768) demo_buffered
  ∧ (length
       (sessions
          (ProcessBufferedChlos demo_externals demo_flags 1 demo_buffered))
     - length (sessions demo_buffered) ≤ 1)%nat.
Proof.
  split.
  - pose proof (ProcessBufferedChlos_bounded demo_externals demo_flags 32768
                  demo_buffered) as H.
    cbv zeta in H. destruct H as (Hnone & _). apply Hnone. by vm_compute.
  - pose proof (ProcessBufferedChlos_bounded demo_externals demo_flags 1
                  demo_buffered) as H.
    cbv zeta in H. destruct H as (_ & _ & _ & Hmax & _). exact Hmax.
Defined.

Lemma no_session_without_quota_witness :
  HasChlosBuffered demo_waiting = true
  ∧ length (sessions demo_waiting) = length (sessions (new_QuicDispatcher 8 true 0))
  ∧ factory_calls demo_waiting = factory_calls (new_QuicDispatcher 8 true 0)
  ∧ new_sessions_allowed_per_event_loop_ demo_waiting
    = new_sessions_allowed_per_event_loop_ (new_QuicDispatcher 8 true 0).
Proof.
  split; [by vm_compute|].
  apply (no_session_without_quota demo_externals demo_flags 1
           [demo_arrival demo_chlo_datagram; demo_arrival demo_later]
           (new_QuicDispatcher 8 true 0) demo_waiting);
    by vm_compute.
Defined.



Lemma ProcessPacket_without_encapsulation_witness :
  ∃ d',
    ∀ depth,
      ProcessPacket demo_externals demo_flags (S depth) demo_self demo_peer
        demo_chlo_datagram (new_QuicDispatcher 8 true 0) = Some d'.
Proof.
  apply (ProcessPacket_without_encapsulation demo_externals demo_flags).
  reflexivity.
Defined.



Lemma MaybeHandleLegacyVersionEncapsulation_outcome_witness :
  ∃ p d1,
    ProcessPacket demo_externals demo_flags 1 demo_self demo_peer p
      (new_QuicDispatcher 8 true 0) = Some d1
    ∧ demo_decapsulated
      = code_count "quic_legacy_version_encapsulation_decapsulated" d1
    ∧ data p = demo_inner_packet ++ replicate (1200 - 100) 0
    ∧ length (data p) = 1200%nat.
Proof.
  destruct (MaybeHandleLegacyVersionEncapsulation_outcome demo_externals
              (ProcessPacket demo_externals demo_flags 1) demo_inner_packet
              demo_chlo_packet_info (new_QuicDispatcher 8 true 0)
              demo_decapsulated true)
    as (p & d1 & Hre & Hd & Hdata & Hlen & _); [by vm_compute|].
  exists p, d1. split; [exact Hre|]. split; [exact Hd|].
  split; [exact Hdata|]. exact Hlen.
Defined.

Lemma TryAddNewConnectionId_then_retired_witness :
  reference_counted_session_map_
    (OnConnectionIdRetired demo_other_cid
       (TryAddNewConnectionId demo_cid demo_other_cid demo_established).1)
  = reference_counted_session_map_ demo_established
  ∧ sessions
      (OnConnectionIdRetired demo_other_cid
         (TryAddNewConnectionId demo_cid demo_other_cid demo_established).1)
    = sessions demo_established.
Proof.
  apply (TryAddNewConnectionId_then_retired demo_cid demo_other_cid
           demo_established).
  by vm_compute.
Defined.

Lemma OnConnectionClosed_unknown_connection_witness :
  ∃ s',
    OnConnectionClosed demo_externals demo_connection demo_other_cid
      demo_blocked = (s', false)
    ∧ log (dispatcher s')
      = log (dispatcher demo_blocked)
        ++ [QuicBug "quic_bug_10287_3"; QuicBug "quic_bug_10287_4"]
    ∧ set_log (log (dispatcher demo_blocked)) (dispatcher s')
      = dispatcher demo_blocked
    ∧ write_blocked_list_ s' = write_blocked_list_ demo_blocked
    ∧ closed_session_list_ s' = closed_session_list_ demo_blocked
    ∧ delete_sessions_alarm_ s' = delete_sessions_alarm_ demo_blocked.
Proof.
  apply (OnConnectionClosed_unknown_connection demo_externals demo_connection
           demo_other_cid demo_blocked).
  by vm_compute.
Defined.

Lemma OnConnectionClosed_closes_witness :
  ∃ s',
    OnConnectionClosed demo_externals demo_connection demo_cid demo_blocked
    = (s', false)
    ∧ reference_counted_session_map_ (dispatcher s') !! demo_cid = None
    ∧ action <$> time_wait_list_manager_ (dispatcher s') !! demo_cid
      = Some SEND_TERMINATION_PACKETS
    ∧ closed_session_list_ s' = [0%nat]
    ∧ write_blocked_list_ s' = [OtherWriter 1]
    ∧ num_sessions_in_session_map_ (dispatcher s') = 0.
Proof.
  destruct (OnConnectionClosed_closes demo_externals demo_connection demo_cid
              0%nat demo_blocked)
    as (s' & Hclose & Hactive & _ & Hclosed & _ & Hcount & _);
    [by vm_compute|by left|].
  exists s'. split; [exact Hclose|].
  destruct (Hactive demo_cid) as [Hmap Htw]; [by left|].
  split; [exact Hmap|]. split; [by rewrite Htw|].
  split; [exact Hclosed|].
  split; [|by rewrite Hcount by (by vm_compute)].
  vm_compute in Hclose. by injection Hclose as <-.
Defined.

(** The session is closed under [demo_cid], once by a connection that counts
    it among its active connection IDs and once by one that does not. *)
Lemma closed_session_deleted_quietly_witness :
  (dispatcher (DeleteSessions demo_closed) = dispatcher demo_closed
   ∧ write_blocked_list_ (DeleteSessions demo_closed)
     = write_blocked_list_ demo_closed
   ∧ closed_session_list_ (DeleteSessions demo_closed) = [])
  ∧ (OnConnectionClosed demo_externals demo_moved_connection demo_cid
       demo_blocked).2 = true
  ∧ (dispatcher (DeleteSessions demo_closed_moved)
     = dispatcher demo_closed_moved
     ∧ write_blocked_list_ (DeleteSessions demo_closed_moved)
       = write_blocked_list_ demo_closed_moved
     ∧ closed_session_list_ (DeleteSessions demo_closed_moved) = [])
  ∧ write_blocked_list_ demo_closed_moved = [OtherWriter 1].
Proof.
  split.
  { apply (closed_session_deleted_quietly demo_externals demo_connection
             demo_cid demo_blocked). by vm_compute. }
  split; [by vm_compute|]. split; [|by vm_compute].
  apply (closed_session_deleted_quietly demo_externals demo_moved_connection
           demo_cid demo_blocked). by vm_compute.
Defined.

Lemma OnCanWrite_outcome_witness :
  let s' := OnCanWrite demo_OnBlockedWriterCanWrite demo_blocked in
  write_blocked_list_ s' = [ConnectionWriter 0]
  ∧ write_blocked_list_ s' `sublist_of` write_blocked_list_ demo_blocked
  ∧ dispatcher s'
    = code_count "quic_blocked_again_on_can_write" (dispatcher demo_blocked).
Proof.
  destruct (OnCanWrite_outcome demo_OnBlockedWriterCanWrite) with
    (s := demo_blocked) as (Hsub & Hd & _).
  { intros [[|session]|address] s; auto. }
  cbn zeta. split; [by vm_compute|]. split; [exact Hsub|].
  rewrite Hd. by vm_compute.
Defined.

Lemma packets_follow_new_connection_id_witness :
  ∃ d2,
    MaybeDispatchPacket demo_externals demo_flags
      (ProcessPacket demo_externals demo_flags 0)
      demo_short_header_packet_info
      (TryAddNewConnectionId demo_cid demo_other_cid demo_established).1
    = Some (d2, true)
    ∧ sessions d2
      = alter
          (session_ProcessUdpPacket demo_self demo_peer
             demo_short_header_datagram) 0%nat (sessions demo_established).
Proof.
  destruct (packets_follow_new_connection_id demo_externals demo_flags
              (ProcessPacket demo_externals demo_flags 0)
              demo_cid demo_other_cid demo_established
              (TryAddNewConnectionId demo_cid demo_other_cid
                 demo_established).1
              demo_short_header_packet_info)
    as (session & d2 & Hsession & Hdispatch & Hsessions);
    [by vm_compute..|].
  exists d2. split; [exact Hdispatch|].
  vm_compute in Hsession. injection Hsession as <-. exact Hsessions.
Defined.

Lemma closed_connection_answered_from_time_wait_witness :
  ∃ d2,
    MaybeDispatchPacket demo_externals demo_flags
      (ProcessPacket demo_externals demo_flags 0) demo_short_packet_info
      (dispatcher demo_closed) = Some (d2, true)
    ∧ length (written d2) = S (length (written demo_established))
    ∧ sessions d2 = sessions demo_established.
Proof.
  destruct (closed_connection_answered_from_time_wait demo_externals
              demo_flags demo_connection
              (ProcessPacket demo_externals demo_flags 0) demo_cid 0%nat
              demo_blocked demo_short_packet_info)
    as (_ & d2 & Hdispatch & Hwritten & Hsessions & _);
    [by vm_compute|by left|by vm_compute..|].
  exists d2. split; [exact Hdispatch|]. split; [|exact Hsessions].
  rewrite Hwritten. rewrite length_app. cbn. lia.
Defined.
